(** * ClaudeChatProvider: the session and process orchestration engine

    A shallow embedding of the provider class of the chat relay: its
    state, [sendMessage] with the stdout, stderr, close and error
    handlers of the child it spawns, [_processJsonStreamData],
    [_sendAndSaveMessage], [_saveCurrentConversation], [loadConversation],
    [newSession], [stopCurrentRequest], [getWorkspaceFiles] and the legacy
    permission path; then the rest of the class: the listing, deleting
    and resuming of stored sessions, [loadLatestConversation],
    [cleanup], the settings, the allow-list and the permission requests
    that arrive as files; the decoding of the chunks that the child
    writes; and, of the server, the handler of a new connection and the
    sanitiser of project names.  Module [JS] holds the part of JavaScript the class
    relies on (strings of UTF-16 code units, JSON values, truthiness,
    [+], conversion to string) and module [JSON] the decoder
    [JSON.parse].  A method is a function from the world (the fields of
    [this] and what the provider reads from its surroundings) to its
    result, the world it leaves and the list of its effects. *)

From Stdlib Require Import ZArith NArith List String Ascii Bool Lia DecimalString.
From stdpp Require Import gmap.
Import ListNotations.

Set Warnings "-register-all".

Local Open Scope N_scope.
Local Open Scope list_scope.

(** ** JavaScript strings, numbers and values *)

Module JS.

(** A JavaScript string is a sequence of UTF-16 code units; [length],
    [substring] and [startsWith] all count code units. *)
Abbreviation jstring := (list N).

Definition lit (s : string) : jstring :=
  List.map N_of_ascii (list_ascii_of_string s).
Arguments lit s%_string.

Fixpoint str_eqb (a b : jstring) : bool :=
  match a, b with
  | [], [] => true
  | x :: a', y :: b' => N.eqb x y && str_eqb a' b'
  | _, _ => false
  end.

(** [s.startsWith(p)] *)
Fixpoint startsWith (p s : jstring) : bool :=
  match p, s with
  | [], _ => true
  | x :: p', y :: s' => N.eqb x y && startsWith p' s'
  | _ :: _, [] => false
  end.

(** [s.includes(p)] *)
Fixpoint includes (p s : jstring) : bool :=
  startsWith p s ||
  match s with
  | [] => false
  | _ :: s' => includes p s'
  end.

(** [s.substring(a, b)]: the arguments are swapped when [a > b] and
    clamped to the length. *)
Definition substring (a b : nat) (s : jstring) : jstring :=
  firstn (Nat.max a b - Nat.min a b) (skipn (Nat.min a b) s).

(** White space and line terminators, as [String.prototype.trim] removes
    them. *)
Definition is_space (c : N) : bool :=
  ((9 <=? c) && (c <=? 13)) || (c =? 32) || (c =? 160) || (c =? 5760)
  || ((8192 <=? c) && (c <=? 8202)) || (c =? 8232) || (c =? 8233)
  || (c =? 8239) || (c =? 8287) || (c =? 12288) || (c =? 65279).

Fixpoint trimStart (s : jstring) : jstring :=
  match s with
  | c :: s' => if is_space c then trimStart s' else s
  | [] => []
  end.

Definition trim (s : jstring) : jstring := rev (trimStart (rev (trimStart s))).

(** [s.split(sep)] for a separator of one code unit: never empty; the
    last element is the text after the last separator. *)
Fixpoint split_on (sep : N) (s : jstring) : list jstring :=
  match s with
  | [] => [[]]
  | c :: s' =>
      if c =? sep then [] :: split_on sep s'
      else match split_on sep s' with
           | l :: ls => (c :: l) :: ls
           | [] => [[c]]
           end
  end.

(** [s.replace(a, b)] for a string pattern: the first occurrence only. *)
Fixpoint replace_first (a b s : jstring) : jstring :=
  if startsWith a s then b ++ skipn (length a) s
  else match s with
       | [] => []
       | c :: s' => c :: replace_first a b s'
       end.

(** [parts.join(sep)] on strings. *)
Fixpoint join (sep : jstring) (parts : list jstring) : jstring :=
  match parts with
  | [] => []
  | [p] => p
  | p :: ps => p ++ sep ++ join sep ps
  end.

(** Numbers.  A number is NaN or an exact decimal [m * 10^e]; the
    rounding of binary64 is not modelled, and no statement below depends
    on the value of a sum. *)
Inductive number := NaN | Num (m e : Z).

Fixpoint strip_zeros (fuel : nat) (m e : Z) : Z * Z :=
  match fuel with
  | O => (m, e)
  | S f => if ((m mod 10 =? 0) && negb (m =? 0))%Z
           then strip_zeros f (m / 10)%Z (e + 1)%Z else (m, e)
  end.

Definition norm (m e : Z) : number :=
  if (m =? 0)%Z then Num 0 0
  else let '(m', e') := strip_zeros (Z.to_nat (Z.log2 (Z.abs m))) m e in
       Num m' e'.

Definition num_of_Z (z : Z) : number := norm z 0.
Definition num_of_nat (n : nat) : number := num_of_Z (Z.of_nat n).

Definition num_add (a b : number) : number :=
  match a, b with
  | Num m1 e1, Num m2 e2 =>
      let e := Z.min e1 e2 in
      norm (m1 * 10 ^ (e1 - e) + m2 * 10 ^ (e2 - e))%Z e
  | _, _ => NaN
  end.

Definition num_is_zero (a : number) : bool :=
  match a with Num m _ => (m =? 0)%Z | NaN => false end.

Definition num_eqb (a b : number) : bool :=
  match a, b with
  | Num m1 e1, Num m2 e2 =>
      let e := Z.min e1 e2 in
      (m2 * 10 ^ (e2 - e) =? m1 * 10 ^ (e1 - e))%Z
  | _, _ => false
  end.

Definition digits_of (z : Z) : jstring :=
  lit (NilZero.string_of_uint (N.to_uint (Z.to_N (Z.abs z)))).

(** [Number.prototype.toString] on a decimal. *)
Definition num_to_string (a : number) : jstring :=
  match a with
  | NaN => lit "NaN"
  | Num m e =>
      if (m =? 0)%Z then lit "0" else
      let d := digits_of m in
      let k := Z.of_nat (length d) in
      let n := (k + e)%Z in
      let sign := if (m <? 0)%Z then lit "-" else [] in
      sign ++
      (if ((k <=? n) && (n <=? 21))%Z then d ++ repeat 48 (Z.to_nat (n - k))
       else if ((0 <? n) && (n <=? 21))%Z
            then firstn (Z.to_nat n) d ++ lit "." ++ skipn (Z.to_nat n) d
       else if ((-6 <? n) && (n <=? 0))%Z
            then lit "0." ++ repeat 48 (Z.to_nat (- n)) ++ d
       else
         let ex := (n - 1)%Z in
         let se := (if (ex <? 0)%Z then lit "-" else lit "+") ++ digits_of ex in
         match d with
         | [c] => [c] ++ lit "e" ++ se
         | _ => firstn 1 d ++ lit "." ++ skipn 1 d ++ lit "e" ++ se
         end)
  end.

(** Values of JSON shape, and [undefined]. *)
Inductive value :=
| VUndef
| VNull
| VBool (b : bool)
| VNum (n : number)
| VStr (s : jstring)
| VArr (items : list value)
| VObj (fields : list (jstring * value)).

Definition str (s : string) : value := VStr (lit s).
Arguments str s%_string.

Definition num (z : Z) : value := VNum (num_of_Z z).

(** Truthiness: what [if (v)], [!v], [a || b] and [a && b] test. *)
Definition truthy (v : value) : bool :=
  match v with
  | VUndef | VNull => false
  | VBool b => b
  | VNum NaN => false
  | VNum n => negb (num_is_zero n)
  | VStr s => match s with [] => false | _ => true end
  | VArr _ | VObj _ => true
  end.

(** [a || b] *)
Definition or_else (a b : value) : value := if truthy a then a else b.

(** Own data properties of an object literal or of a decoded object:
    the first binding of a key is the only one. *)
Fixpoint lookup_field (k : jstring) (fs : list (jstring * value)) : value :=
  match fs with
  | [] => VUndef
  | (k', v) :: fs' => if str_eqb k k' then v else lookup_field k fs'
  end.

(** [o[k] = v] on the field list: replaces in place, or appends. *)
Fixpoint set_field (k : jstring) (v : value) (fs : list (jstring * value))
  : list (jstring * value) :=
  match fs with
  | [] => [(k, v)]
  | (k', v') :: fs' =>
      if str_eqb k k' then (k, v) :: fs' else (k', v') :: set_field k v fs'
  end.

(** [ToString], as template literals and string concatenation apply it. *)
Fixpoint to_string (v : value) : jstring :=
  match v with
  | VUndef => lit "undefined"
  | VNull => lit "null"
  | VBool true => lit "true"
  | VBool false => lit "false"
  | VNum n => num_to_string n
  | VStr s => s
  | VArr l =>
      join (lit ",")
        (List.map (fun x => match x with
                            | VUndef | VNull => []
                            | _ => to_string x
                            end) l)
  | VObj _ => lit "[object Object]"
  end.

(** [typeof v === 'string'] *)
Definition is_string (v : value) : bool :=
  match v with VStr _ => true | _ => false end.

(** [v === 'literal'] *)
Definition is_str (s : jstring) (v : value) : bool :=
  match v with VStr s' => str_eqb s' s | _ => false end.

(** [a === b].  Arrays and objects are compared by identity; every
    object the provider compares this way was decoded on its own, so two
    of them are never the same object. *)
Definition strict_eq (a b : value) : bool :=
  match a, b with
  | VUndef, VUndef => true
  | VNull, VNull => true
  | VBool x, VBool y => Bool.eqb x y
  | VNum x, VNum y => num_eqb x y
  | VStr x, VStr y => str_eqb x y
  | _, _ => false
  end.

(** [a + b]: concatenation once either side is (or converts to) a
    string, numeric addition otherwise. *)
Definition to_primitive (v : value) : value :=
  match v with
  | VArr _ | VObj _ => VStr (to_string v)
  | _ => v
  end.

Definition to_number (v : value) : number :=
  match v with
  | VNull => Num 0 0
  | VBool true => Num 1 0
  | VBool false => Num 0 0
  | VNum n => n
  | _ => NaN
  end.

Definition plus (a b : value) : value :=
  let pa := to_primitive a in
  let pb := to_primitive b in
  if is_string pa || is_string pb
  then VStr (to_string pa ++ to_string pb)
  else VNum (num_add (to_number pa) (to_number pb)).

(** What [JSON.parse (JSON.stringify v)] gives back for a value nested
    in a document: properties holding [undefined] are left out, and
    [undefined] items and NaN become [null]. *)
Fixpoint json_image (v : value) : value :=
  match v with
  | VUndef => VNull
  | VNum NaN => VNull
  | VArr l => VArr (List.map json_image l)
  | VObj fs =>
      VObj ((fix fields (fs : list (jstring * value)) :=
               match fs with
               | [] => []
               | (_, VUndef) :: fs' => fields fs'
               | (k, x) :: fs' => (k, json_image x) :: fields fs'
               end) fs)
  | _ => v
  end.

End JS.

(** ** [JSON.parse]

    The decoder is a pushdown automaton over the code units of the text:
    one [step] per code unit, a stack of the containers still open, and
    a mode that says what may come next.  It is total and reads the text
    once. *)

Module JSON.
Import JS.

(** A container that is still open: an array with the items read so
    far, or an object with the fields read so far and the key whose
    value is being read. *)
Inductive frame :=
| FArr (items : list value)
| FObj (fields : list (jstring * value)) (key : option jstring).

Inductive numphase := PMinus | PZero | PInt | PDot | PFrac | PE | PESign | PExp.

Record numlit := NumLit {
  neg : bool;        (* a leading minus sign *)
  mantissa : Z;      (* the digits before and after the point *)
  fracs : Z;         (* how many of them follow the point *)
  eneg : bool;       (* a minus sign in the exponent *)
  exponent : Z       (* the digits of the exponent *)
}.

Inductive mode :=
| MValue (close_ok : bool)   (* a value; right after '[' also ']' *)
| MKey (close_ok : bool)     (* a key; right after '{' also '}' *)
| MColon                     (* the ':' after a key *)
| MAfter (v : value)         (* [v] is complete: ',' or a closing bracket *)
| MStr (key : bool) (rev_units : jstring)
| MEsc (key : bool) (rev_units : jstring)
| MHex (key : bool) (rev_units : jstring) (todo : nat) (code : N)
| MNum (p : numphase) (l : numlit)
| MLit (rest : jstring) (v : value).

Definition pstate : Type := list frame * mode.

(** JSON white space: space, tab, line feed, carriage return. *)
Definition is_ws (c : N) : bool :=
  (c =? 32) || (c =? 9) || (c =? 10) || (c =? 13).

Definition is_digit (c : N) : bool := (48 <=? c) && (c <=? 57).

Definition digit_val (c : N) : Z := Z.of_N (c - 48).

Definition hex_val (c : N) : option N :=
  if (48 <=? c) && (c <=? 57) then Some (c - 48)
  else if (97 <=? c) && (c <=? 102) then Some (c - 87)
  else if (65 <=? c) && (c <=? 70) then Some (c - 55)
  else None.

Definition num_value (l : numlit) : value :=
  VNum (norm (if neg l then - mantissa l else mantissa l)%Z
             ((if eneg l then - exponent l else exponent l) - fracs l)%Z).

Definition accepting (p : numphase) : bool :=
  match p with
  | PZero | PInt | PFrac | PExp => true
  | _ => false
  end.

(** The code unit [c] right after the complete value [v]. *)
Definition after (v : value) (c : N) (st : list frame) : option pstate :=
  if is_ws c then Some (st, MAfter v)
  else match st with
       | FArr items :: st' =>
           if c =? 44 then Some (FArr (items ++ [v]) :: st', MValue false)
           else if c =? 93 then Some (st', MAfter (VArr (items ++ [v])))
           else None
       | FObj fs (Some k) :: st' =>
           if c =? 44 then Some (FObj (set_field k v fs) None :: st', MKey false)
           else if c =? 125 then Some (st', MAfter (VObj (set_field k v fs)))
           else None
       | _ => None
       end.

(** The closing quote of a string. *)
Definition close_string (key : bool) (s : jstring) (st : list frame)
  : option pstate :=
  if key then
    match st with
    | FObj fs None :: st' => Some (FObj fs (Some s) :: st', MColon)
    | _ => None
    end
  else Some (st, MAfter (VStr s)).

Definition add_digit (l : numlit) (c : N) : numlit :=
  NumLit (neg l) (mantissa l * 10 + digit_val c)%Z (fracs l) (eneg l) (exponent l).

Definition add_frac (l : numlit) (c : N) : numlit :=
  NumLit (neg l) (mantissa l * 10 + digit_val c)%Z (fracs l + 1)%Z (eneg l)
         (exponent l).

Definition add_exp (l : numlit) (c : N) : numlit :=
  NumLit (neg l) (mantissa l) (fracs l) (eneg l) (exponent l * 10 + digit_val c)%Z.

Definition is_e (c : N) : bool := (c =? 101) || (c =? 69).

Definition step_num (p : numphase) (l : numlit) (c : N) (st : list frame)
  : option pstate :=
  match p with
  | PMinus =>
      if c =? 48 then Some (st, MNum PZero l)
      else if is_digit c then Some (st, MNum PInt (add_digit l c))
      else None
  | PZero =>
      if c =? 46 then Some (st, MNum PDot l)
      else if is_e c then Some (st, MNum PE l)
      else after (num_value l) c st
  | PInt =>
      if is_digit c then Some (st, MNum PInt (add_digit l c))
      else if c =? 46 then Some (st, MNum PDot l)
      else if is_e c then Some (st, MNum PE l)
      else after (num_value l) c st
  | PDot =>
      if is_digit c then Some (st, MNum PFrac (add_frac l c)) else None
  | PFrac =>
      if is_digit c then Some (st, MNum PFrac (add_frac l c))
      else if is_e c then Some (st, MNum PE l)
      else after (num_value l) c st
  | PE =>
      if c =? 43 then Some (st, MNum PESign l)
      else if c =? 45
           then Some (st, MNum PESign
                            (NumLit (neg l) (mantissa l) (fracs l) true (exponent l)))
      else if is_digit c then Some (st, MNum PExp (add_exp l c))
      else None
  | PESign =>
      if is_digit c then Some (st, MNum PExp (add_exp l c)) else None
  | PExp =>
      if is_digit c then Some (st, MNum PExp (add_exp l c))
      else after (num_value l) c st
  end.

Definition step_escape (key : bool) (r : jstring) (c : N) (st : list frame)
  : option pstate :=
  if c =? 34 then Some (st, MStr key (34 :: r))
  else if c =? 92 then Some (st, MStr key (92 :: r))
  else if c =? 47 then Some (st, MStr key (47 :: r))
  else if c =? 98 then Some (st, MStr key (8 :: r))
  else if c =? 102 then Some (st, MStr key (12 :: r))
  else if c =? 110 then Some (st, MStr key (10 :: r))
  else if c =? 114 then Some (st, MStr key (13 :: r))
  else if c =? 116 then Some (st, MStr key (9 :: r))
  else if c =? 117 then Some (st, MHex key r 4 0)
  else None.

Definition step_value (close_ok : bool) (c : N) (st : list frame)
  : option pstate :=
  if is_ws c then Some (st, MValue close_ok)
  else if c =? 93 then
    match close_ok, st with
    | true, FArr [] :: st' => Some (st', MAfter (VArr []))
    | _, _ => None
    end
  else if c =? 123 then Some (FObj [] None :: st, MKey true)
  else if c =? 91 then Some (FArr [] :: st, MValue true)
  else if c =? 34 then Some (st, MStr false [])
  else if c =? 45 then Some (st, MNum PMinus (NumLit true 0 0 false 0))
  else if c =? 48 then Some (st, MNum PZero (NumLit false 0 0 false 0))
  else if is_digit c
       then Some (st, MNum PInt (NumLit false (digit_val c) 0 false 0))
  else if c =? 116 then Some (st, MLit (lit "rue") (VBool true))
  else if c =? 102 then Some (st, MLit (lit "alse") (VBool false))
  else if c =? 110 then Some (st, MLit (lit "ull") VNull)
  else None.

Definition step (ps : pstate) (c : N) : option pstate :=
  let '(st, m) := ps in
  match m with
  | MValue close_ok => step_value close_ok c st
  | MKey close_ok =>
      if is_ws c then Some (st, MKey close_ok)
      else if c =? 34 then Some (st, MStr true [])
      else if c =? 125 then
        match close_ok, st with
        | true, FObj [] None :: st' => Some (st', MAfter (VObj []))
        | _, _ => None
        end
      else None
  | MColon =>
      if is_ws c then Some (st, MColon)
      else if c =? 58 then Some (st, MValue false)
      else None
  | MAfter v => after v c st
  | MStr key r =>
      if c =? 34 then close_string key (rev r) st
      else if c =? 92 then Some (st, MEsc key r)
      else if c <? 32 then None
      else Some (st, MStr key (c :: r))
  | MEsc key r => step_escape key r c st
  | MHex key r todo code =>
      match hex_val c with
      | Some h =>
          match todo with
          | 1%nat => Some (st, MStr key ((code * 16 + h) :: r))
          | _ => Some (st, MHex key r (Nat.pred todo) (code * 16 + h))
          end
      | None => None
      end
  | MNum p l => step_num p l c st
  | MLit rest v =>
      match rest with
      | x :: rest' =>
          if c =? x
          then Some (st, match rest' with [] => MAfter v | _ => MLit rest' v end)
          else None
      | [] => None
      end
  end.

Fixpoint run (ps : pstate) (text : jstring) : option pstate :=
  match text with
  | [] => Some ps
  | c :: text' =>
      match step ps c with
      | Some ps' => run ps' text'
      | None => None
      end
  end.

(** The end of the text: one complete value, nothing left open. *)
Definition finish (ps : pstate) : option value :=
  match ps with
  | ([], MAfter v) => Some v
  | ([], MNum p l) => if accepting p then Some (num_value l) else None
  | _ => None
  end.

(** [JSON.parse(text)]; [None] stands for the SyntaxError it throws. *)
Definition parse (text : jstring) : option value :=
  match run ([], MValue false) text with
  | Some ps => finish ps
  | None => None
  end.

End JSON.

(** ** The provider's state and the world around it *)

Import JS.

(** What a pending permission request will do once it is answered: the
    legacy path keeps the [resolve] function of a promise; the file
    bridge ([_handlePermissionRequestFile]) installs a function that
    writes the response file next to the request file it was given and
    removes the request file. *)
Inductive resolver :=
| PromiseResolver (promise : nat)
| FileResolver (requestFile : jstring) (requestId : value).

(** The variables closed over by the handlers of one spawned child. *)
Record child := Child {
  rawOutput : jstring;     (* the incomplete last line of stdout *)
  errorOutput : jstring    (* everything read from stderr *)
}.

(** The project directory as [fs.readdirSync] and [fs.statSync] show it,
    a finite tree (links that loop back are not modelled).  A [Locked]
    directory cannot be listed; on a [Dangling] entry [statSync] throws;
    [File] is whatever else is not a directory. *)
Inductive node :=
| File
| Dir (entries : list (jstring * node))
| Locked
| Dangling.

(** The fields of [this], then what the provider reads from outside: the
    conversations directory (its entries in [readdirSync] order, each
    with the document it decodes to, if it decodes; [None] when the
    directory cannot be read or written), the presence of the MCP
    configuration file, the project tree, and the counters that number
    the readings of the clock, the children and the promises. *)
Record world := World {
  sessionStorePath : jstring;
  conversationsPath : jstring;
  mcpConfigPath : jstring;
  _currentClaudeProcess : option nat;
  _currentSessionId : value;
  _selectedModel : value;
  _isProcessing : bool;
  _totalCost : value;
  _totalTokensInput : value;
  _totalTokensOutput : value;
  _requestCount : number;
  _currentConversation : list value;
  _conversationStartTime : value;
  _permissions : gmap jstring value;
  _pendingPermissions : gmap jstring resolver;
  children : gmap nat child;
  conversations : option (list (jstring * option value));
  mcpConfigExists : bool;
  workspace : node;
  ticks : nat;
  spawned : nat;
  promises : nat
}.

Definition set__currentClaudeProcess (x : option nat) (w : world) : world :=
  {| sessionStorePath := sessionStorePath w;
     conversationsPath := conversationsPath w;
     mcpConfigPath := mcpConfigPath w; _currentClaudeProcess := x;
     _currentSessionId := _currentSessionId w;
     _selectedModel := _selectedModel w; _isProcessing := _isProcessing w;
     _totalCost := _totalCost w; _totalTokensInput := _totalTokensInput w;
     _totalTokensOutput := _totalTokensOutput w;
     _requestCount := _requestCount w;
     _currentConversation := _currentConversation w;
     _conversationStartTime := _conversationStartTime w;
     _permissions := _permissions w;
     _pendingPermissions := _pendingPermissions w; children := children w;
     conversations := conversations w; mcpConfigExists := mcpConfigExists w;
     workspace := workspace w; ticks := ticks w; spawned := spawned w;
     promises := promises w |}.

Definition set__currentSessionId (x : value) (w : world) : world :=
  {| sessionStorePath := sessionStorePath w;
     conversationsPath := conversationsPath w;
     mcpConfigPath := mcpConfigPath w;
     _currentClaudeProcess := _currentClaudeProcess w;
     _currentSessionId := x; _selectedModel := _selectedModel w;
     _isProcessing := _isProcessing w; _totalCost := _totalCost w;
     _totalTokensInput := _totalTokensInput w;
     _totalTokensOutput := _totalTokensOutput w;
     _requestCount := _requestCount w;
     _currentConversation := _currentConversation w;
     _conversationStartTime := _conversationStartTime w;
     _permissions := _permissions w;
     _pendingPermissions := _pendingPermissions w; children := children w;
     conversations := conversations w; mcpConfigExists := mcpConfigExists w;
     workspace := workspace w; ticks := ticks w; spawned := spawned w;
     promises := promises w |}.

Definition set__isProcessing (x : bool) (w : world) : world :=
  {| sessionStorePath := sessionStorePath w;
     conversationsPath := conversationsPath w;
     mcpConfigPath := mcpConfigPath w;
     _currentClaudeProcess := _currentClaudeProcess w;
     _currentSessionId := _currentSessionId w;
     _selectedModel := _selectedModel w; _isProcessing := x;
     _totalCost := _totalCost w; _totalTokensInput := _totalTokensInput w;
     _totalTokensOutput := _totalTokensOutput w;
     _requestCount := _requestCount w;
     _currentConversation := _currentConversation w;
     _conversationStartTime := _conversationStartTime w;
     _permissions := _permissions w;
     _pendingPermissions := _pendingPermissions w; children := children w;
     conversations := conversations w; mcpConfigExists := mcpConfigExists w;
     workspace := workspace w; ticks := ticks w; spawned := spawned w;
     promises := promises w |}.

Definition set__totalCost (x : value) (w : world) : world :=
  {| sessionStorePath := sessionStorePath w;
     conversationsPath := conversationsPath w;
     mcpConfigPath := mcpConfigPath w;
     _currentClaudeProcess := _currentClaudeProcess w;
     _currentSessionId := _currentSessionId w;
     _selectedModel := _selectedModel w; _isProcessing := _isProcessing w;
     _totalCost := x; _totalTokensInput := _totalTokensInput w;
     _totalTokensOutput := _totalTokensOutput w;
     _requestCount := _requestCount w;
     _currentConversation := _currentConversation w;
     _conversationStartTime := _conversationStartTime w;
     _permissions := _permissions w;
     _pendingPermissions := _pendingPermissions w; children := children w;
     conversations := conversations w; mcpConfigExists := mcpConfigExists w;
     workspace := workspace w; ticks := ticks w; spawned := spawned w;
     promises := promises w |}.

Definition set__totalTokensInput (x : value) (w : world) : world :=
  {| sessionStorePath := sessionStorePath w;
     conversationsPath := conversationsPath w;
     mcpConfigPath := mcpConfigPath w;
     _currentClaudeProcess := _currentClaudeProcess w;
     _currentSessionId := _currentSessionId w;
     _selectedModel := _selectedModel w; _isProcessing := _isProcessing w;
     _totalCost := _totalCost w; _totalTokensInput := x;
     _totalTokensOutput := _totalTokensOutput w;
     _requestCount := _requestCount w;
     _currentConversation := _currentConversation w;
     _conversationStartTime := _conversationStartTime w;
     _permissions := _permissions w;
     _pendingPermissions := _pendingPermissions w; children := children w;
     conversations := conversations w; mcpConfigExists := mcpConfigExists w;
     workspace := workspace w; ticks := ticks w; spawned := spawned w;
     promises := promises w |}.

Definition set__totalTokensOutput (x : value) (w : world) : world :=
  {| sessionStorePath := sessionStorePath w;
     conversationsPath := conversationsPath w;
     mcpConfigPath := mcpConfigPath w;
     _currentClaudeProcess := _currentClaudeProcess w;
     _currentSessionId := _currentSessionId w;
     _selectedModel := _selectedModel w; _isProcessing := _isProcessing w;
     _totalCost := _totalCost w; _totalTokensInput := _totalTokensInput w;
     _totalTokensOutput := x; _requestCount := _requestCount w;
     _currentConversation := _currentConversation w;
     _conversationStartTime := _conversationStartTime w;
     _permissions := _permissions w;
     _pendingPermissions := _pendingPermissions w; children := children w;
     conversations := conversations w; mcpConfigExists := mcpConfigExists w;
     workspace := workspace w; ticks := ticks w; spawned := spawned w;
     promises := promises w |}.

Definition set__requestCount (x : number) (w : world) : world :=
  {| sessionStorePath := sessionStorePath w;
     conversationsPath := conversationsPath w;
     mcpConfigPath := mcpConfigPath w;
     _currentClaudeProcess := _currentClaudeProcess w;
     _currentSessionId := _currentSessionId w;
     _selectedModel := _selectedModel w; _isProcessing := _isProcessing w;
     _totalCost := _totalCost w; _totalTokensInput := _totalTokensInput w;
     _totalTokensOutput := _totalTokensOutput w; _requestCount := x;
     _currentConversation := _currentConversation w;
     _conversationStartTime := _conversationStartTime w;
     _permissions := _permissions w;
     _pendingPermissions := _pendingPermissions w; children := children w;
     conversations := conversations w; mcpConfigExists := mcpConfigExists w;
     workspace := workspace w; ticks := ticks w; spawned := spawned w;
     promises := promises w |}.

Definition set__currentConversation (x : list value) (w : world) : world :=
  {| sessionStorePath := sessionStorePath w;
     conversationsPath := conversationsPath w;
     mcpConfigPath := mcpConfigPath w;
     _currentClaudeProcess := _currentClaudeProcess w;
     _currentSessionId := _currentSessionId w;
     _selectedModel := _selectedModel w; _isProcessing := _isProcessing w;
     _totalCost := _totalCost w; _totalTokensInput := _totalTokensInput w;
     _totalTokensOutput := _totalTokensOutput w;
     _requestCount := _requestCount w; _currentConversation := x;
     _conversationStartTime := _conversationStartTime w;
     _permissions := _permissions w;
     _pendingPermissions := _pendingPermissions w; children := children w;
     conversations := conversations w; mcpConfigExists := mcpConfigExists w;
     workspace := workspace w; ticks := ticks w; spawned := spawned w;
     promises := promises w |}.

Definition set__conversationStartTime (x : value) (w : world) : world :=
  {| sessionStorePath := sessionStorePath w;
     conversationsPath := conversationsPath w;
     mcpConfigPath := mcpConfigPath w;
     _currentClaudeProcess := _currentClaudeProcess w;
     _currentSessionId := _currentSessionId w;
     _selectedModel := _selectedModel w; _isProcessing := _isProcessing w;
     _totalCost := _totalCost w; _totalTokensInput := _totalTokensInput w;
     _totalTokensOutput := _totalTokensOutput w;
     _requestCount := _requestCount w;
     _currentConversation := _currentConversation w;
     _conversationStartTime := x; _permissions := _permissions w;
     _pendingPermissions := _pendingPermissions w; children := children w;
     conversations := conversations w; mcpConfigExists := mcpConfigExists w;
     workspace := workspace w; ticks := ticks w; spawned := spawned w;
     promises := promises w |}.

Definition set__permissions (x : gmap jstring value) (w : world) : world :=
  {| sessionStorePath := sessionStorePath w;
     conversationsPath := conversationsPath w;
     mcpConfigPath := mcpConfigPath w;
     _currentClaudeProcess := _currentClaudeProcess w;
     _currentSessionId := _currentSessionId w;
     _selectedModel := _selectedModel w; _isProcessing := _isProcessing w;
     _totalCost := _totalCost w; _totalTokensInput := _totalTokensInput w;
     _totalTokensOutput := _totalTokensOutput w;
     _requestCount := _requestCount w;
     _currentConversation := _currentConversation w;
     _conversationStartTime := _conversationStartTime w; _permissions := x;
     _pendingPermissions := _pendingPermissions w; children := children w;
     conversations := conversations w; mcpConfigExists := mcpConfigExists w;
     workspace := workspace w; ticks := ticks w; spawned := spawned w;
     promises := promises w |}.

Definition set__pendingPermissions (x : gmap jstring resolver) (w : world) : world :=
  {| sessionStorePath := sessionStorePath w;
     conversationsPath := conversationsPath w;
     mcpConfigPath := mcpConfigPath w;
     _currentClaudeProcess := _currentClaudeProcess w;
     _currentSessionId := _currentSessionId w;
     _selectedModel := _selectedModel w; _isProcessing := _isProcessing w;
     _totalCost := _totalCost w; _totalTokensInput := _totalTokensInput w;
     _totalTokensOutput := _totalTokensOutput w;
     _requestCount := _requestCount w;
     _currentConversation := _currentConversation w;
     _conversationStartTime := _conversationStartTime w;
     _permissions := _permissions w; _pendingPermissions := x;
     children := children w; conversations := conversations w;
     mcpConfigExists := mcpConfigExists w; workspace := workspace w;
     ticks := ticks w; spawned := spawned w; promises := promises w |}.

Definition set_children (x : gmap nat child) (w : world) : world :=
  {| sessionStorePath := sessionStorePath w;
     conversationsPath := conversationsPath w;
     mcpConfigPath := mcpConfigPath w;
     _currentClaudeProcess := _currentClaudeProcess w;
     _currentSessionId := _currentSessionId w;
     _selectedModel := _selectedModel w; _isProcessing := _isProcessing w;
     _totalCost := _totalCost w; _totalTokensInput := _totalTokensInput w;
     _totalTokensOutput := _totalTokensOutput w;
     _requestCount := _requestCount w;
     _currentConversation := _currentConversation w;
     _conversationStartTime := _conversationStartTime w;
     _permissions := _permissions w;
     _pendingPermissions := _pendingPermissions w; children := x;
     conversations := conversations w; mcpConfigExists := mcpConfigExists w;
     workspace := workspace w; ticks := ticks w; spawned := spawned w;
     promises := promises w |}.

Definition set_conversations (x : option (list (jstring * option value))) (w : world) : world :=
  {| sessionStorePath := sessionStorePath w;
     conversationsPath := conversationsPath w;
     mcpConfigPath := mcpConfigPath w;
     _currentClaudeProcess := _currentClaudeProcess w;
     _currentSessionId := _currentSessionId w;
     _selectedModel := _selectedModel w; _isProcessing := _isProcessing w;
     _totalCost := _totalCost w; _totalTokensInput := _totalTokensInput w;
     _totalTokensOutput := _totalTokensOutput w;
     _requestCount := _requestCount w;
     _currentConversation := _currentConversation w;
     _conversationStartTime := _conversationStartTime w;
     _permissions := _permissions w;
     _pendingPermissions := _pendingPermissions w; children := children w;
     conversations := x; mcpConfigExists := mcpConfigExists w;
     workspace := workspace w; ticks := ticks w; spawned := spawned w;
     promises := promises w |}.

Definition set_ticks (x : nat) (w : world) : world :=
  {| sessionStorePath := sessionStorePath w;
     conversationsPath := conversationsPath w;
     mcpConfigPath := mcpConfigPath w;
     _currentClaudeProcess := _currentClaudeProcess w;
     _currentSessionId := _currentSessionId w;
     _selectedModel := _selectedModel w; _isProcessing := _isProcessing w;
     _totalCost := _totalCost w; _totalTokensInput := _totalTokensInput w;
     _totalTokensOutput := _totalTokensOutput w;
     _requestCount := _requestCount w;
     _currentConversation := _currentConversation w;
     _conversationStartTime := _conversationStartTime w;
     _permissions := _permissions w;
     _pendingPermissions := _pendingPermissions w; children := children w;
     conversations := conversations w; mcpConfigExists := mcpConfigExists w;
     workspace := workspace w; ticks := x; spawned := spawned w;
     promises := promises w |}.

Definition set_spawned (x : nat) (w : world) : world :=
  {| sessionStorePath := sessionStorePath w;
     conversationsPath := conversationsPath w;
     mcpConfigPath := mcpConfigPath w;
     _currentClaudeProcess := _currentClaudeProcess w;
     _currentSessionId := _currentSessionId w;
     _selectedModel := _selectedModel w; _isProcessing := _isProcessing w;
     _totalCost := _totalCost w; _totalTokensInput := _totalTokensInput w;
     _totalTokensOutput := _totalTokensOutput w;
     _requestCount := _requestCount w;
     _currentConversation := _currentConversation w;
     _conversationStartTime := _conversationStartTime w;
     _permissions := _permissions w;
     _pendingPermissions := _pendingPermissions w; children := children w;
     conversations := conversations w; mcpConfigExists := mcpConfigExists w;
     workspace := workspace w; ticks := ticks w; spawned := x;
     promises := promises w |}.

Definition set_promises (x : nat) (w : world) : world :=
  {| sessionStorePath := sessionStorePath w;
     conversationsPath := conversationsPath w;
     mcpConfigPath := mcpConfigPath w;
     _currentClaudeProcess := _currentClaudeProcess w;
     _currentSessionId := _currentSessionId w;
     _selectedModel := _selectedModel w; _isProcessing := _isProcessing w;
     _totalCost := _totalCost w; _totalTokensInput := _totalTokensInput w;
     _totalTokensOutput := _totalTokensOutput w;
     _requestCount := _requestCount w;
     _currentConversation := _currentConversation w;
     _conversationStartTime := _conversationStartTime w;
     _permissions := _permissions w;
     _pendingPermissions := _pendingPermissions w; children := children w;
     conversations := conversations w; mcpConfigExists := mcpConfigExists w;
     workspace := workspace w; ticks := ticks w; spawned := spawned w;
     promises := x |}.

(** What the provider does to the outside, in order. *)
Inductive effect :=
| Post (type : jstring) (data : value)          (* this._postMessage({type, data}) *)
| Spawn (pid : nat) (args : list value) (input : value)
                                (* cp.spawn('claude', args); stdin.write(input); stdin.end() *)
| Kill (pid : nat)                              (* kill('SIGTERM') *)
| EndStdin (pid : nat)                          (* stdin.end() *)
| Write (path : list jstring) (doc : value)     (* fs.writeFileSync(path.join(...path), JSON.stringify(doc)) *)
| Unlink (path : jstring)                       (* fs.unlinkSync(path) *)
| Resolve (promise : nat) (approved : value).   (* resolve(approved) *)

(** An exception.  [Unmodelled] marks a run that leaves the model; no
    handler catches it. *)
Inductive exn := TypeError | SyntaxError | FsError | Unmodelled.

Inductive result (A : Type) :=
| Returns (a : A)
| Throws (e : exn).
Arguments Returns {A} a.
Arguments Throws {A} e.

(** A method: from the world to its result, the world it leaves and
    the effects it had. *)
Definition M (A : Type) : Type := world -> result A * world * list effect.

Definition ret {A} (a : A) : M A := fun w => (Returns a, w, []).

Definition bind {A B} (m : M A) (k : A -> M B) : M B := fun w =>
  match m w with
  | (Returns a, w1, t1) =>
      match k a w1 with
      | (r, w2, t2) => (r, w2, t1 ++ t2)
      end
  | (Throws e, w1, t1) => (Throws e, w1, t1)
  end.

Definition throw {A} (e : exn) : M A := fun w => (Throws e, w, []).

(** [try { m } catch (e) { h e }] *)
Definition try_catch {A} (m : M A) (h : exn -> M A) : M A := fun w =>
  match m w with
  | (Throws Unmodelled, w1, t1) => (Throws Unmodelled, w1, t1)
  | (Throws e, w1, t1) =>
      match h e w1 with
      | (r, w2, t2) => (r, w2, t1 ++ t2)
      end
  | (Returns a, w1, t1) => (Returns a, w1, t1)
  end.

Definition read {A} (f : world -> A) : M A := fun w => (Returns (f w), w, []).
Definition modify (f : world -> world) : M unit := fun w => (Returns tt, f w, []).
Definition emit (e : effect) : M unit := fun w => (Returns tt, w, [e]).

Declare Scope js_scope.
Delimit Scope js_scope with js.
Notation "x <- m ;; k" := (bind m (fun x => k))
  (at level 100, m at next level, right associativity) : js_scope.
Notation "m ;; k" := (bind m (fun _ => k))
  (at level 100, right associativity) : js_scope.
Local Open Scope js_scope.

Definition when (b : bool) (m : M unit) : M unit := if b then m else ret tt.

Fixpoint for_each {A} (f : A -> M unit) (l : list A) : M unit :=
  match l with
  | [] => ret tt
  | x :: l' => f x ;; for_each f l'
  end.

(** [l.find(p)] and [l.filter(p)] with a callback that may throw. *)
Fixpoint find_m {A} (p : A -> M bool) (l : list A) : M (option A) :=
  match l with
  | [] => ret None
  | x :: l' => b <- p x ;; if b then ret (Some x) else find_m p l'
  end.

Fixpoint filter_m {A} (p : A -> M bool) (l : list A) : M (list A) :=
  match l with
  | [] => ret []
  | x :: l' =>
      b <- p x ;; r <- filter_m p l' ;; ret (if b then x :: r else r)
  end.

(** An object literal. *)
Definition obj (fs : list (string * value)) : value :=
  VObj (List.map (fun kv => (lit (fst kv), snd kv)) fs).

(** [v.k] for the property names the provider reads from decoded data.
    None of them is a built-in property of a string, an array, a number
    or a boolean, so only objects have them; reading a property of
    [undefined] or [null] throws. *)
Definition prop (k : string) (v : value) : M value :=
  match v with
  | VUndef | VNull => throw TypeError
  | VObj fs => ret (lookup_field (lit k) fs)
  | _ => ret VUndef
  end.
Arguments prop k%_string v.

(** [v?.k] *)
Definition opt_prop (k : string) (v : value) : M value :=
  match v with
  | VUndef | VNull => ret VUndef
  | _ => prop k v
  end.
Arguments opt_prop k%_string v.

(** [v[0]] *)
Definition first_item (v : value) : M value :=
  match v with
  | VUndef | VNull => throw TypeError
  | VArr l => ret (hd VUndef l)
  | VStr s => ret (match s with c :: _ => VStr [c] | [] => VUndef end)
  | VObj fs => ret (lookup_field (lit "0") fs)
  | _ => ret VUndef
  end.

(** [v.trim()]: only strings have the method. *)
Definition trim_m (v : value) : M jstring :=
  match v with
  | VStr s => ret (trim s)
  | _ => throw TypeError
  end.

(** The items of [v.forEach(...)]: only arrays have the method. *)
Definition items_of (v : value) : M (list value) :=
  match v with
  | VArr l => ret l
  | _ => throw TypeError
  end.

(** The items a [for ... of] loop visits: those of an array, the code
    points of a string; nothing else that JSON can hold is iterable. *)
Fixpoint code_points (s : jstring) : list value :=
  match s with
  | [] => []
  | c :: s' =>
      match s' with
      | d :: s'' =>
          if (55296 <=? c) && (c <=? 56319) && (56320 <=? d) && (d <=? 57343)
          then VStr [c; d] :: match code_points s' with
                              | _ :: r => r
                              | [] => []
                              end
          else VStr [c] :: code_points s'
      | [] => [VStr [c]]
      end
  end.

Definition iterate (v : value) : M (list value) :=
  match v with
  | VArr l => ret l
  | VStr s => ret (code_points s)
  | _ => throw TypeError
  end.

(** ** The methods of [ClaudeChatProvider] *)

Section Provider.

(** The clock and two library functions are left open: the [n]-th
    reading of the time gives [clock n] milliseconds, which
    [toISOString] prints; [toLowerCase] is
    [String.prototype.toLowerCase]. *)
Variable clock : nat -> Z.
Variable toISOString : Z -> jstring.
Variable toLowerCase : jstring -> jstring.

(** [Date.now()] *)
Definition Date_now : M Z := fun w =>
  (Returns (clock (ticks w)), set_ticks (S (ticks w)) w, []).

(** [new Date().toISOString()] *)
Definition new_Date_toISOString : M value :=
  t <- Date_now ;; ret (VStr (toISOString t)).

(** [_postMessage]: the server replaces the method with one that sends
    the message to the active client. *)
Definition _postMessage (type : string) (data : value) : M unit :=
  emit (Post (lit type) data).

(** The entry that [_sendAndSaveMessage] appends for a message. *)
Definition timestampedMessage (timestamp : value) (type : string) (data : value)
  : value :=
  obj [("timestamp", timestamp); ("messageType", str type); ("data", data)]%string.

Definition _sendAndSaveMessage (type : string) (data : value) : M unit :=
  conversation <- read _currentConversation ;;
  when (length conversation =? 0)%nat
    (t <- new_Date_toISOString ;; modify (set__conversationStartTime t)) ;;
  timestamp <- new_Date_toISOString ;;
  modify (fun w =>
    set__currentConversation
      (_currentConversation w ++ [timestampedMessage timestamp type data]) w) ;;
  _postMessage type data.

(** The summary line of one item of a TodoWrite call. *)
Definition todo_line (todo : value) : M jstring :=
  status <- prop "status" todo ;;
  content <- prop "content" todo ;;
  priority <- prop "priority" todo ;;
  let tag := if is_str (lit "completed") status then lit "[DONE]"
             else if is_str (lit "in_progress") status then lit "[IN PROGRESS]"
             else lit "[TODO]" in
  ret ([10] ++ tag ++ lit " " ++ to_string content ++ lit " (priority: "
         ++ to_string priority ++ lit ")").

Fixpoint todo_lines (todos : list value) (toolInput : jstring) : M jstring :=
  match todos with
  | [] => ret toolInput
  | todo :: todos' =>
      line <- todo_line todo ;; todo_lines todos' (toolInput ++ line)
  end.

(** The callback of [jsonData.message.content.forEach]. *)
Definition process_content (content : value) : M unit :=
  type <- prop "type" content ;;
  text <- (if is_str (lit "text") type
           then t <- prop "text" content ;; trim_m t else ret []) ;;
  if is_str (lit "text") type && negb (length text =? 0)%nat
  then _sendAndSaveMessage "output" (VStr text)
  else
    thinking <- (if is_str (lit "thinking") type
                 then t <- prop "thinking" content ;; trim_m t else ret []) ;;
    if is_str (lit "thinking") type && negb (length thinking =? 0)%nat
    then _sendAndSaveMessage "thinking" (VStr thinking)
    else if is_str (lit "tool_use") type then
      name <- prop "name" content ;;
      input <- prop "input" content ;;
      todos <- (if is_str (lit "TodoWrite") name && truthy input
                then prop "todos" input else ret VUndef) ;;
      toolInput <- (if truthy todos
                    then items <- iterate todos ;;
                         todo_lines items (lit "Todo List Update:")
                    else ret []) ;;
      toolUseId <- prop "tool_use_id" content ;;
      _sendAndSaveMessage "toolUse"
        (obj [("toolInfo", name); ("toolInput", VStr toolInput);
              ("rawInput", input); ("toolName", name);
              ("toolUseId", toolUseId)]%string)
    else ret tt.

Definition _processJsonStreamData (jsonData : value) : M unit :=
  type <- prop "type" jsonData ;;
  if is_str (lit "system") type then
    subtype <- prop "subtype" jsonData ;;
    when (is_str (lit "init") subtype)
      (session_id <- prop "session_id" jsonData ;;
       modify (set__currentSessionId session_id) ;;
       tools <- prop "tools" jsonData ;;
       mcp_servers <- prop "mcp_servers" jsonData ;;
       _sendAndSaveMessage "sessionInfo"
         (obj [("sessionId", session_id);
               ("tools", or_else tools (VArr []));
               ("mcpServers", or_else mcp_servers (VArr []))]%string))
  else if is_str (lit "user") type then
    message <- prop "message" jsonData ;;
    contents <- (if truthy message then prop "content" message else ret VUndef) ;;
    content <- (if truthy contents then first_item contents else ret VUndef) ;;
    if truthy content then
      ctype <- prop "type" content ;;
      when (is_str (lit "tool_result") ctype)
        (c <- prop "content" content ;;
         is_error <- prop "is_error" content ;;
         tool_use_id <- prop "tool_use_id" content ;;
         name <- prop "name" content ;;
         _sendAndSaveMessage "toolResult"
           (obj [("content", or_else c (VStr []));
                 ("isError", or_else is_error (VBool false));
                 ("toolUseId", tool_use_id);
                 ("toolName", or_else name (str "unknown"))]%string))
    else ret tt
  else if is_str (lit "permission_request") type then ret tt
  else if is_str (lit "assistant") type then
    message <- prop "message" jsonData ;;
    role <- (if truthy message then prop "role" message else ret VUndef) ;;
    when (truthy message && is_str (lit "assistant") role)
      (usage <- prop "usage" message ;;
       when (truthy usage)
         (input_tokens <- prop "input_tokens" usage ;;
          output_tokens <- prop "output_tokens" usage ;;
          total_cost <- prop "total_cost" usage ;;
          cache_creation <- prop "cache_creation_input_tokens" usage ;;
          cache_read <- prop "cache_read_input_tokens" usage ;;
          modify (fun w => set__totalTokensInput
                    (plus (_totalTokensInput w) (or_else input_tokens (num 0))) w) ;;
          modify (fun w => set__totalTokensOutput
                    (plus (_totalTokensOutput w) (or_else output_tokens (num 0))) w) ;;
          modify (fun w => set__requestCount
                    (num_add (_requestCount w) (Num 1 0)) w) ;;
          w <- read (fun w => w) ;;
          _sendAndSaveMessage "updateTokens"
            (obj [("totalTokensInput", _totalTokensInput w);
                  ("totalTokensOutput", _totalTokensOutput w);
                  ("currentInputTokens", or_else input_tokens (num 0));
                  ("currentOutputTokens", or_else output_tokens (num 0));
                  ("currentCost", or_else total_cost (num 0));
                  ("requestCount", VNum (_requestCount w));
                  ("cacheCreationTokens", or_else cache_creation (num 0));
                  ("cacheReadTokens", or_else cache_read (num 0))]%string) ;;
          modify (fun w => set__totalCost
                    (plus (_totalCost w) (or_else total_cost (num 0))) w)) ;;
       content <- prop "content" message ;;
       items <- items_of content ;;
       for_each process_content items)
  else if is_str (lit "final") type then
    session_id <- prop "session_id" jsonData ;;
    when (truthy session_id) (modify (set__currentSessionId session_id)) ;;
    duration <- prop "duration" jsonData ;;
    cost <- prop "cost" jsonData ;;
    w <- read (fun w => w) ;;
    _sendAndSaveMessage "updateTotals"
      (obj [("totalCost", _totalCost w);
            ("totalTokensInput", _totalTokensInput w);
            ("totalTokensOutput", _totalTokensOutput w);
            ("requestCount", VNum (_requestCount w));
            ("totalDuration", or_else duration (num 0));
            ("currentDuration", or_else duration (num 0));
            ("currentCost", or_else cost (num 0))]%string)
  else if is_str (lit "result") type then
    session_id <- prop "session_id" jsonData ;;
    when (truthy session_id) (modify (set__currentSessionId session_id)) ;;
    usage <- prop "usage" jsonData ;;
    when (truthy usage)
      (input_tokens <- prop "input_tokens" usage ;;
       output_tokens <- prop "output_tokens" usage ;;
       total_cost_usd <- prop "total_cost_usd" jsonData ;;
       cache_creation <- prop "cache_creation_input_tokens" usage ;;
       cache_read <- prop "cache_read_input_tokens" usage ;;
       w <- read (fun w => w) ;;
       _sendAndSaveMessage "updateTokens"
         (obj [("totalTokensInput", _totalTokensInput w);
               ("totalTokensOutput", _totalTokensOutput w);
               ("currentInputTokens", or_else input_tokens (num 0));
               ("currentOutputTokens", or_else output_tokens (num 0));
               ("currentCost", or_else total_cost_usd (num 0));
               ("requestCount", VNum (_requestCount w));
               ("cacheCreationTokens", or_else cache_creation (num 0));
               ("cacheReadTokens", or_else cache_read (num 0))]%string))
  else ret tt.

(** A plain file name: not empty, without a separator or a NUL. *)
Definition plain_name (name : jstring) : bool :=
  negb (length name =? 0)%nat
  && negb (existsb (fun c => (c =? 47) || (c =? 0)) name).

Fixpoint put_file (name : jstring) (doc : option value)
    (files : list (jstring * option value)) : list (jstring * option value) :=
  match files with
  | [] => [(name, doc)]
  | (n, d) :: files' =>
      if str_eqb n name then (name, doc) :: files'
      else (n, d) :: put_file name doc files'
  end.

(** [fs.writeFileSync(path.join(this.conversationsPath, filename),
    JSON.stringify(doc, null, 2))].  The directory gains or replaces the
    entry [filename]; the write throws when the directory is not there or
    [filename] is no plain file name (a separator in it points outside the
    directory, whose own entries then stay as they are).  The effect
    [Write] is the call, whether or not it succeeds.  A directory that
    is there takes every plain name here; a file system refuses some
    (a name that is too long, an entry that is a directory), so what is
    stated of the stored file is stated for the case that the directory
    holds it. *)
Definition write_conversation (filename : jstring) (doc : value) : M unit :=
  dir <- read conversationsPath ;;
  emit (Write [dir; filename] doc) ;;
  files <- read conversations ;;
  match files with
  | Some fs =>
      if plain_name filename
      then modify (set_conversations
                     (Some (put_file filename (Some (json_image doc)) fs)))
      else throw FsError
  | None => throw FsError
  end.

(** The callback [m => m.k === 'literal']. *)
Definition property_is (k literal : string) (m : value) : M bool :=
  v <- prop k m ;; ret (is_str (lit literal) v).
Arguments property_is (k literal)%_string m.

(** The title of a record: the start of the first user message. *)
Definition title_of (data : value) : value :=
  match data with
  | VStr s =>
      if truthy data
      then VStr (trim (substring 0 50 s)
                 ++ (if (50 <? length s)%nat then lit "..." else []))
      else str "Untitled Conversation"
  | _ => str "Untitled Conversation"
  end.

(** The record of the current session. *)
Definition conversationData (w : world) (title endTime : value) : value :=
  obj [("sessionId", _currentSessionId w);
       ("title", title);
       ("startTime", _conversationStartTime w);
       ("endTime", endTime);
       ("messageCount", VNum (num_of_nat (length (_currentConversation w))));
       ("totalCost", _totalCost w);
       ("totalTokens", obj [("input", _totalTokensInput w);
                            ("output", _totalTokensOutput w)]);
       ("messages", VArr (_currentConversation w))]%string.

Definition _saveCurrentConversation : M unit :=
  sessionId <- read _currentSessionId ;;
  conversation <- read _currentConversation ;;
  if negb (truthy sessionId) || (length conversation =? 0)%nat then ret tt
  else
    firstUserMessage <-
      find_m (property_is "messageType" "userInput") conversation ;;
    data <- match firstUserMessage with
            | Some msg => prop "data" msg
            | None => ret VUndef
            end ;;
    let title := title_of data in
    endTime <- new_Date_toISOString ;;
    w <- read (fun w => w) ;;
    filename <- (if truthy sessionId
                 then ret (to_string sessionId ++ lit ".json")
                 else t <- Date_now ;;
                      ret (lit "conversation_" ++ num_to_string (num_of_Z t)
                             ++ lit ".json")) ;;
    try_catch (write_conversation filename (conversationData w title endTime))
              (fun _ => ret tt).

(** [cp.spawn('claude', args, ...)], then the message on its stdin. *)
Definition spawn (args : list value) (input : value) : M unit :=
  pid <- read spawned ;;
  modify (set_spawned (S pid)) ;;
  modify (set__currentClaudeProcess (Some pid)) ;;
  modify (fun w => set_children (<[pid := Child [] []]> (children w)) w) ;;
  emit (Spawn pid args input).

(** The test that chooses [--resume]: it calls [startsWith] on the
    identifier, which only a string has. *)
Definition assigned_by_claude (sessionId : value) : M bool :=
  if truthy sessionId then
    match sessionId with
    | VStr s => ret (negb (startsWith (lit "session_") s)
                     && negb (startsWith (lit "conversation_") s))
    | _ => throw TypeError
    end
  else ret false.

Definition permission_tool : value :=
  str "mcp__claude-code-chat-permissions__approval_prompt".

(** The argument list that [sendMessage] builds for the child, from the
    provider as it is once the user message is saved; [resume] is the
    outcome of the test on the session identifier. *)
Definition claude_arguments (w : world) (resume : bool) (thinkingMode : value)
  : list value :=
  let args := [str "-p"; str "--output-format"; str "stream-json"; str "--verbose"] in
  let args := if mcpConfigExists w
              then args ++ [str "--mcp-config"; VStr (mcpConfigPath w);
                            str "--allowedTools"; permission_tool;
                            str "--permission-prompt-tool"; permission_tool]
              else args in
  let args := if resume then args ++ [str "--resume"; _currentSessionId w]
              else if (0 <? length (_currentConversation w))%nat
                   then args ++ [str "--continue"]
                   else args in
  let args := if truthy (_selectedModel w)
                 && negb (is_str (lit "default") (_selectedModel w))
              then args ++ [str "--model"; _selectedModel w] else args in
  let args := if truthy thinkingMode then args ++ [str "--think"] else args in
  args.

Definition sendMessage (message planMode thinkingMode : value) : M unit :=
  busy <- read _isProcessing ;;
  if busy then
    _postMessage "error"
      (str "Already processing a message. Please wait or stop the current request.")
  else
    sessionId <- read _currentSessionId ;;
    when (negb (truthy sessionId))
      (t <- new_Date_toISOString ;; modify (set__conversationStartTime t)) ;;
    _sendAndSaveMessage "userInput" message ;;
    modify (set__isProcessing true) ;;
    _postMessage "setProcessing" (obj [("isProcessing", VBool true)]%string) ;;
    w <- read (fun w => w) ;;
    resume <- assigned_by_claude (_currentSessionId w) ;;
    let actualMessage :=
      if truthy planMode
      then VStr (lit "plan" ++ [10; 10] ++ to_string message) else message in
    spawn (claude_arguments w resume thinkingMode) (plus actualMessage (VStr [10])).

(** One complete line of stdout. *)
Definition process_line (line : jstring) : M unit :=
  when (negb (length (trim line) =? 0)%nat)
    (try_catch
       (match JSON.parse (trim line) with
        | Some jsonData => _processJsonStreamData jsonData
        | None => throw SyntaxError
        end)
       (fun _ => _sendAndSaveMessage "output" (VStr (trim line)))).

(** The handlers of the child [pid]: stdout data, stderr data, close
    and error.  The two data handlers are given here from their second
    line on: [chunk] is the text that [data.toString()] has made of the
    bytes of the event. *)
Definition on_stdout (pid : nat) (chunk : jstring) : M unit :=
  cs <- read children ;;
  match cs !! pid with
  | Some c =>
      let lines := split_on 10 (rawOutput c ++ chunk) in
      modify (set_children (<[pid := Child (List.last lines []) (errorOutput c)]> cs)) ;;
      for_each process_line (removelast lines)
  | None => ret tt
  end.

Definition on_stderr (pid : nat) (chunk : jstring) : M unit :=
  cs <- read children ;;
  match cs !! pid with
  | Some c =>
      modify (set_children (<[pid := Child (rawOutput c) (errorOutput c ++ chunk)]> cs))
  | None => ret tt
  end.

Definition on_close (pid : nat) (code : value) : M unit :=
  cs <- read children ;;
  match cs !! pid with
  | Some c =>
      current <- read _currentClaudeProcess ;;
      match current with
      | Some p => emit (EndStdin p)
      | None => ret tt
      end ;;
      modify (set__isProcessing false) ;;
      modify (set__currentClaudeProcess None) ;;
      _postMessage "setProcessing" (obj [("isProcessing", VBool false)]%string) ;;
      when (negb (strict_eq code (num 0)))
        (_sendAndSaveMessage "error"
           (or_else (VStr (trim (errorOutput c)))
                    (VStr (lit "Claude exited with code " ++ to_string code)))) ;;
      _saveCurrentConversation
  | None => ret tt
  end.

Definition on_error (pid : nat) (error : value) : M unit :=
  cs <- read children ;;
  match cs !! pid with
  | Some c =>
      modify (set__isProcessing false) ;;
      modify (set__currentClaudeProcess None) ;;
      _postMessage "setProcessing" (obj [("isProcessing", VBool false)]%string) ;;
      code <- prop "code" error ;;
      if is_str (lit "ENOENT") code
      then _sendAndSaveMessage "error"
             (str "Claude CLI not found. Please install it with: npm install -g @anthropic/claude-code")
      else message <- prop "message" error ;;
           _sendAndSaveMessage "error"
             (VStr (lit "Error running Claude: " ++ to_string message))
  | None => ret tt
  end.

Definition stopCurrentRequest : M unit :=
  current <- read _currentClaudeProcess ;;
  match current with
  | Some p =>
      emit (Kill p) ;;
      modify (set__currentClaudeProcess None) ;;
      modify (set__isProcessing false) ;;
      _sendAndSaveMessage "error" (str "Claude code was stopped.")
  | None => ret tt
  end.

Definition newSession : M unit :=
  stopCurrentRequest ;;
  _saveCurrentConversation ;;
  modify (set__currentSessionId VNull) ;;
  modify (set__currentConversation []) ;;
  modify (set__conversationStartTime VNull) ;;
  modify (set__totalCost (num 0)) ;;
  modify (set__totalTokensInput (num 0)) ;;
  modify (set__totalTokensOutput (num 0)) ;;
  modify (set__requestCount (num_of_Z 0)) ;;
  _postMessage "sessionCleared" VUndef.

(** [JSON.parse(fs.readFileSync(path.join(this.conversationsPath, f)))]
    on an entry of the conversations directory. *)
Definition read_document (content : option value) : M value :=
  match content with
  | Some v => ret v
  | None => throw SyntaxError
  end.

(** [conversation.messages || []] as the list of entries of the session.
    A session holds a sequence of entries; a record whose [messages] is
    some other true value is outside the model. *)
Definition entries_of (messages : value) : M (list value) :=
  match messages with
  | VArr l => ret l
  | _ => if truthy messages then throw Unmodelled else ret []
  end.

(** The callback of [files.find] in [loadConversation], on an entry of
    the directory: its name and what it holds. *)
Definition is_conversation_of (sessionId : value) (f : jstring * option value)
  : M bool :=
  if includes (to_string sessionId) (fst f) then ret true
  else try_catch
         (data <- read_document (snd f) ;;
          id <- prop "sessionId" data ;;
          ret (strict_eq id sessionId))
         (fun _ => ret false).

Definition loadConversation (sessionId : value) : M value :=
  try_catch
    (dir <- read conversations ;;
     files <- match dir with
              | Some fs => ret fs
              | None => throw FsError
              end ;;
     conversationFile <- find_m (is_conversation_of sessionId) files ;;
     match conversationFile with
     | None => ret VNull
     | Some f =>
         if (length (fst f) =? 0)%nat then ret VNull
         else
           conversation <- read_document (snd f) ;;
           id <- prop "sessionId" conversation ;;
           modify (set__currentSessionId id) ;;
           messages <- prop "messages" conversation ;;
           entries <- entries_of messages ;;
           modify (set__currentConversation entries) ;;
           startTime <- prop "startTime" conversation ;;
           modify (set__conversationStartTime startTime) ;;
           totalCost <- prop "totalCost" conversation ;;
           modify (set__totalCost (or_else totalCost (num 0))) ;;
           totalTokens <- prop "totalTokens" conversation ;;
           input <- opt_prop "input" totalTokens ;;
           modify (set__totalTokensInput (or_else input (num 0))) ;;
           output <- opt_prop "output" totalTokens ;;
           modify (set__totalTokensOutput (or_else output (num 0))) ;;
           items <- items_of messages ;;
           users <- filter_m (property_is "type" "userInput") items ;;
           modify (set__requestCount (num_of_nat (length users))) ;;
           ret conversation
     end)
    (fun _ => ret VNull).

(** [path.join(prefix, item)] for a relative directory path and the name
    of one of its entries, and [path.basename]. *)
Definition path_join (prefix item : jstring) : jstring :=
  prefix ++ [47] ++ item.

Definition basename (filepath : jstring) : jstring :=
  List.last (split_on 47 filepath) [].

(** [!searchTerm || item.toLowerCase().includes(searchTerm.toLowerCase())];
    only a string has [toLowerCase]. *)
Definition matches (searchTerm : value) (item : jstring) : result bool :=
  if negb (truthy searchTerm) then Returns true
  else match searchTerm with
       | VStr s => Returns (includes (toLowerCase s) (toLowerCase item))
       | _ => Throws TypeError
       end.

(** [item.startsWith('.') || item === 'node_modules'] *)
Definition skipped (item : jstring) : bool :=
  startsWith (lit ".") item || str_eqb item (lit "node_modules").

(** [searchDir(dir, prefix)]: the paths are pushed onto the shared
    [results]; whatever throws inside ends the listing of [dir] only. *)
Fixpoint searchDir (searchTerm : value) (dir : node) (prefix : jstring)
    (results : list jstring) : list jstring :=
  match dir with
  | Dir items =>
      (fix loop (items : list (jstring * node)) (results : list jstring) :=
         match items with
         | [] => results
         | (item, n) :: items' =>
             let relativePath :=
               if (length prefix =? 0)%nat then item else path_join prefix item in
             if skipped item then loop items' results
             else match n with
                  | Dangling => results
                  | File =>
                      match matches searchTerm item with
                      | Returns true => loop items' (results ++ [relativePath])
                      | Returns false => loop items' results
                      | Throws _ => results
                      end
                  | _ => loop items' (searchDir searchTerm n relativePath results)
                  end
         end) items results
  | _ => results
  end.

Definition getWorkspaceFiles (searchTerm : value) : M unit :=
  let searchTerm := match searchTerm with VUndef => VStr [] | _ => searchTerm end in
  root <- read workspace ;;
  let results := searchDir searchTerm root [] [] in
  let limited :=
    List.map (fun filepath => obj [("name", VStr (basename filepath));
                                   ("path", VStr filepath)]%string)
             (firstn 50 results) in
  _postMessage "workspaceFiles" (VArr limited).

(** *** The legacy permission path *)

(** [_savePermissions].  The fields of the document are given in the
    order of the keys of the map, which need not be the order in which
    JavaScript keeps them; what is stated of the document is stated up
    to the order of its fields. *)
Definition _savePermissions : M unit :=
  w <- read (fun w => w) ;;
  emit (Write [sessionStorePath w; lit "permissions.json"]
          (VObj (map_to_list (_permissions w)))).

(** What [handlePermissionRequest] returns: a promise already resolved,
    or one that waits for its [resolve]. *)
Inductive promise :=
| Resolved (v : value)
| Pending (p : nat).

Definition handlePermissionRequest (toolName command : value) : M promise :=
  let permissionKey := to_string toolName ++ lit ":" ++ to_string command in
  permissions <- read _permissions ;;
  if truthy (default VUndef (permissions !! permissionKey))
  then ret (Resolved (VBool true))
  else
    t <- Date_now ;;
    let requestId := lit "perm_" ++ num_to_string (num_of_Z t) in
    p <- read promises ;;
    modify (set_promises (S p)) ;;
    modify (fun w => set__pendingPermissions
              (<[requestId := PromiseResolver p]> (_pendingPermissions w)) w) ;;
    _postMessage "permissionRequest"
      (obj [("id", VStr requestId); ("tool", toolName); ("command", command)]%string) ;;
    ret (Pending p).

(** [this._pendingPermissions.get(id)]: the keys are strings. *)
Definition pending_get (id : value) (pending : gmap jstring resolver)
  : option resolver :=
  match id with
  | VStr s => pending !! s
  | _ => None
  end.

Definition pending_delete (id : value) (pending : gmap jstring resolver)
  : gmap jstring resolver :=
  match id with
  | VStr s => delete s pending
  | _ => pending
  end.

(** Whether [fs.writeFileSync] succeeds on a path outside the
    directories that the world holds: the answer of the file system at
    that moment, which is left open. *)
Variable writable : world -> jstring -> bool.

(** [resolver(approved)].  The function that the file bridge installs
    writes the response file outside any [try]: when the write fails it
    throws, before it removes the request file (whose removal may fail
    without consequence). *)
Definition call_resolver (r : resolver) (approved : value) : M unit :=
  match r with
  | PromiseResolver p => emit (Resolve p approved)
  | FileResolver requestFile requestId =>
      let responseFile :=
        replace_first (lit ".request") (lit ".response") requestFile in
      timestamp <- new_Date_toISOString ;;
      emit (Write [responseFile]
              (obj [("id", requestId); ("approved", approved);
                    ("timestamp", timestamp)]%string)) ;;
      written <- read (fun w => writable w responseFile) ;;
      if written then emit (Unlink requestFile) else throw FsError
  end.

Definition handlePermissionResponse (id approved alwaysAllow : value) : M unit :=
  pending <- read _pendingPermissions ;;
  match pending_get id pending with
  | Some resolver =>
      call_resolver resolver approved ;;
      modify (fun w => set__pendingPermissions
                (pending_delete id (_pendingPermissions w)) w) ;;
      when (truthy approved && truthy alwaysAllow)
        (pending <- read _pendingPermissions ;;
         match pending_get (plus id (str "_data")) pending with
         | Some data =>
             (* [data] is a resolver function: [data.tool] and
                [data.command] are undefined *)
             let permissionKey := to_string VUndef ++ lit ":" ++ to_string VUndef in
             modify (fun w => set__permissions
                       (<[permissionKey := VBool true]> (_permissions w)) w) ;;
             _savePermissions
         | None => ret tt
         end)
  | None => ret tt
  end.


(** *** Sample data *)

(** A text written with ['] where it has a double quote. *)
Definition quoted (s : string) : jstring :=
  List.map (fun c => if c =? 39 then 34 else c) (lit s).
Arguments quoted s%_string.

(** A stdout line of the assistant CLI that carries one text block. *)
Definition hello_line : jstring :=
  quoted "{'type':'assistant','message':{'role':'assistant','content':[{'type':'text','text':'Hello'}]}}".

(** The first stdout line of a run: the assistant CLI announces the
    session it opened. *)
Definition init_line : jstring :=
  quoted "{'type':'system','subtype':'init','session_id':'abc-1'}".

(** A later line: an assistant turn with its usage block. *)
Definition usage_line : jstring :=
  quoted "{'type':'assistant','message':{'role':'assistant','usage':{'input_tokens':12,'output_tokens':5},'content':[{'type':'text','text':'Hello'}]}}".

(** A clock that starts at some instant and advances by a millisecond
    at each reading, printed as its number of milliseconds, and a
    lower-casing of the letters A to Z: stand-ins for the three library
    functions in the sample runs. *)
Definition sample_clock (n : nat) : Z := (1700000000000 + Z.of_nat n)%Z.

Definition sample_toISOString (t : Z) : jstring := digits_of t.

Definition sample_toLowerCase (s : jstring) : jstring :=
  List.map (fun c => if (65 <=? c) && (c <=? 90) then c + 32 else c) s.

(** The provider as its constructor leaves it in a project that has no
    stored conversation, no saved permission and no saved settings. *)
Definition initial_world : world :=
  {| sessionStorePath := lit "/home/pi/project/.claude-code-chat";
     conversationsPath := lit "/home/pi/project/.claude-code-chat/conversations";
     mcpConfigPath := lit "/home/pi/project/.claude-code-chat/mcp-servers.json";
     _currentClaudeProcess := None;
     _currentSessionId := VNull;
     _selectedModel := str "default";
     _isProcessing := false;
     _totalCost := num 0;
     _totalTokensInput := num 0;
     _totalTokensOutput := num 0;
     _requestCount := num_of_Z 0;
     _currentConversation := [];
     _conversationStartTime := VNull;
     _permissions := ∅;
     _pendingPermissions := ∅;
     children := ∅;
     conversations := Some [];
     mcpConfigExists := true;
     workspace :=
       Dir [(lit "README.md", File);
            (lit ".git", Dir [(lit "config", File)]);
            (lit "node_modules", Dir [(lit "ws", Dir [(lit "index.js", File)])]);
            (lit "src", Dir [(lit "app.js", File); (lit ".env", File)])];
     ticks := 0;
     spawned := 0;
     promises := 0 |}.

(** A session that the assistant has named, with one user message of
    62 code units. *)
Definition long_text : jstring :=
  lit "Please refactor the session store and add tests for the loader".

Definition first_message : value :=
  timestampedMessage (str "2024-05-01T10:00:00.000Z") "userInput" (VStr long_text).

Definition sample_session : world :=
  set__currentConversation [first_message]
    (set__currentSessionId (str "abc-1") initial_world).

(** The parts of what a method gives back. *)
Definition result_of {A} (r : result A * world * list effect) : result A :=
  fst (fst r).
Definition world_after {A} (r : result A * world * list effect) : world :=
  snd (fst r).
Definition effects_of {A} (r : result A * world * list effect) : list effect :=
  snd r.

(** *** Reading the model's data in statements *)

(** [v.k] on a value that is known to be an object. *)
Definition field (k : string) (v : value) : value :=
  match v with
  | VObj fs => lookup_field (lit k) fs
  | _ => VUndef
  end.
Arguments field k%_string v.

(** An entry of the conversation (an object) whose [messageType] is
    [type], as the callback [msg => msg.messageType === type] sees it. *)
Definition messageType_is (type : string) (msg : value) : bool :=
  is_str (lit type) (field "messageType" msg).
Arguments messageType_is type%_string msg.

Definition is_object (v : value) : bool :=
  match v with VObj _ => true | _ => false end.

(** The document stored under [name] in the conversations directory. *)
Fixpoint get_file (name : jstring) (files : list (jstring * option value))
  : option value :=
  match files with
  | [] => None
  | (n, d) :: files' => if str_eqb n name then d else get_file name files'
  end.

Definition stored (name : jstring) (w : world) : option value :=
  match conversations w with
  | Some files => get_file name files
  | None => None
  end.

(** The names in a project tree are file names: not empty, without a
    separator. *)
Fixpoint well_named (n : node) : bool :=
  match n with
  | Dir entries =>
      (fix all (entries : list (jstring * node)) : bool :=
         match entries with
         | [] => true
         | (item, n') :: entries' =>
             plain_name item && well_named n' && all entries'
         end) entries
  | _ => true
  end.

(** The loop of [searchDir] over the entries of a directory, on its own. *)
Fixpoint scan (searchTerm : value) (prefix : jstring)
    (items : list (jstring * node)) (results : list jstring) : list jstring :=
  match items with
  | [] => results
  | (item, n) :: items' =>
      let relativePath :=
        if (length prefix =? 0)%nat then item else path_join prefix item in
      if skipped item then scan searchTerm prefix items' results
      else match n with
           | Dangling => results
           | File =>
               match matches searchTerm item with
               | Returns true => scan searchTerm prefix items' (results ++ [relativePath])
               | Returns false => scan searchTerm prefix items' results
               | Throws _ => results
               end
           | _ => scan searchTerm prefix items'
                    (searchDir searchTerm n relativePath results)
           end
  end.


(** What the callback of [find] in [loadConversation] answers for an
    entry of the directory: the name contains the identifier, or the
    file decodes to something whose [sessionId] is the identifier. *)
Definition record_named (sessionId : value) (f : jstring * option value) : bool :=
  includes (to_string sessionId) (fst f)
  || match snd f with
     | Some (VObj fs) => strict_eq (lookup_field (lit "sessionId") fs) sessionId
     | Some VUndef | Some VNull | None => false
     | Some _ => strict_eq VUndef sessionId
     end.

(** An effect other than a write to a file. *)
Definition not_a_write (e : effect) : bool :=
  match e with
  | Write _ _ => false
  | _ => true
  end.

(** *** Predicates on paths *)

(** A name without a separator. *)
Definition sep_free (s : jstring) : Prop := Forall (fun c => c <> 47) s.


(** A name that the listing keeps, and a path that goes down from the
    directory [segs] through kept names only. *)
Definition kept (s : jstring) : Prop := plain_name s = true /\ skipped s = false.

Definition below (segs : list jstring) (p : jstring) : Prop :=
  exists more, more <> [] /\ p = join [47] (segs ++ more) /\ Forall kept more.

Definition appends_below (searchTerm : value) (n : node) : Prop :=
  forall segs results,
    well_named n = true ->
    Forall (fun s => plain_name s = true) segs ->
    exists new,
      searchDir searchTerm n (join [47] segs) results = results ++ new
      /\ Forall (below segs) new.


(** ** The rest of the class *)

(** *** Stored sessions: listing, deleting, resuming *)

(** [s.endsWith(suffix)] *)
Definition endsWith (suffix s : jstring) : bool :=
  startsWith (rev suffix) (rev s).

(** Three more library functions are left open: the order in which
    [files.sort((a, b) => b.localeCompare(a))] leaves the names, the
    order in which
    [conversations.sort((a, b) => new Date(b.endTime) - new Date(a.endTime))]
    leaves the summaries, and the modification time of a file of the
    conversations directory as [stats.mtime.toISOString()] prints it. *)
Variable sort_names : list jstring -> list jstring.
Variable sort_by_endTime : list value -> list value.
Variable mtime : world -> jstring -> jstring.










Definition getSessionInfo : M value :=
  w <- read (fun w => w) ;;
  if negb (truthy (_currentSessionId w)) then ret VNull
  else ret (obj [("sessionId", _currentSessionId w);
                 ("totalCost", _totalCost w);
                 ("totalTokensInput", _totalTokensInput w);
                 ("totalTokensOutput", _totalTokensOutput w);
                 ("requestCount", VNum (_requestCount w))]%string).

(** [this._postMessage({type: type, data: data})] for a type read from
    an entry: a message type is a string, and an entry whose
    [messageType] is some other true value is outside the model. *)
Definition post_entry (type data : value) : M unit :=
  match type with
  | VStr t => emit (Post t data)
  | _ => throw Unmodelled
  end.

(** The callback of [this._currentConversation.forEach] in
    [loadLatestConversation]. *)
Definition replay (msg : value) : M unit :=
  messageType <- prop "messageType" msg ;;
  if truthy messageType then
    data <- prop "data" msg ;;
    when (truthy data) (post_entry messageType data)
  else ret tt.

Definition loadLatestConversation : M unit :=
  conversation <- read _currentConversation ;;
  for_each replay conversation ;;
  w <- read (fun w => w) ;;
  _postMessage "updateTotals"
    (obj [("totalCost", _totalCost w);
          ("totalTokensInput", _totalTokensInput w);
          ("totalTokensOutput", _totalTokensOutput w);
          ("requestCount", VNum (_requestCount w))]%string).

(** *** A client connects

    The handler of [connection] of the socket server in [server.js],
    for a provider that exists already.  [initializeChatProvider] makes
    [_postMessage] send the message on the active socket if it is open;
    the handler makes the new socket the active one, and the socket is
    open while the handler runs, so [ws.send(JSON.stringify(m))] in the
    handler and [_postMessage(m)] from it are the same effect, written
    [Post] here.  (A message without [data] and one whose [data] is
    [undefined] are the same text.)  Closing the socket that was active
    before and installing the router of the client's messages are left
    out. *)
Definition on_connection : M unit :=
  _postMessage "connected" VUndef ;;
  sessionInfo <- getSessionInfo ;;
  when (truthy sessionInfo)
    (_postMessage "sessionResumed" sessionInfo ;;
     loadLatestConversation).

(** [cleanup]: the class declares the method twice, and the later
    declaration is the one an instance has. *)
Definition cleanup : M unit :=
  stopCurrentRequest ;;
  _saveCurrentConversation.

(** *** Settings *)

Definition set__selectedModel (x : value) (w : world) : world :=
  {| sessionStorePath := sessionStorePath w;
     conversationsPath := conversationsPath w;
     mcpConfigPath := mcpConfigPath w;
     _currentClaudeProcess := _currentClaudeProcess w;
     _currentSessionId := _currentSessionId w;
     _selectedModel := x; _isProcessing := _isProcessing w;
     _totalCost := _totalCost w; _totalTokensInput := _totalTokensInput w;
     _totalTokensOutput := _totalTokensOutput w;
     _requestCount := _requestCount w;
     _currentConversation := _currentConversation w;
     _conversationStartTime := _conversationStartTime w;
     _permissions := _permissions w;
     _pendingPermissions := _pendingPermissions w; children := children w;
     conversations := conversations w; mcpConfigExists := mcpConfigExists w;
     workspace := workspace w; ticks := ticks w; spawned := spawned w;
     promises := promises w |}.

(** A file of the session store that is read whole: absent, or present
    with the document it decodes to, if it decodes. *)
Definition file_content : Type := option (option value).

(** [_loadSettings], given what [settings.json] holds. *)
Definition _loadSettings (file : file_content) : M unit :=
  try_catch
    (match file with
     | Some content =>
         settings <- read_document content ;;
         selectedModel <- prop "selectedModel" settings ;;
         modify (set__selectedModel (or_else selectedModel (str "default")))
     | None => ret tt
     end)
    (fun _ => ret tt).

(** The field [_thinkingMode] is read and written by the settings
    methods only; they take it as an argument, and [updateSettings]
    returns what it leaves there. *)
Definition settings_document (w : world) (_thinkingMode : value) : value :=
  obj [("selectedModel", _selectedModel w);
       ("thinkingMode", _thinkingMode)]%string.

Definition _saveSettings (_thinkingMode : value) : M unit :=
  w <- read (fun w => w) ;;
  emit (Write [sessionStorePath w; lit "settings.json"]
          (settings_document w _thinkingMode)).

Definition selectModel (model _thinkingMode : value) : M unit :=
  modify (set__selectedModel model) ;;
  _saveSettings _thinkingMode.

Definition getSettings (_thinkingMode : value) : M unit :=
  w <- read (fun w => w) ;;
  _postMessage "settings" (settings_document w _thinkingMode).

Definition updateSettings (settings _thinkingMode : value) : M value :=
  selectedModel <- prop "selectedModel" settings ;;
  when (truthy selectedModel) (modify (set__selectedModel selectedModel)) ;;
  thinkingMode <- prop "thinkingMode" settings ;;
  let _thinkingMode :=
    if strict_eq thinkingMode VUndef then _thinkingMode else thinkingMode in
  _saveSettings _thinkingMode ;;
  ret _thinkingMode.

(** *** The allow-list, and requests that arrive as files *)

(** [Object.entries(this._permissions)]: the order of the entries is
    left open; that they are the entries of the allow-list is a
    hypothesis where the listing is stated. *)
Variable Object_entries : gmap jstring value -> list (jstring * value).

(** [JSON.stringify(v, null, 2)] *)
Variable JSON_stringify : value -> value.

(** [_loadPermissions], given what [permissions.json] holds.  The
    allow-list is an object; a file that decodes to anything else is
    outside the model. *)
Definition _loadPermissions (file : file_content) : M unit :=
  try_catch
    (match file with
     | Some content =>
         permissions <- read_document content ;;
         match permissions with
         | VObj fs => modify (set__permissions (list_to_map fs))
         | _ => throw Unmodelled
         end
     | None => ret tt
     end)
    (fun _ => ret tt).

(** [const [tool, ...commandParts] = key.split(':')] and the object
    pushed for the key. *)
Definition permission_of (key : jstring) : value :=
  match split_on 58 key with
  | tool :: commandParts =>
      obj [("tool", VStr tool);
           ("command", VStr (join (lit ":") commandParts))]%string
  | [] => obj [("tool", VUndef); ("command", VStr [])]%string
  end.

Definition getPermissions : M unit :=
  permissions <- read _permissions ;;
  _postMessage "permissions"
    (VArr (List.map (fun kv => permission_of (fst kv))
             (List.filter (fun kv => truthy (snd kv))
                (Object_entries permissions)))).

Definition removePermission (tool command : value) : M unit :=
  let permissionKey := to_string tool ++ lit ":" ++ to_string command in
  modify (fun w => set__permissions (delete permissionKey (_permissions w)) w) ;;
  _savePermissions ;;
  getPermissions.

(** [_handlePermissionRequestFile], given what the request file holds.
    The function installed for the request reads [request.id] when it is
    called; a request that decodes to [null] installs one that throws
    then, which is outside the model. *)
Definition _handlePermissionRequestFile (requestFile : jstring)
    (content : option value) : M unit :=
  try_catch
    (request <- read_document content ;;
     t <- Date_now ;;
     let uiRequestId := num_to_string (num_of_Z t) in
     match request with
     | VUndef | VNull => throw Unmodelled
     | _ =>
         id <- prop "id" request ;;
         modify (fun w => set__pendingPermissions
                   (<[uiRequestId := FileResolver requestFile id]>
                      (_pendingPermissions w)) w) ;;
         tool <- prop "tool" request ;;
         input <- prop "input" request ;;
         _postMessage "permissionRequest"
           (obj [("id", VStr uiRequestId); ("tool", tool);
                 ("command", JSON_stringify input)]%string)
     end)
    (fun _ => ret tt).

(** *** Chunks as they arrive

    A [data] event of [stdout] or [stderr] carries a [Buffer], and each
    handler begins with [data.toString()]: the bytes of that one chunk
    are decoded as UTF-8, on their own.  The decoder puts U+FFFD in the
    place of every maximal part of an ill-formed sequence: a byte that
    cannot begin a sequence, a sequence that the next byte does not
    continue, and a sequence that the end of the chunk cuts short. *)

(** Between two bytes the decoder is at the start of a character or
    inside a sequence: the bits read so far, the number of bytes that
    must follow the next one, and the range of the next byte. *)
Inductive utf8_state :=
| Utf8Start
| Utf8Inside (bits : N) (more : nat) (lower upper : N).

(** The code units of a code point. *)
Definition utf16 (code_point : N) : jstring :=
  if code_point <? 0x10000 then [code_point]
  else [0xD800 + (code_point - 0x10000) / 0x400;
        0xDC00 + (code_point - 0x10000) mod 0x400].

(** A byte at the start of a character. *)
Definition utf8_first (b : N) : utf8_state * jstring :=
  if b <=? 0x7F then (Utf8Start, [b])
  else if (0xC2 <=? b) && (b <=? 0xDF)
  then (Utf8Inside (N.land b 0x1F) 0 0x80 0xBF, [])
  else if (0xE0 <=? b) && (b <=? 0xEF)
  then (Utf8Inside (N.land b 0x0F) 1
          (if b =? 0xE0 then 0xA0 else 0x80)
          (if b =? 0xED then 0x9F else 0xBF), [])
  else if (0xF0 <=? b) && (b <=? 0xF4)
  then (Utf8Inside (N.land b 0x07) 2
          (if b =? 0xF0 then 0x90 else 0x80)
          (if b =? 0xF4 then 0x8F else 0xBF), [])
  else (Utf8Start, [0xFFFD]).

(** One byte: the state it leaves and the code units it completes.  A
    byte that does not continue the sequence it finds ends that
    sequence with U+FFFD and is read again as a first byte. *)
Definition utf8_step (st : utf8_state) (b : N) : utf8_state * jstring :=
  match st with
  | Utf8Start => utf8_first b
  | Utf8Inside bits more lower upper =>
      if (lower <=? b) && (b <=? upper)
      then
        let bits' := N.lor (N.shiftl bits 6) (N.land b 0x3F) in
        match more with
        | O => (Utf8Start, utf16 bits')
        | S more' => (Utf8Inside bits' more' 0x80 0xBF, [])
        end
      else
        let (st', units) := utf8_first b in (st', 0xFFFD :: units)
  end.

Fixpoint utf8_run (st : utf8_state) (data : list Byte.byte) : utf8_state * jstring :=
  match data with
  | [] => (st, [])
  | b :: data' =>
      let (st1, units) := utf8_step st (Byte.to_N b) in
      let (st2, units') := utf8_run st1 data' in
      (st2, units ++ units')
  end.

(** The end of the chunk. *)
Definition utf8_end (st : utf8_state) : jstring :=
  match st with
  | Utf8Start => []
  | Utf8Inside _ _ _ _ => [0xFFFD]
  end.

(** [data.toString()] *)
Definition Buffer_toString (data : list Byte.byte) : jstring :=
  let (st, units) := utf8_run Utf8Start data in units ++ utf8_end st.

(** The two data handlers, whole. *)
Definition on_stdout_data (pid : nat) (data : list Byte.byte) : M unit :=
  on_stdout pid (Buffer_toString data).

Definition on_stderr_data (pid : nat) (data : list Byte.byte) : M unit :=
  on_stderr pid (Buffer_toString data).

(** Whether the bytes end where a character ends, that is, not inside
    a sequence. *)
Definition ends_on_character (data : list Byte.byte) : bool :=
  match fst (utf8_run Utf8Start data) with
  | Utf8Start => true
  | Utf8Inside _ _ _ _ => false
  end.

(** The bytes of a text in ASCII. *)
Definition ascii_bytes (s : jstring) : list Byte.byte :=
  List.map (fun c => default Byte.x00 (Byte.of_N c)) s.

(** The provider at the moment the function installed for a file
    request writes its answer: it has just read the clock for the time
    of the answer. *)
Definition at_the_write (w : world) : world := set_ticks (S (ticks w)) w.

(** *** Properties of methods *)

(** A method that always returns, and one that never leaves the model. *)
Definition returns {A} (m : M A) : Prop :=
  forall w, exists a, result_of (m w) = Returns a.

Definition modelled {A} (m : M A) : Prop :=
  forall w, result_of (m w) <> Throws Unmodelled.

(** A relation between the world before, the effects and the world
    after that every run of a method respects, however it ends. *)
Definition holds {A} (R : world -> list effect -> world -> Prop) (m : M A) : Prop :=
  forall w, R w (effects_of (m w)) (world_after (m w)).

(** Such a relation can be followed along a method when doing nothing
    respects it and two runs in a row do. *)
Class Stepwise (R : world -> list effect -> world -> Prop) : Prop := {
  step_none : forall w, R w [] w;
  step_then : forall w1 t1 w2 t2 w3, R w1 t1 w2 -> R w2 t2 w3 -> R w1 (t1 ++ t2) w3
}.

(** The method leaves [g] as it was. *)
Definition keeps {A} (g : world -> A) : world -> list effect -> world -> Prop :=
  fun w _ w' => g w' = g w.

(** Every effect of the method satisfies [P]. *)
Definition emits (P : effect -> Prop) : world -> list effect -> world -> Prop :=
  fun _ t _ => Forall P t.

(** The conversation only gains entries at its end. *)
Definition grows : world -> list effect -> world -> Prop :=
  fun w _ w' =>
    exists new, _currentConversation w' = _currentConversation w ++ new.

(** The message that an entry of the conversation records. *)
Definition posted (entry : value) (e : effect) : Prop :=
  exists type, type <> []
    /\ field "messageType" entry = VStr type
    /\ e = Post type (field "data" entry).

(** The entries that the method appends and the messages it posts are
    the same, in the same order, and it has no other effect. *)
Definition logs : world -> list effect -> world -> Prop :=
  fun w t w' =>
    exists new, _currentConversation w' = _currentConversation w ++ new
                /\ Forall2 posted new t.

(** The method does not look at what [f] changes and does not undo it. *)
Definition frames {A} (f : world -> world) (m : M A) : Prop :=
  forall w, m (f w) = (result_of (m w), f (world_after (m w)), effects_of (m w)).

Definition is_post (e : effect) : Prop :=
  match e with Post _ _ => True | _ => False end.

(** What a data event has no business with: the supervisor's handle and
    flag, the stores, the allow-list and the pending requests, the
    settings and the surroundings. *)
Definition beyond_the_session (w : world) :=
  (sessionStorePath w, conversationsPath w, mcpConfigPath w,
   _currentClaudeProcess w, _isProcessing w, _selectedModel w,
   _permissions w, _pendingPermissions w, conversations w,
   mcpConfigExists w, workspace w, spawned w, promises w).


Definition supervision (w : world) : bool * option nat :=
  (_isProcessing w, _currentClaudeProcess w).

Definition is_kill (e : effect) : bool :=
  match e with Kill _ => true | _ => false end.

Definition is_spawn (e : effect) : bool :=
  match e with Spawn _ _ _ => true | _ => false end.

(** What [sendMessage] does once the user message is recorded. *)
Definition start_child (message planMode thinkingMode : value) : M unit :=
  modify (set__isProcessing true) ;;
  _postMessage "setProcessing" (obj [("isProcessing", VBool true)]%string) ;;
  w <- read (fun w => w) ;;
  resume <- assigned_by_claude (_currentSessionId w) ;;
  let actualMessage :=
    if truthy planMode
    then VStr (lit "plan" ++ [10; 10] ++ to_string message) else message in
  spawn (claude_arguments w resume thinkingMode) (plus actualMessage (VStr [10])).

(** The fields of an object after [JSON.stringify] and [JSON.parse]. *)
Definition json_fields (fs : list (jstring * value)) : list (jstring * value) :=
  match json_image (VObj fs) with
  | VObj fields => fields
  | _ => []
  end.

(** The text whose start becomes the title of the record: the data of
    the first user-input entry. *)
Definition first_user_input (conversation : list value) : value :=
  match List.find (messageType_is "userInput") conversation with
  | Some msg => field "data" msg
  | None => VUndef
  end.

(** The files that [getConversationList] lists: those named [*.json]
    that decode to something with properties. *)
Definition listed (f : jstring * option value) : bool :=
  endsWith (lit ".json") (fst f)
  && match snd f with
     | Some VUndef | Some VNull | None => false
     | Some _ => true
     end.



(** A message that [loadLatestConversation] shows again: one whose data
    is true. *)
Definition shown (e : effect) : bool :=
  match e with
  | Post _ data => truthy data
  | _ => false
  end.

(** What [getSessionInfo] returns for a session that has an identifier. *)
Definition session_info (w : world) : value :=
  obj [("sessionId", _currentSessionId w);
       ("totalCost", _totalCost w);
       ("totalTokensInput", _totalTokensInput w);
       ("totalTokensOutput", _totalTokensOutput w);
       ("requestCount", VNum (_requestCount w))]%string.

(** The totals that [loadLatestConversation] posts last. *)
Definition totals (w : world) : value :=
  obj [("totalCost", _totalCost w);
       ("totalTokensInput", _totalTokensInput w);
       ("totalTokensOutput", _totalTokensOutput w);
       ("requestCount", VNum (_requestCount w))]%string.

(** Whether a session identifier is one to resume: a string that is
    not empty and was not made up by the provider. *)
Definition resumable (sessionId : value) : bool :=
  match sessionId with
  | VStr s => negb (length s =? 0)%nat
              && negb (startsWith (lit "session_") s)
              && negb (startsWith (lit "conversation_") s)
  | _ => false
  end.

(** Whether a request for the tool and the command is allowed at once. *)
Definition allowed (permissions : gmap jstring value) (toolName command : value)
  : bool :=
  truthy (default VUndef
            (permissions !! (to_string toolName ++ lit ":" ++ to_string command))).

(** *** The server: names of new projects *)

(** The class [a-zA-Z0-9-_] of the pattern that [/api/projects/create]
    applies to the name of a new project, and
    [projectName.replace(/[^a-zA-Z0-9-_]/g, '-')], which works on code
    units. *)
Definition name_unit (c : N) : bool :=
  ((97 <=? c) && (c <=? 122)) || ((65 <=? c) && (c <=? 90))
  || ((48 <=? c) && (c <=? 57)) || (c =? 45) || (c =? 95).

Definition sanitizedName (projectName : jstring) : jstring :=
  List.map (fun c => if name_unit c then c else 45) projectName.

(** *** More sample data *)







Definition sample_Object_entries (permissions : gmap jstring value)
  : list (jstring * value) :=
  map_to_list permissions.

Definition sample_JSON_stringify (v : value) : value :=
  match v with
  | VUndef => VUndef
  | VStr s => VStr ([34] ++ s ++ [34])
  | _ => VStr (to_string v)
  end.

(** A file system that takes every response file, and one that takes
    those whose path ends in [.response] only (any other path lies in a
    directory that is not there). *)
Definition sample_writable (w : world) (path : jstring) : bool := true.

Definition strict_writable (w : world) (path : jstring) : bool :=
  endsWith (lit ".response") path.

(** A clock that stands still. *)
Definition stopped_clock (n : nat) : Z := 1700000000000%Z.

(** A provider with three entries in its allow-list, one of them
    switched off. *)
Definition with_permissions : world :=
  set__permissions
    (<[lit "Bash:ls -la" := VBool true]>
       (<[lit "Read:notes.txt" := VBool true]>
          (<[lit "Bash:rm -rf /" := VBool false]> ∅)))
    initial_world.

(** A request of the permission bridge, as its file decodes. *)
Definition sample_request : value :=
  obj [("id", str "req-7"); ("tool", str "Bash"); ("input", str "ls")]%string.
(** ** Properties of the methods *)

(** Every call of [_sendAndSaveMessage] returns, appends the entry of
    its message to the conversation and posts the message; the process
    handle, the processing flag, the session identifier, the store and
    the children are as before. *)
Lemma sendAndSave_spec (type : string) (data : value) (w : world) :
  exists timestamp w',
    _sendAndSaveMessage type data w = (Returns tt, w', [Post (lit type) data])
    /\ _currentConversation w'
       = _currentConversation w ++ [timestampedMessage timestamp type data]
    /\ _currentClaudeProcess w' = _currentClaudeProcess w
    /\ _isProcessing w' = _isProcessing w
    /\ _currentSessionId w' = _currentSessionId w
    /\ conversations w' = conversations w
    /\ children w' = children w.
Proof.
  unfold _sendAndSaveMessage, bind, read, when.
  destruct (length (_currentConversation w) =? 0)%nat; cbn;
    eexists; eexists; repeat split; reflexivity.
Qed.

(** C1.  While a request is in flight, [sendMessage] posts the busy
    error to the client and does nothing else: the world it leaves is
    the one it found (session identifier, entries, totals, processing
    flag and all the rest), no entry is appended and no child is
    spawned. *)
Theorem sendMessage_busy (message planMode thinkingMode : value) (w : world) :
  _isProcessing w = true ->
  sendMessage message planMode thinkingMode w
  = (Returns tt, w,
     [Post (lit "error")
        (str "Already processing a message. Please wait or stop the current request.")]).
Proof.
  intros busy. unfold sendMessage, bind, read. rewrite busy. reflexivity.
Qed.


Example quoted_text : quoted "{'a':1}" = [123; 34; 97; 34; 58; 49; 125].
Proof. reflexivity. Qed.

Lemma hello_line_decodes :
  JSON.parse (trim hello_line)
  = Some (obj [("type", str "assistant");
               ("message",
                obj [("role", str "assistant");
                     ("content",
                      VArr [obj [("type", str "text");
                                 ("text", str "Hello")]])])]%string).
Proof. vm_compute. reflexivity. Qed.

Lemma hello_line_dispatch (w : world) :
  process_line hello_line w = _sendAndSaveMessage "output" (str "Hello") w.
Proof.
  destruct w as [? ? ? ? ? ? ? ? ? ? ? conversation ? ? ? ? ? ? ? ? ? ?].
  destruct conversation; vm_compute; reflexivity.
Qed.

(** C4.  When the stdout handler of a child with an empty line buffer
    receives the line [hello_line] and its line feed, it posts exactly
    one [output] message with data ["Hello"] and appends exactly one
    entry, the one of that message.  Posting and appending always go
    together: every call of [_sendAndSaveMessage] returns normally with
    exactly one entry appended and exactly that message posted. *)
Theorem assistant_text_line (w : world) (pid : nat) (c : child) :
  children w !! pid = Some c ->
  rawOutput c = [] ->
  (exists timestamp w',
      on_stdout pid (hello_line ++ [10]) w
      = (Returns tt, w', [Post (lit "output") (str "Hello")])
      /\ _currentConversation w'
         = _currentConversation w
           ++ [timestampedMessage timestamp "output" (str "Hello")])
  /\ (forall (type : string) (data : value) (w0 : world),
        exists timestamp w',
          _sendAndSaveMessage type data w0
          = (Returns tt, w', [Post (lit type) data])
          /\ _currentConversation w'
             = _currentConversation w0 ++ [timestampedMessage timestamp type data]).
Proof.
  intros running empty. split.
  - unfold on_stdout, bind, read. rewrite running, empty.
    change (split_on 10 ([] ++ hello_line ++ [10])) with [hello_line; []].
    cbn [modify removelast List.last for_each bind].
    unfold bind. rewrite hello_line_dispatch.
    destruct (sendAndSave_spec "output" (str "Hello")
                (set_children (<[pid:=Child [] (errorOutput c)]> (children w)) w))
      as (timestamp & w' & run & conv & _).
    exists timestamp, w'. rewrite run. cbn in conv. split; [reflexivity | exact conv].
  - intros type data w0.
    destruct (sendAndSave_spec type data w0) as (timestamp & w' & run & conv & _).
    eauto.
Qed.

Lemma str_eqb_refl (s : jstring) : str_eqb s s = true.
Proof. induction s as [|c s IH]; cbn; [reflexivity|]. now rewrite N.eqb_refl. Qed.

Lemma str_eqb_eq (a b : jstring) : str_eqb a b = true <-> a = b.
Proof.
  split; [|intros ->; apply str_eqb_refl].
  revert b; induction a as [|x a IH]; intros [|y b]; cbn; try discriminate; auto.
  intros H. apply andb_prop in H as [H1 H2].
  apply N.eqb_eq in H1. apply IH in H2. congruence.
Qed.


Lemma property_is_object (k literal : string) (m : value) (w : world) :
  is_object m = true ->
  property_is k literal m w = (Returns (is_str (lit literal) (field k m)), w, []).
Proof. destruct m; try discriminate. reflexivity. Qed.




(** Without a session identifier a save does nothing at all: the branch
    of [_saveCurrentConversation] that names the file after the time is
    never reached. *)
Lemma save_needs_identifier (w : world) :
  truthy (_currentSessionId w) = false ->
  _saveCurrentConversation w = (Returns tt, w, []).
Proof.
  intros unknown. unfold _saveCurrentConversation, bind, read.
  rewrite unknown. reflexivity.
Qed.

(** When a child exits while the session has no identifier, the close
    handler writes no file and the conversations directory is as it
    was, whatever the exit code and however many entries there are. *)
Lemma close_without_identifier (pid : nat) (code : value) (c : child) (w : world) :
  children w !! pid = Some c ->
  truthy (_currentSessionId w) = false ->
  exists w' effects,
    on_close pid code w = (Returns tt, w', effects)
    /\ forallb not_a_write effects = true
    /\ conversations w' = conversations w.
Proof.
  intros running unknown. unfold on_close, bind, read. rewrite running.
  unfold _postMessage, emit, modify, ret.
  set (w0 := set__currentClaudeProcess None (set__isProcessing false w)).
  assert (truthy (_currentSessionId w0) = false) as unknown0 by exact unknown.
  destruct (negb (strict_eq code (num 0))) eqn:failed; cbn [when];
    destruct (_currentClaudeProcess w); fold w0.
  1, 2: destruct (sendAndSave_spec "error"
                    (or_else (VStr (trim (errorOutput c)))
                       (VStr (lit "Claude exited with code " ++ to_string code))) w0)
          as (timestamp & w1 & run & _ & _ & _ & same_id & same_dir & _);
        rewrite <- same_id in unknown0;
        rewrite run, (save_needs_identifier w1 unknown0);
        eexists; eexists; split; [reflexivity|]; split; [reflexivity | exact same_dir].
  all: unfold ret; rewrite (save_needs_identifier w0 unknown0);
       eexists; eexists; split; [reflexivity|]; split; reflexivity.
Qed.

(** [find] with a callback that only computes. *)
Lemma find_m_pure {A} (p : A -> M bool) (q : A -> bool) (l : list A) (w : world) :
  (forall x w, p x w = (Returns (q x), w, [])) ->
  find_m p l w = (Returns (List.find q l), w, []).
Proof.
  intros pure. induction l as [|x l IH]; cbn [find_m List.find]; [reflexivity|].
  unfold bind. rewrite pure. destruct (q x); [reflexivity|]. now rewrite IH.
Qed.

Lemma is_conversation_of_pure (sessionId : value) (f : jstring * option value)
    (w : world) :
  is_conversation_of sessionId f w = (Returns (record_named sessionId f), w, []).
Proof.
  unfold is_conversation_of, record_named.
  destruct (includes (to_string sessionId) (fst f)); [reflexivity|].
  destruct (snd f) as [[| | | | | |]|]; reflexivity.
Qed.

(** An identifier that names no entry of the conversations directory
    (or a directory that cannot be read): [loadConversation] returns
    [null] and the world is as it was. *)
Lemma loadConversation_not_found (sessionId : value) (w : world) :
  match conversations w with
  | Some files => List.find (record_named sessionId) files = None
  | None => True
  end ->
  loadConversation sessionId w = (Returns VNull, w, []).
Proof.
  intros unnamed. unfold loadConversation, try_catch, bind, read.
  destruct (conversations w) as [files|]; [|reflexivity].
  cbn [ret]. unfold ret at 1.
  rewrite (find_m_pure _ _ _ _ (is_conversation_of_pure sessionId)), unnamed.
  reflexivity.
Qed.

Lemma filter_m_objects (k literal : string) (l : list value) (w : world) :
  forallb is_object l = true ->
  filter_m (property_is k literal) l w
  = (Returns (List.filter (fun m => is_str (lit literal) (field k m)) l), w, []).
Proof.
  induction l as [|m l IH]; cbn [filter_m forallb List.filter]; [reflexivity|].
  intros objects. apply andb_prop in objects as [object objects].
  unfold bind. rewrite property_is_object by exact object.
  rewrite IH by exact objects. unfold ret.
  destruct (is_str (lit literal) (field k m)); reflexivity.
Qed.

(** An identifier that names a stored record whose [messages] is an
    array of entries: [loadConversation] returns the record and replaces
    the session with it.  The request count becomes the number of
    entries whose [type] is [userInput]; the entries that
    [_sendAndSaveMessage] appends keep their kind under [messageType]
    and have no [type]. *)
Lemma loadConversation_found (sessionId : value) (w : world)
    (files : list (jstring * option value)) (name : jstring)
    (fields : list (jstring * value)) (entries : list value) :
  conversations w = Some files ->
  List.find (record_named sessionId) files = Some (name, Some (VObj fields)) ->
  name <> [] ->
  lookup_field (lit "messages") fields = VArr entries ->
  forallb is_object entries = true ->
  exists w',
    loadConversation sessionId w = (Returns (VObj fields), w', [])
    /\ _currentSessionId w' = lookup_field (lit "sessionId") fields
    /\ _currentConversation w' = entries
    /\ _conversationStartTime w' = lookup_field (lit "startTime") fields
    /\ _totalCost w' = or_else (lookup_field (lit "totalCost") fields) (num 0)
    /\ _totalTokensInput w'
       = or_else (field "input" (lookup_field (lit "totalTokens") fields)) (num 0)
    /\ _totalTokensOutput w'
       = or_else (field "output" (lookup_field (lit "totalTokens") fields)) (num 0)
    /\ _requestCount w'
       = num_of_nat
           (length (List.filter (fun m => is_str (lit "userInput") (field "type" m))
                      entries)).
Proof.
  intros dir named real messages objects.
  unfold loadConversation, try_catch, bind, read. rewrite dir.
  unfold ret at 1.
  rewrite (find_m_pure _ _ _ _ (is_conversation_of_pure sessionId)), named.
  cbn [fst snd].
  replace (length name =? 0)%nat with false
    by (destruct name; [congruence | reflexivity]).
  cbn [read_document prop ret modify]. unfold ret, modify.
  rewrite messages. cbn [entries_of items_of]. unfold ret.
  destruct (lookup_field (lit "totalTokens") fields) eqn:tokens;
    cbn [opt_prop prop field]; unfold ret, throw;
    rewrite filter_m_objects by exact objects;
    eexists; (split; [reflexivity|]); repeat split; reflexivity.
Qed.


(** A line whose trimmed text is not empty and does not decode is
    posted and recorded as [output]. *)
Lemma process_line_undecodable (w : world) (line : jstring) :
  trim line <> [] ->
  JSON.parse (trim line) = None ->
  exists timestamp w',
    process_line line w
    = (Returns tt, w', [Post (lit "output") (VStr (trim line))])
    /\ _currentConversation w'
       = _currentConversation w
         ++ [timestampedMessage timestamp "output" (VStr (trim line))]
    /\ children w' = children w.
Proof.
  intros text undecodable.
  unfold process_line. rewrite undecodable.
  replace (length (trim line) =? 0)%nat with false
    by (destruct (trim line); [congruence | reflexivity]).
  cbn [negb when]. unfold try_catch, throw.
  destruct (sendAndSave_spec "output" (VStr (trim line)) w)
    as (timestamp & w' & run & conv & _ & _ & _ & _ & same).
  exists timestamp, w'. rewrite run. split; [reflexivity|]. split; assumption.
Qed.

(** A chunk that is one line and its line feed, for a child whose line
    buffer is empty, is handled as that line. *)
Lemma split_on_line (line : jstring) :
  Forall (fun c => c <> 10) line -> split_on 10 (line ++ [10]) = [line; []].
Proof.
  induction 1 as [|c line differs _ IH]; cbn [split_on app]; [reflexivity|].
  apply N.eqb_neq in differs. now rewrite differs, IH.
Qed.

Lemma on_stdout_line (pid : nat) (c : child) (line : jstring) (w : world) :
  children w !! pid = Some c ->
  rawOutput c = [] ->
  Forall (fun c => c <> 10) line ->
  on_stdout pid (line ++ [10]) w
  = (process_line line ;; ret tt)
      (set_children (<[pid := Child [] (errorOutput c)]> (children w)) w).
Proof.
  intros running empty one_line. unfold on_stdout, bind, read.
  rewrite running, empty. cbn [app]. rewrite split_on_line by exact one_line.
  cbn [List.last removelast for_each]. unfold modify, bind.
  destruct (process_line line _) as [[[[]|e] w1] t1]; reflexivity.
Qed.

(** The chunk that brings the line feed of a line completes the line:
    what the buffer held and what the chunk adds are handled as one
    line, and the buffer is left empty. *)
Lemma on_stdout_completes_line (pid : nat) (c : child) (rest : jstring) (w : world) :
  children w !! pid = Some c ->
  Forall (fun c => c <> 10) (rawOutput c ++ rest) ->
  on_stdout pid (rest ++ [10]) w
  = (process_line (rawOutput c ++ rest) ;; ret tt)
      (set_children (<[pid := Child [] (errorOutput c)]> (children w)) w).
Proof.
  intros running one_line. unfold on_stdout, bind, read.
  rewrite running, app_assoc, split_on_line by exact one_line.
  cbn [List.last removelast for_each]. unfold modify, bind.
  destruct (process_line (rawOutput c ++ rest) _) as [[[[]|e] w1] t1]; reflexivity.
Qed.

(** A chunk without a line feed only adds to the line buffer. *)
Lemma split_on_no_line (text : jstring) :
  Forall (fun c => c <> 10) text -> split_on 10 text = [text].
Proof.
  induction 1 as [|c text differs _ IH]; cbn [split_on]; [reflexivity|].
  apply N.eqb_neq in differs. now rewrite differs, IH.
Qed.

Lemma on_stdout_buffers (pid : nat) (c : child) (chunk : jstring) (w : world) :
  children w !! pid = Some c ->
  Forall (fun c => c <> 10) (rawOutput c ++ chunk) ->
  on_stdout pid chunk w
  = (Returns tt,
     set_children (<[pid := Child (rawOutput c ++ chunk) (errorOutput c)]> (children w)) w,
     []).
Proof.
  intros running no_line. unfold on_stdout, bind, read.
  rewrite running, split_on_no_line by exact no_line. reflexivity.
Qed.

(** *** The workspace listing *)

Lemma searchDir_Dir (searchTerm : value) (items : list (jstring * node))
    (prefix : jstring) (results : list jstring) :
  searchDir searchTerm (Dir items) prefix results
  = scan searchTerm prefix items results.
Proof.
  cbn [searchDir]. revert results.
  induction items as [|[item n] items IH]; intros results; cbn [scan]; [reflexivity|].
  destruct (skipped item); [apply IH|].
  destruct n; try apply IH; try reflexivity.
  destruct (matches searchTerm item) as [[|]|]; try apply IH; reflexivity.
Qed.

(** Induction on a project tree, with the property at hand for every
    entry of a directory. *)
Lemma node_induction (P : node -> Prop) :
  P File -> P Locked -> P Dangling ->
  (forall entries, Forall (fun e => P (snd e)) entries -> P (Dir entries)) ->
  forall n, P n.
Proof.
  intros file locked dangling dir.
  refine (fix IH (n : node) : P n :=
            match n with
            | Dir entries =>
                dir entries
                  ((fix all (es : list (jstring * node))
                      : Forall (fun e => P (snd e)) es :=
                      match es with
                      | [] => List.Forall_nil _
                      | (item, n') :: es' => List.Forall_cons _ (item, n') es' (IH n') (all es')
                      end) entries)
            | File => file
            | Locked => locked
            | Dangling => dangling
            end).
Qed.

Lemma plain_name_sep_free (s : jstring) : plain_name s = true -> sep_free s.
Proof.
  unfold plain_name, sep_free. intros plain.
  apply andb_prop in plain as [_ none]. apply negb_true_iff in none.
  apply Forall_forall. intros c member.
  destruct (N.eqb_spec c 47) as [->|]; [|assumption].
  assert (existsb (fun c => (c =? 47) || (c =? 0)) s = true) as found
    by (apply existsb_exists; exists 47; split; [apply list_elem_of_In, member | reflexivity]).
  congruence.
Qed.

Lemma plain_name_nonempty (s : jstring) : plain_name s = true -> s <> [].
Proof. destruct s; [discriminate | congruence]. Qed.

Lemma split_on_sep_free (s : jstring) : sep_free s -> split_on 47 s = [s].
Proof.
  induction 1 as [|c s differs _ IH]; cbn [split_on]; [reflexivity|].
  apply N.eqb_neq in differs. now rewrite differs, IH.
Qed.

Lemma split_on_segment (s rest : jstring) :
  sep_free s -> split_on 47 (s ++ 47 :: rest) = s :: split_on 47 rest.
Proof.
  induction 1 as [|c s differs _ IH]; cbn [split_on app]; [reflexivity|].
  apply N.eqb_neq in differs. now rewrite differs, IH.
Qed.

Lemma split_join (segs : list jstring) :
  segs <> [] -> Forall sep_free segs -> split_on 47 (join [47] segs) = segs.
Proof.
  intros some free. induction free as [|s segs free_s free_rest IH]; [congruence|].
  destruct segs as [|s' segs]; cbn [join].
  - now apply split_on_sep_free.
  - cbn [app]. rewrite split_on_segment by assumption.
    f_equal. apply IH. congruence.
Qed.

Lemma join_snoc (sep : jstring) (segs : list jstring) (x : jstring) :
  segs <> [] -> join sep (segs ++ [x]) = join sep segs ++ sep ++ x.
Proof.
  induction segs as [|s segs IH]; [congruence|]. intros _.
  destruct segs as [|s' segs]; [reflexivity|].
  change (join sep ((s :: s' :: segs) ++ [x]))
    with (s ++ sep ++ join sep ((s' :: segs) ++ [x])).
  rewrite IH by congruence. cbn [join]. now rewrite <- !app_assoc.
Qed.

(** The relative path of an entry, from the names on the way down. *)
Lemma relativePath_join (segs : list jstring) (item : jstring) :
  Forall (fun s => plain_name s = true) segs ->
  (if (length (join [47%N] segs) =? 0)%nat then item
   else path_join (join [47] segs) item)
  = join [47] (segs ++ [item]).
Proof.
  intros plain. destruct segs as [|s segs]; [reflexivity|].
  rewrite join_snoc by congruence.
  replace (length (join [47%N] (s :: segs)) =? 0)%nat with false; [reflexivity|].
  inversion plain as [|? ? plain_s _]; subst.
  apply plain_name_nonempty in plain_s.
  destruct s; [congruence|]. destruct segs; reflexivity.
Qed.

Lemma below_item (segs : list jstring) (item p : jstring) :
  kept item -> below (segs ++ [item]) p -> below segs p.
Proof.
  intros ok (more & _ & path & oks).
  exists (item :: more). rewrite <- app_assoc in path.
  split; [congruence|]. split; [exact path | now constructor].
Qed.

Lemma scan_appends (searchTerm : value) (items : list (jstring * node)) :
  Forall (fun e => appends_below searchTerm (snd e)) items ->
  forall segs results,
    well_named (Dir items) = true ->
    Forall (fun s => plain_name s = true) segs ->
    exists new,
      scan searchTerm (join [47] segs) items results = results ++ new
      /\ Forall (below segs) new.
Proof.
  induction 1 as [|[item n] items here _ IH]; intros segs results named plain.
  - exists []. now rewrite app_nil_r.
  - cbn [scan]. cbn [snd] in here.
    cbn [well_named] in named.
    apply andb_prop in named as [named named_rest].
    apply andb_prop in named as [plain_item named_n].
    rewrite relativePath_join by assumption.
    destruct (skipped item) eqn:skip; [now apply IH|].
    assert (kept item) as ok by (split; assumption).
    assert (forall results,
              exists new,
                scan searchTerm (join [47] segs) items
                  (searchDir searchTerm n (join [47] (segs ++ [item])) results)
                = results ++ new /\ Forall (below segs) new) as inside.
    { intros results0.
      destruct (here (segs ++ [item]) results0 named_n) as (new1 & run1 & under1).
      { apply Forall_app. split; [assumption | now constructor]. }
      destruct (IH segs (results0 ++ new1) named_rest plain) as (new2 & run2 & under2).
      exists (new1 ++ new2). rewrite run1, run2, app_assoc. split; [reflexivity|].
      apply Forall_app. split; [|assumption].
      eapply Forall_impl; [exact under1|]. intros p. now apply below_item. }
    destruct n.
    + destruct (matches searchTerm item) as [[|]|].
      * destruct (IH segs (results ++ [join [47] (segs ++ [item])]) named_rest plain)
          as (new & run & under).
        exists (join [47] (segs ++ [item]) :: new).
        rewrite run, <- app_assoc. split; [reflexivity|].
        constructor; [|assumption].
        exists [item]. split; [congruence|]. split; [reflexivity | now constructor].
      * now apply IH.
      * exists []. now rewrite app_nil_r.
    + apply inside.
    + apply inside.
    + exists []. now rewrite app_nil_r.
Qed.

Lemma searchDir_appends (searchTerm : value) (n : node) :
  appends_below searchTerm n.
Proof.
  induction n as [| | |entries IH] using node_induction;
    try (intros segs results _ _; exists []; now rewrite app_nil_r).
  intros segs results named plain. rewrite searchDir_Dir.
  now apply scan_appends.
Qed.

Lemma last_of_kept (more : list jstring) :
  more <> [] -> Forall kept more -> kept (List.last more []).
Proof.
  intros some oks. induction oks as [|s more ok oks IH]; [congruence|].
  destruct more as [|s' more]; [exact ok|]. apply IH. congruence.
Qed.

(** C10.  Whatever the search term, [getWorkspaceFiles] posts exactly
    one [workspaceFiles] message and changes nothing.  Its list has at
    most 50 entries, and each entry is the name and the relative path of
    something whose name does not start with a dot and whose path passes
    through no name that starts with a dot and through no
    [node_modules]. *)
Theorem getWorkspaceFiles_spec (searchTerm : value) (w : world) :
  well_named (workspace w) = true ->
  exists files,
    getWorkspaceFiles searchTerm w
    = (Returns tt, w, [Post (lit "workspaceFiles") (VArr files)])
    /\ (length files <= 50)%nat
    /\ Forall (fun f =>
         exists filepath,
           f = obj [("name", VStr (basename filepath));
                    ("path", VStr filepath)]%string
           /\ startsWith (lit ".") (basename filepath) = false
           /\ Forall (fun seg => startsWith (lit ".") seg = false
                                 /\ seg <> lit "node_modules")
                (split_on 47 filepath)) files.
Proof.
  intros named. unfold getWorkspaceFiles, bind, read, _postMessage, emit.
  set (term := match searchTerm with VUndef => VStr [] | _ => searchTerm end).
  destruct (searchDir_appends term (workspace w) [] [] named) as (new & run & under);
    [constructor|].
  change (join [47] []) with (@nil N) in run. rewrite run. cbn [app].
  eexists. split; [reflexivity|]. split.
  - rewrite length_map, length_firstn. lia.
  - apply Forall_map. apply Forall_forall. intros filepath member.
    assert (filepath ∈ new) as listed.
    { rewrite <- (firstn_skipn 50 new). apply elem_of_app. now left. }
    rewrite Forall_forall in under.
    destruct (under filepath listed) as (more & some & path & oks).
    cbn [app] in path. subst filepath.
    assert (forall s, kept s ->
              startsWith (lit ".") s = false /\ s <> lit "node_modules") as visible.
    { intros s [_ skip]. unfold skipped in skip.
      apply orb_false_elim in skip as [dot modules]. split; [exact dot|].
      intros ->. now rewrite str_eqb_refl in modules. }
    exists (join [47] more). split; [reflexivity|].
    unfold basename. rewrite split_join; [|assumption|].
    + split; [apply visible, last_of_kept; assumption|].
      eapply Forall_impl; [exact oks | exact visible].
    + eapply Forall_impl; [exact oks|]. intros s [plain _].
      now apply plain_name_sep_free.
Qed.

(** *** The arguments of the child *)

Lemma assigned_by_claude_unknown (sessionId : value) (w : world) :
  truthy sessionId = false ->
  assigned_by_claude sessionId w = (Returns false, w, []).
Proof. intros unknown. unfold assigned_by_claude. now rewrite unknown. Qed.

Lemma assigned_by_claude_string (s : jstring) (w : world) :
  assigned_by_claude (VStr s) w
  = (Returns (negb (length s =? 0)%nat
              && negb (startsWith (lit "session_") s)
              && negb (startsWith (lit "conversation_") s)), w, []).
Proof. destruct s; reflexivity. Qed.

(** A send that is accepted: the user message is saved and posted, the
    processing flag is announced, and one child is spawned, with the
    arguments built from the provider as it is once the user message is
    in the conversation. *)
Lemma sendMessage_spawns (message planMode thinkingMode : value) (resume : bool)
    (w : world) :
  _isProcessing w = false ->
  (forall w0, assigned_by_claude (_currentSessionId w) w0 = (Returns resume, w0, [])) ->
  exists w1 w' input timestamp,
    sendMessage message planMode thinkingMode w
    = (Returns tt, w',
       [Post (lit "userInput") message;
        Post (lit "setProcessing") (obj [("isProcessing", VBool true)]%string);
        Spawn (spawned w) (claude_arguments w1 resume thinkingMode) input])
    /\ _currentConversation w1
       = _currentConversation w ++ [timestampedMessage timestamp "userInput" message]
    /\ _currentSessionId w1 = _currentSessionId w
    /\ mcpConfigExists w1 = mcpConfigExists w
    /\ mcpConfigPath w1 = mcpConfigPath w
    /\ _selectedModel w1 = _selectedModel w.
Proof.
  intros idle test.
  destruct w as [? ? ? ? sid ? busy ? ? ? ? conversation ? ? ? ? ? ? ? ? ? ?].
  cbn [_isProcessing _currentSessionId] in idle, test. subst busy.
  unfold sendMessage.
  destruct conversation, (truthy sid) eqn:known;
    cbv beta iota zeta delta -[claude_arguments assigned_by_claude lit str obj
                               truthy plus to_string timestampedMessage insert];
    rewrite ?known;
    cbv beta iota zeta delta -[claude_arguments assigned_by_claude lit str obj
                               truthy plus to_string timestampedMessage insert];
    rewrite test;
    do 4 eexists; (split; [reflexivity|]); repeat split; reflexivity.
Qed.

Lemma arguments_continue (w : world) (thinkingMode : value) :
  _currentConversation w <> [] ->
  In (str "--continue") (claude_arguments w false thinkingMode).
Proof.
  intros some. unfold claude_arguments.
  replace (0 <? length (_currentConversation w))%nat with true
    by (destruct (_currentConversation w); [congruence | reflexivity]).
  destruct (mcpConfigExists w),
    (truthy (_selectedModel w) && negb (is_str (lit "default") (_selectedModel w))),
    (truthy thinkingMode);
    rewrite ?in_app_iff; cbn [In app]; clear; tauto.
Qed.

(** The argument list, part by part. *)
Lemma arguments_parts (w : world) (resume : bool) (thinkingMode : value) :
  claude_arguments w resume thinkingMode
  = [str "-p"; str "--output-format"; str "stream-json"; str "--verbose"]
    ++ (if mcpConfigExists w
        then [str "--mcp-config"; VStr (mcpConfigPath w);
              str "--allowedTools"; permission_tool;
              str "--permission-prompt-tool"; permission_tool]
        else [])
    ++ (if resume then [str "--resume"; _currentSessionId w]
        else if (0 <? length (_currentConversation w))%nat
             then [str "--continue"] else [])
    ++ (if truthy (_selectedModel w)
           && negb (is_str (lit "default") (_selectedModel w))
        then [str "--model"; _selectedModel w] else [])
    ++ (if truthy thinkingMode then [str "--think"] else []).
Proof.
  unfold claude_arguments.
  destruct (mcpConfigExists w), resume,
    (0 <? length (_currentConversation w))%nat,
    (truthy (_selectedModel w) && negb (is_str (lit "default") (_selectedModel w))),
    (truthy thinkingMode); reflexivity.
Qed.

(** Whenever a message is accepted while the session has no identifier,
    the child gets [--continue]: by the time the arguments are built the
    conversation holds the user message, whether or not it held anything
    before. *)
Lemma sendMessage_without_identifier (message planMode thinkingMode : value)
    (w : world) :
  _isProcessing w = false ->
  truthy (_currentSessionId w) = false ->
  exists w' args input,
    sendMessage message planMode thinkingMode w
    = (Returns tt, w',
       [Post (lit "userInput") message;
        Post (lit "setProcessing") (obj [("isProcessing", VBool true)]%string);
        Spawn (spawned w) args input])
    /\ In (str "--continue") args.
Proof.
  intros idle unknown.
  destruct (sendMessage_spawns message planMode thinkingMode false w idle)
    as (w1 & w' & input & timestamp & run & entries & _).
  { intros w0. now apply assigned_by_claude_unknown. }
  exists w', (claude_arguments w1 false thinkingMode), input.
  split; [exact run|]. apply arguments_continue. rewrite entries.
  destruct (_currentConversation w); discriminate.
Qed.

(** With a string for identifier, the child gets [--resume] and the
    identifier exactly when the identifier is not empty and starts with
    neither [session_] nor [conversation_], and [--continue] otherwise. *)
Lemma sendMessage_with_identifier (message planMode thinkingMode : value)
    (w : world) (s : jstring) :
  _isProcessing w = false ->
  _currentSessionId w = VStr s ->
  let resume := negb (length s =? 0)%nat
                && negb (startsWith (lit "session_") s)
                && negb (startsWith (lit "conversation_") s) in
  exists w' input,
    sendMessage message planMode thinkingMode w
    = (Returns tt, w',
       [Post (lit "userInput") message;
        Post (lit "setProcessing") (obj [("isProcessing", VBool true)]%string);
        Spawn (spawned w)
          ([str "-p"; str "--output-format"; str "stream-json"; str "--verbose"]
           ++ (if mcpConfigExists w
               then [str "--mcp-config"; VStr (mcpConfigPath w);
                     str "--allowedTools"; permission_tool;
                     str "--permission-prompt-tool"; permission_tool]
               else [])
           ++ (if resume then [str "--resume"; VStr s] else [str "--continue"])
           ++ (if truthy (_selectedModel w)
                  && negb (is_str (lit "default") (_selectedModel w))
               then [str "--model"; _selectedModel w] else [])
           ++ (if truthy thinkingMode then [str "--think"] else []))
          input]).
Proof.
  intros idle named resume.
  destruct (sendMessage_spawns message planMode thinkingMode resume w idle)
    as (w1 & w' & input & timestamp & run & entries & id & mcp & path & model).
  { intros w0. rewrite named. apply assigned_by_claude_string. }
  exists w', input. rewrite run, arguments_parts, entries, id, mcp, path, model, named.
  replace (0 <? length (_currentConversation w
                          ++ [timestampedMessage timestamp "userInput" message]))%nat
    with true; [reflexivity|].
  rewrite length_app. cbn [length]. symmetry. apply Nat.ltb_lt. lia.
Qed.

(** *** The allow-list *)

(** An answer to a pending request changes the allow-list only if the
    pending map also holds something under the identifier followed by
    [_data]; [handlePermissionRequest] stores the resolver under the
    identifier and nothing else. *)
Lemma always_allow_needs_data (id approved alwaysAllow : value) (w : world) :
  pending_get (plus id (str "_data")) (_pendingPermissions w) = None ->
  exists r w' effects,
    handlePermissionResponse id approved alwaysAllow w = (r, w', effects)
    /\ _permissions w' = _permissions w.
Proof.
  intros no_data. unfold handlePermissionResponse, bind, read.
  destruct (pending_get id (_pendingPermissions w)) as [resolver|] eqn:pending;
    [|do 3 eexists; split; reflexivity].
  destruct id as [| | | |s| |]; try discriminate.
  assert (forall w0, _pendingPermissions w0 = _pendingPermissions w ->
            pending_get (plus (VStr s) (str "_data"))
              (_pendingPermissions
                 (set__pendingPermissions
                    (pending_delete (VStr s) (_pendingPermissions w0)) w0)) = None)
    as still.
  { intros w0 same. destruct w0. cbn in same |- *. subst.
    change (plus (VStr s) (str "_data")) with (VStr (s ++ lit "_data")) in *.
    cbn [pending_get] in *. rewrite lookup_delete_ne; [exact no_data|].
    intros same. apply (f_equal (@length N)) in same.
    rewrite length_app in same. cbn in same. lia. }
  destruct resolver as [p|requestFile requestId]; cbn [call_resolver].
  - unfold emit, modify, when.
    destruct (truthy approved && truthy alwaysAllow).
    + rewrite (still w eq_refl). do 3 eexists; split; reflexivity.
    + do 3 eexists; split; reflexivity.
  - unfold bind, new_Date_toISOString, bind, Date_now, ret, emit, read, modify, when,
      throw.
    destruct (writable (set_ticks (S (ticks w)) w) _);
      [|do 3 eexists; split; reflexivity].
    destruct (truthy approved && truthy alwaysAllow).
    + rewrite (still (set_ticks (S (ticks w)) w) eq_refl).
      do 3 eexists; split; reflexivity.
    + do 3 eexists; split; reflexivity.
Qed.

(** ** Following a property along a method *)

Lemma outcome_eta {A} (r : result A * world * list effect) :
  r = (result_of r, world_after r, effects_of r).
Proof. destruct r as [[? ?] ?]. reflexivity. Qed.

Section Following.
Context (R : world -> list effect -> world -> Prop) `{!Stepwise R}.

Lemma holds_ret {A} (a : A) : holds R (ret a).
Proof. intros w. apply step_none. Qed.

Lemma holds_throw {A} (e : exn) : holds R (@throw A e).
Proof. intros w. apply step_none. Qed.

Lemma holds_read {A} (g : world -> A) : holds R (read g).
Proof. intros w. apply step_none. Qed.

Lemma holds_modify (g : world -> world) :
  (forall w, R w [] (g w)) -> holds R (modify g).
Proof. intros H w. apply H. Qed.

Lemma holds_emit (e : effect) : (forall w, R w [e] w) -> holds R (emit e).
Proof. intros H w. apply H. Qed.

Lemma holds_bind {A B} (m : M A) (k : A -> M B) :
  holds R m -> (forall a, holds R (k a)) -> holds R (bind m k).
Proof.
  intros Hm Hk w. unfold bind. specialize (Hm w).
  destruct (m w) as [[[a|e] w1] t1]; [|exact Hm].
  specialize (Hk a w1). destruct (k a w1) as [[r w2] t2].
  exact (step_then _ _ _ _ _ Hm Hk).
Qed.

Lemma holds_try_catch {A} (m : M A) (h : exn -> M A) :
  holds R m -> (forall e, holds R (h e)) -> holds R (try_catch m h).
Proof.
  intros Hm Hh w. unfold try_catch. specialize (Hm w).
  destruct (m w) as [[[a|e] w1] t1]; [exact Hm|].
  destruct e; try exact Hm;
    match goal with
    | |- context [h ?e w1] =>
        specialize (Hh e w1); destruct (h e w1) as [[r w2] t2];
        exact (step_then _ _ _ _ _ Hm Hh)
    end.
Qed.

Lemma holds_when (b : bool) (m : M unit) : holds R m -> holds R (when b m).
Proof. intros Hm. destruct b; [exact Hm | apply holds_ret]. Qed.

Lemma holds_for_each {A} (f : A -> M unit) (l : list A) :
  (forall x, holds R (f x)) -> holds R (for_each f l).
Proof.
  intros Hf. induction l as [|x l IH]; [apply holds_ret|].
  apply holds_bind; [apply Hf | intros _; exact IH].
Qed.

Lemma holds_find_m {A} (p : A -> M bool) (l : list A) :
  (forall x, holds R (p x)) -> holds R (find_m p l).
Proof.
  intros Hp. induction l as [|x l IH]; [apply holds_ret|].
  apply holds_bind; [apply Hp | intros [|]; [apply holds_ret | exact IH]].
Qed.

Lemma holds_filter_m {A} (p : A -> M bool) (l : list A) :
  (forall x, holds R (p x)) -> holds R (filter_m p l).
Proof.
  intros Hp. induction l as [|x l IH]; [apply holds_ret|].
  apply holds_bind; [apply Hp | intros b].
  apply holds_bind; [exact IH | intros r; apply holds_ret].
Qed.

Lemma holds_prop (k : string) (v : value) : holds R (prop k v).
Proof. destruct v; first [apply holds_ret | apply holds_throw]. Qed.

Lemma holds_opt_prop (k : string) (v : value) : holds R (opt_prop k v).
Proof. destruct v; first [apply holds_ret | apply holds_throw]. Qed.

Lemma holds_first_item (v : value) : holds R (first_item v).
Proof. destruct v; first [apply holds_ret | apply holds_throw]. Qed.

Lemma holds_trim_m (v : value) : holds R (trim_m v).
Proof. destruct v; first [apply holds_ret | apply holds_throw]. Qed.

Lemma holds_items_of (v : value) : holds R (items_of v).
Proof. destruct v; first [apply holds_ret | apply holds_throw]. Qed.

Lemma holds_iterate (v : value) : holds R (iterate v).
Proof. destruct v; first [apply holds_ret | apply holds_throw]. Qed.

Lemma holds_read_document (content : option value) :
  holds R (read_document content).
Proof. destruct content; first [apply holds_ret | apply holds_throw]. Qed.

Lemma holds_entries_of (v : value) : holds R (entries_of v).
Proof.
  destruct v; simpl;
    repeat match goal with
           | |- holds R (if ?b then _ else _) => destruct b
           end; first [apply holds_ret | apply holds_throw].
Qed.

End Following.

#[local] Instance keeps_stepwise {A} (g : world -> A) : Stepwise (keeps g).
Proof.
  split; unfold keeps; [reflexivity|].
  intros w1 _ w2 _ w3 H1 H2. congruence.
Qed.

#[local] Instance emits_stepwise (P : effect -> Prop) : Stepwise (emits P).
Proof.
  split; unfold emits; [constructor|].
  intros _ t1 _ t2 _ H1 H2. apply Forall_app. split; assumption.
Qed.

#[local] Instance grows_stepwise : Stepwise grows.
Proof.
  split; unfold grows.
  - intros w. exists []. rewrite app_nil_r. reflexivity.
  - intros w1 _ w2 _ w3 [n1 H1] [n2 H2]. exists (n1 ++ n2).
    rewrite H2, H1, <- app_assoc. reflexivity.
Qed.

#[local] Instance logs_stepwise : Stepwise logs.
Proof.
  split; unfold logs.
  - intros w. exists []. rewrite app_nil_r. split; [reflexivity | constructor].
  - intros w1 t1 w2 t2 w3 (n1 & H1 & P1) (n2 & H2 & P2). exists (n1 ++ n2).
    split; [rewrite H2, H1, <- app_assoc; reflexivity|].
    apply Forall2_app; assumption.
Qed.

(** Going through the body of a method: [side] settles what a change of
    the world or an effect owes to the relation, [base] the methods that
    are taken whole. *)
Ltac follow base side :=
  repeat first
    [ progress intros
    | match goal with |- Stepwise _ => typeclasses eauto end
    | base
    | apply holds_ret | apply holds_throw | apply holds_read
    | apply holds_prop | apply holds_opt_prop | apply holds_first_item
    | apply holds_trim_m | apply holds_items_of | apply holds_iterate
    | apply holds_read_document | apply holds_entries_of
    | apply holds_when | apply holds_for_each | apply holds_find_m
    | apply holds_filter_m
    | apply holds_modify; side
    | apply holds_emit; side
    | match goal with
      | |- holds _ (if ?b then _ else _) => destruct b
      | |- holds _ (match ?x with _ => _ end) => destruct x
      end
    | apply holds_bind | apply holds_try_catch ].

Lemma Date_now_keeps {A} (g : world -> A) :
  (forall n w, g (set_ticks n w) = g w) -> holds (keeps g) Date_now.
Proof. intros H w. apply H. Qed.

(** ** The stream decoder *)

Lemma sendAndSave_logs (type : string) (data : value) :
  lit type <> [] -> holds logs (_sendAndSaveMessage type data).
Proof.
  intros named w.
  destruct (sendAndSave_spec type data w) as (timestamp & w' & run & conv & _).
  rewrite run. unfold logs, effects_of, world_after. simpl.
  exists [timestampedMessage timestamp type data]. split; [exact conv|].
  constructor; [|constructor].
  exists (lit type). split; [exact named|]. split; reflexivity.
Qed.

Ltac logs_side :=
  intros; exists []; split; [rewrite app_nil_r; reflexivity | constructor].

Ltac logs_base :=
  apply sendAndSave_logs; vm_compute; discriminate.

Lemma todo_lines_logs (todos : list value) (toolInput : jstring) :
  holds logs (todo_lines todos toolInput).
Proof.
  revert toolInput. induction todos as [|todo todos IH]; intros toolInput.
  - apply holds_ret; typeclasses eauto.
  - simpl. apply holds_bind; [typeclasses eauto| |intros line; apply IH].
    unfold todo_line. follow logs_base logs_side.
Qed.

Lemma process_content_logs (content : value) : holds logs (process_content content).
Proof.
  unfold process_content.
  follow ltac:(first [logs_base | apply todo_lines_logs]) logs_side.
Qed.

Lemma processJsonStreamData_logs (jsonData : value) :
  holds logs (_processJsonStreamData jsonData).
Proof.
  unfold _processJsonStreamData.
  follow ltac:(first [logs_base | apply process_content_logs]) logs_side.
Qed.

Lemma process_line_logs (line : jstring) : holds logs (process_line line).
Proof.
  unfold process_line.
  follow ltac:(first [logs_base | apply processJsonStreamData_logs]) logs_side.
Qed.

Lemma on_stdout_logs (pid : nat) (chunk : jstring) : holds logs (on_stdout pid chunk).
Proof.
  unfold on_stdout. follow ltac:(apply process_line_logs) logs_side.
Qed.

(** *** Methods that stay in the model, methods that return *)

Lemma modelled_ret {A} (a : A) : modelled (ret a).
Proof. intros w. discriminate. Qed.

Lemma modelled_throw {A} (e : exn) : e <> Unmodelled -> modelled (@throw A e).
Proof. intros H w. unfold throw, result_of. simpl. intros E. inversion E. contradiction. Qed.

Lemma modelled_read {A} (g : world -> A) : modelled (read g).
Proof. intros w. discriminate. Qed.

Lemma modelled_modify (g : world -> world) : modelled (modify g).
Proof. intros w. discriminate. Qed.

Lemma modelled_emit (e : effect) : modelled (emit e).
Proof. intros w. discriminate. Qed.

Lemma modelled_bind {A B} (m : M A) (k : A -> M B) :
  modelled m -> (forall a, modelled (k a)) -> modelled (bind m k).
Proof.
  intros Hm Hk w. unfold bind. specialize (Hm w).
  destruct (m w) as [[[a|e] w1] t1].
  - specialize (Hk a w1). destruct (k a w1) as [[r w2] t2]. exact Hk.
  - unfold result_of in *. simpl in *. intros E. apply Hm. congruence.
Qed.

Lemma modelled_try_catch {A} (m : M A) (h : exn -> M A) :
  modelled m -> (forall e, modelled (h e)) -> modelled (try_catch m h).
Proof.
  intros Hm Hh w. unfold try_catch. specialize (Hm w).
  destruct (m w) as [[[a|e] w1] t1]; [exact Hm|].
  destruct e; try exact Hm;
    match goal with
    | |- context [h ?e w1] =>
        specialize (Hh e w1); destruct (h e w1) as [[r w2] t2]; exact Hh
    end.
Qed.

Lemma modelled_when (b : bool) (m : M unit) : modelled m -> modelled (when b m).
Proof. intros Hm. destruct b; [exact Hm | apply modelled_ret]. Qed.

Lemma modelled_for_each {A} (f : A -> M unit) (l : list A) :
  (forall x, modelled (f x)) -> modelled (for_each f l).
Proof.
  intros Hf. induction l as [|x l IH]; [apply modelled_ret|].
  apply modelled_bind; [apply Hf | intros _; exact IH].
Qed.

Lemma modelled_find_m {A} (p : A -> M bool) (l : list A) :
  (forall x, modelled (p x)) -> modelled (find_m p l).
Proof.
  intros Hp. induction l as [|x l IH]; [apply modelled_ret|].
  apply modelled_bind; [apply Hp | intros [|]; [apply modelled_ret | exact IH]].
Qed.

Lemma modelled_filter_m {A} (p : A -> M bool) (l : list A) :
  (forall x, modelled (p x)) -> modelled (filter_m p l).
Proof.
  intros Hp. induction l as [|x l IH]; [apply modelled_ret|].
  apply modelled_bind; [apply Hp | intros b].
  apply modelled_bind; [exact IH | intros r; apply modelled_ret].
Qed.

Lemma modelled_prop (k : string) (v : value) : modelled (prop k v).
Proof. destruct v; intros w; discriminate. Qed.

Lemma modelled_opt_prop (k : string) (v : value) : modelled (opt_prop k v).
Proof. destruct v; intros w; discriminate. Qed.

Lemma modelled_first_item (v : value) : modelled (first_item v).
Proof. destruct v; intros w; discriminate. Qed.

Lemma modelled_trim_m (v : value) : modelled (trim_m v).
Proof. destruct v; intros w; discriminate. Qed.

Lemma modelled_items_of (v : value) : modelled (items_of v).
Proof. destruct v; intros w; discriminate. Qed.

Lemma modelled_iterate (v : value) : modelled (iterate v).
Proof. destruct v; intros w; discriminate. Qed.

Lemma modelled_read_document (content : option value) :
  modelled (read_document content).
Proof. destruct content; intros w; discriminate. Qed.

Lemma modelled_Date_now : modelled Date_now.
Proof. intros w. discriminate. Qed.

Lemma returns_modelled {A} (m : M A) : returns m -> modelled m.
Proof. intros H w. destruct (H w) as [a Ha]. rewrite Ha. discriminate. Qed.

Lemma returns_ret {A} (a : A) : returns (ret a).
Proof. intros w. exists a. reflexivity. Qed.

Lemma returns_read {A} (g : world -> A) : returns (read g).
Proof. intros w. exists (g w). reflexivity. Qed.

Lemma returns_modify (g : world -> world) : returns (modify g).
Proof. intros w. exists tt. reflexivity. Qed.

Lemma returns_emit (e : effect) : returns (emit e).
Proof. intros w. exists tt. reflexivity. Qed.

Lemma returns_Date_now : returns Date_now.
Proof. intros w. eexists. reflexivity. Qed.

Lemma returns_bind {A B} (m : M A) (k : A -> M B) :
  returns m -> (forall a, returns (k a)) -> returns (bind m k).
Proof.
  intros Hm Hk w. unfold bind. destruct (Hm w) as [a Ha].
  destruct (m w) as [[r w1] t1]. unfold result_of in Ha. simpl in Ha. subst r.
  destruct (Hk a w1) as [b Hb]. destruct (k a w1) as [[r w2] t2].
  exists b. exact Hb.
Qed.

Lemma returns_try_catch {A} (m : M A) (h : exn -> M A) :
  modelled m -> (forall e, returns (h e)) -> returns (try_catch m h).
Proof.
  intros Hm Hh w. unfold try_catch. specialize (Hm w).
  destruct (m w) as [[[a|e] w1] t1]; [exists a; reflexivity|].
  destruct e; try (exfalso; apply Hm; reflexivity);
    match goal with
    | |- context [h ?e w1] =>
        destruct (Hh e w1) as [b Hb]; destruct (h e w1) as [[r w2] t2];
        exists b; exact Hb
    end.
Qed.

Lemma returns_when (b : bool) (m : M unit) : returns m -> returns (when b m).
Proof. intros Hm. destruct b; [exact Hm | apply returns_ret]. Qed.

Lemma returns_for_each {A} (f : A -> M unit) (l : list A) :
  (forall x, returns (f x)) -> returns (for_each f l).
Proof.
  intros Hf. induction l as [|x l IH]; [apply returns_ret|].
  apply returns_bind; [apply Hf | intros _; exact IH].
Qed.

Lemma sendAndSave_returns (type : string) (data : value) :
  returns (_sendAndSaveMessage type data).
Proof.
  intros w. destruct (sendAndSave_spec type data w) as (t & w' & run & _).
  exists tt. rewrite run. reflexivity.
Qed.

Ltac stays base :=
  repeat first
    [ progress intros
    | base
    | apply modelled_ret | apply modelled_read | apply modelled_modify
    | apply modelled_emit | apply modelled_Date_now
    | apply modelled_throw; discriminate
    | apply modelled_prop | apply modelled_opt_prop | apply modelled_first_item
    | apply modelled_trim_m | apply modelled_items_of | apply modelled_iterate
    | apply modelled_read_document
    | apply modelled_when | apply modelled_for_each | apply modelled_find_m
    | apply modelled_filter_m
    | match goal with
      | |- modelled (if ?b then _ else _) => destruct b
      | |- modelled (match ?x with _ => _ end) => destruct x
      end
    | apply modelled_bind | apply modelled_try_catch ].

Ltac stays_base := apply returns_modelled; apply sendAndSave_returns.

Lemma todo_lines_modelled (todos : list value) (toolInput : jstring) :
  modelled (todo_lines todos toolInput).
Proof.
  revert toolInput. induction todos as [|todo todos IH]; intros toolInput.
  - apply modelled_ret.
  - simpl. apply modelled_bind; [|intros line; apply IH].
    unfold todo_line. stays stays_base.
Qed.

Lemma process_content_modelled (content : value) :
  modelled (process_content content).
Proof.
  unfold process_content.
  stays ltac:(first [stays_base | apply todo_lines_modelled]).
Qed.

Lemma processJsonStreamData_modelled (jsonData : value) :
  modelled (_processJsonStreamData jsonData).
Proof.
  unfold _processJsonStreamData.
  stays ltac:(first [stays_base | apply process_content_modelled]).
Qed.

Lemma process_line_returns (line : jstring) : returns (process_line line).
Proof.
  unfold process_line. apply returns_when. apply returns_try_catch.
  - destruct (JSON.parse (trim line));
      [apply processJsonStreamData_modelled | apply modelled_throw; discriminate].
  - intros e. apply sendAndSave_returns.
Qed.

Lemma on_stdout_returns (pid : nat) (chunk : jstring) : returns (on_stdout pid chunk).
Proof.
  unfold on_stdout. apply returns_bind; [apply returns_read|]. intros cs.
  destruct (cs !! pid); [|apply returns_ret].
  apply returns_bind; [apply returns_modify|]. intros _.
  apply returns_for_each. apply process_line_returns.
Qed.

(** *** What a method neither reads nor undoes *)

Section Framing.
Variable f : world -> world.

Lemma frames_ret {A} (a : A) : frames f (ret a).
Proof. intros w. reflexivity. Qed.

Lemma frames_throw {A} (e : exn) : frames f (@throw A e).
Proof. intros w. reflexivity. Qed.

Lemma frames_emit (e : effect) : frames f (emit e).
Proof. intros w. reflexivity. Qed.

Lemma frames_read {A} (g : world -> A) :
  (forall w, g (f w) = g w) -> frames f (read g).
Proof. intros H w. unfold read. rewrite H. reflexivity. Qed.

Lemma frames_modify (g : world -> world) :
  (forall w, g (f w) = f (g w)) -> frames f (modify g).
Proof. intros H w. unfold modify. rewrite H. reflexivity. Qed.

Lemma frames_bind {A B} (m : M A) (k : A -> M B) :
  frames f m -> (forall a, frames f (k a)) -> frames f (bind m k).
Proof.
  intros Hm Hk w. unfold bind. rewrite (Hm w).
  destruct (m w) as [[[a|e] w1] t1]; unfold result_of, world_after, effects_of;
    simpl; [|reflexivity].
  rewrite (Hk a w1). destruct (k a w1) as [[r w2] t2]. reflexivity.
Qed.

(** A method that starts by taking the whole of [this]: what it goes on
    to do must not depend on what [f] changes. *)
Lemma frames_bind_world {B} (k : world -> M B) :
  (forall w, k (f w) = k w) -> (forall x, frames f (k x)) ->
  frames f (bind (read (fun w => w)) k).
Proof.
  intros same Hk w. unfold bind, read. rewrite same, (Hk w w).
  destruct (k w w) as [[r w2] t2]. reflexivity.
Qed.

Lemma frames_try_catch {A} (m : M A) (h : exn -> M A) :
  frames f m -> (forall e, frames f (h e)) -> frames f (try_catch m h).
Proof.
  intros Hm Hh w. unfold try_catch. rewrite (Hm w).
  destruct (m w) as [[[a|e] w1] t1]; unfold result_of, world_after, effects_of;
    simpl; [reflexivity|].
  destruct e; try reflexivity;
    match goal with
    | |- context [h ?e (f w1)] =>
        rewrite (Hh e w1); destruct (h e w1) as [[r w2] t2]; reflexivity
    end.
Qed.

Lemma frames_when (b : bool) (m : M unit) : frames f m -> frames f (when b m).
Proof. intros Hm. destruct b; [exact Hm | apply frames_ret]. Qed.

Lemma frames_for_each {A} (g : A -> M unit) (l : list A) :
  (forall x, frames f (g x)) -> frames f (for_each g l).
Proof.
  intros Hg. induction l as [|x l IH]; [apply frames_ret|].
  apply frames_bind; [apply Hg | intros _; exact IH].
Qed.

Lemma frames_prop (k : string) (v : value) : frames f (prop k v).
Proof. destruct v; intros w; reflexivity. Qed.

Lemma frames_first_item (v : value) : frames f (first_item v).
Proof. destruct v; intros w; reflexivity. Qed.

Lemma frames_trim_m (v : value) : frames f (trim_m v).
Proof. destruct v; intros w; reflexivity. Qed.

Lemma frames_items_of (v : value) : frames f (items_of v).
Proof. destruct v; intros w; reflexivity. Qed.

Lemma frames_iterate (v : value) : frames f (iterate v).
Proof. destruct v; intros w; reflexivity. Qed.

End Framing.

Ltac framed base :=
  repeat first
    [ progress intros
    | base
    | apply frames_ret | apply frames_throw | apply frames_emit
    | apply frames_prop | apply frames_first_item | apply frames_trim_m
    | apply frames_items_of | apply frames_iterate
    | apply frames_when | apply frames_for_each
    | apply frames_read; intros; reflexivity
    | apply frames_modify; intros; reflexivity
    | match goal with
      | |- frames _ (if ?b then _ else _) => destruct b
      | |- frames _ (match ?x with _ => _ end) => destruct x
      end
    | apply frames_bind_world; [intros; reflexivity|]
    | apply frames_bind | apply frames_try_catch ].

(** The decoder does not look at the bookkeeping of the children. *)
Lemma sendAndSave_frames (cs : gmap nat child) (type : string) (data : value) :
  frames (set_children cs) (_sendAndSaveMessage type data).
Proof.
  intros w. destruct w. destruct _currentConversation0; reflexivity.
Qed.

Lemma todo_lines_frames (cs : gmap nat child) (todos : list value)
    (toolInput : jstring) :
  frames (set_children cs) (todo_lines todos toolInput).
Proof.
  revert toolInput. induction todos as [|todo todos IH]; intros toolInput.
  - apply frames_ret.
  - simpl. apply frames_bind; [|intros line; apply IH].
    unfold todo_line. framed fail.
Qed.

Lemma process_content_frames (cs : gmap nat child) (content : value) :
  frames (set_children cs) (process_content content).
Proof.
  unfold process_content.
  framed ltac:(first [apply sendAndSave_frames | apply todo_lines_frames]).
Qed.

Lemma processJsonStreamData_frames (cs : gmap nat child) (jsonData : value) :
  frames (set_children cs) (_processJsonStreamData jsonData).
Proof.
  unfold _processJsonStreamData.
  framed ltac:(first [apply sendAndSave_frames | apply process_content_frames]).
Qed.

Lemma process_line_frames (cs : gmap nat child) (line : jstring) :
  frames (set_children cs) (process_line line).
Proof.
  unfold process_line.
  framed ltac:(first [apply sendAndSave_frames | apply processJsonStreamData_frames]).
Qed.

(** *** Lines and chunks *)

Lemma split_on_nonempty (sep : N) (s : jstring) : split_on sep s <> [].
Proof.
  induction s as [|c s IH]; simpl; [discriminate|].
  destruct (c =? sep); [discriminate|].
  destruct (split_on sep s); [contradiction | discriminate].
Qed.

(** Splitting a text that arrives in two parts: the lines of the first
    part but the last, then the lines of what was left over followed by
    the second part. *)
Lemma split_on_app (sep : N) (x y : jstring) :
  split_on sep (x ++ y)
  = removelast (split_on sep x) ++ split_on sep (List.last (split_on sep x) [] ++ y).
Proof.
  induction x as [|c x IH]; [reflexivity|].
  pose proof (split_on_nonempty sep x) as nonempty.
  change ((c :: x) ++ y) with (c :: (x ++ y)).
  cbn [split_on]. destruct (c =? sep) eqn:is_sep.
  - rewrite IH. destruct (split_on sep x) as [|l ls]; [contradiction|]. reflexivity.
  - rewrite IH. destruct (split_on sep x) as [|l ls]; [contradiction|].
    destruct ls as [|l2 ls2].
    + cbn [removelast List.last app]. cbn [split_on]. rewrite is_sep. reflexivity.
    + change (removelast (l :: l2 :: ls2)) with (l :: removelast (l2 :: ls2)).
      change (removelast ((c :: l) :: l2 :: ls2))
        with ((c :: l) :: removelast (l2 :: ls2)).
      reflexivity.
Qed.

Lemma for_each_app {A} (g : A -> M unit) (l1 l2 : list A) (w : world) :
  for_each g (l1 ++ l2) w = (for_each g l1 ;; for_each g l2) w.
Proof.
  revert w. induction l1 as [|x l1 IH]; intros w.
  - simpl. unfold bind, ret. destruct (for_each g l2 w) as [[r w2] t2]. reflexivity.
  - simpl. unfold bind. destruct (g x w) as [[[[]|e] w1] t1]; [|reflexivity].
    rewrite IH. unfold bind.
    destruct (for_each g l1 w1) as [[[[]|e] w2] t2]; [|reflexivity].
    destruct (for_each g l2 w2) as [[r w3] t3]. rewrite app_assoc. reflexivity.
Qed.

Lemma on_stdout_unknown (pid : nat) (chunk : jstring) (w : world) :
  children w !! pid = None -> on_stdout pid chunk w = (Returns tt, w, []).
Proof. intros unknown. unfold on_stdout, bind, read. rewrite unknown. reflexivity. Qed.

Lemma on_stdout_known (pid : nat) (chunk : jstring) (c : child) (w : world) :
  children w !! pid = Some c ->
  let lines := split_on 10 (rawOutput c ++ chunk) in
  on_stdout pid chunk w
  = for_each process_line (removelast lines)
      (set_children (<[pid := Child (List.last lines []) (errorOutput c)]> (children w)) w).
Proof.
  intros known lines. unfold on_stdout, bind, read, modify. rewrite known.
  fold lines.
  destruct (for_each process_line (removelast lines) _) as [[r w2] t2]. reflexivity.
Qed.

Lemma for_each_line_frames (cs : gmap nat child) (lines : list jstring) (w : world) :
  for_each process_line lines (set_children cs w)
  = (Returns tt,
     set_children cs (world_after (for_each process_line lines w)),
     effects_of (for_each process_line lines w)).
Proof.
  rewrite (frames_for_each (set_children cs) process_line lines
             (process_line_frames cs) w).
  destruct (returns_for_each process_line lines process_line_returns w) as [[] ok].
  rewrite ok. reflexivity.
Qed.

Lemma last_app_nonempty {A} (l1 l2 : list A) (d : A) :
  l2 <> [] -> List.last (l1 ++ l2) d = List.last l2 d.
Proof.
  intros nonempty. induction l1 as [|x l1 IH]; [reflexivity|].
  simpl. rewrite IH. destruct (l1 ++ l2) eqn:E; [|reflexivity].
  apply app_eq_nil in E. destruct E. contradiction.
Qed.

(** Once decoded, the text of two data events in a row is handled as
    the text of one. *)
Lemma on_stdout_chunks (pid : nat) (a b : jstring) (w : world) :
  (on_stdout pid a ;; on_stdout pid b) w = on_stdout pid (a ++ b) w.
Proof.
  destruct (children w !! pid) as [c|] eqn:known.
  - rewrite (on_stdout_known pid (a ++ b) c w known). unfold bind.
    rewrite (on_stdout_known pid a c w known). cbv zeta.
    set (L1 := split_on 10 (rawOutput c ++ a)).
    set (X1 := <[pid := Child (List.last L1 []) (errorOutput c)]> (children w)).
    rewrite (for_each_line_frames X1 (removelast L1) w).
    assert (children (set_children X1 (world_after (for_each process_line (removelast L1) w)))
              !! pid = Some (Child (List.last L1 []) (errorOutput c))) as known1
      by apply lookup_insert_eq.
    rewrite (on_stdout_known pid b _ _ known1). cbv zeta.
    change (rawOutput (Child (List.last L1 []) (errorOutput c))) with (List.last L1 []).
    change (errorOutput (Child (List.last L1 []) (errorOutput c))) with (errorOutput c).
    set (L2 := split_on 10 (List.last L1 [] ++ b)).
    change (children (set_children X1 _)) with X1.
    unfold X1 at 1. rewrite insert_insert_eq.
    set (X2 := <[pid := Child (List.last L2 []) (errorOutput c)]> (children w)).
    change (set_children X2 (set_children X1 ?w1)) with (set_children X2 w1).
    rewrite (app_assoc (rawOutput c) a b), split_on_app. fold L1. fold L2.
    pose proof (split_on_nonempty 10 (List.last L1 [] ++ b)) as nonempty. fold L2 in nonempty.
    rewrite (removelast_app (removelast L1) nonempty), (last_app_nonempty _ _ _ nonempty).
    fold X2. rewrite for_each_app. unfold bind.
    rewrite (for_each_line_frames X2 (removelast L1) w).
    destruct (for_each process_line (removelast L2) _) as [[r w2] t2]. reflexivity.
  - unfold bind. rewrite !(on_stdout_unknown _ _ _ known). reflexivity.
Qed.

(** C3 (as amended).  When the stdout handler of a child receives the
    line feed that ends a line (the line being what the line buffer of
    the child held, followed by what the chunk brings before its line
    feed), and the trimmed text of the line is not empty and does not
    decode as JSON, the handler posts exactly one [output] message,
    whose data is the trimmed text, and appends the entry of that
    message; it posts no [error] message and returns normally; and
    whatever the chunk holds after the line feed is handled next, as a
    chunk of its own would be.  A text that no line feed follows is
    only kept in the line buffer: the handler posts and records nothing
    for it. *)
Theorem undecodable_line_is_output (w : world) (pid : nat) (c : child)
    (rest : jstring) :
  children w !! pid = Some c ->
  Forall (fun c => c <> 10) (rawOutput c ++ rest) ->
  trim (rawOutput c ++ rest) <> [] ->
  JSON.parse (trim (rawOutput c ++ rest)) = None ->
  (exists timestamp w',
      on_stdout pid (rest ++ [10]) w
      = (Returns tt, w', [Post (lit "output") (VStr (trim (rawOutput c ++ rest)))])
      /\ _currentConversation w'
         = _currentConversation w
           ++ [timestampedMessage timestamp "output"
                 (VStr (trim (rawOutput c ++ rest)))]
      /\ children w' !! pid = Some (Child [] (errorOutput c))
      /\ forall more,
           on_stdout pid ((rest ++ [10]) ++ more) w
           = (result_of (on_stdout pid more w'), world_after (on_stdout pid more w'),
              Post (lit "output") (VStr (trim (rawOutput c ++ rest)))
              :: effects_of (on_stdout pid more w')))
  /\ (exists w',
        on_stdout pid rest w = (Returns tt, w', [])
        /\ _currentConversation w' = _currentConversation w
        /\ children w' !! pid = Some (Child (rawOutput c ++ rest) (errorOutput c))).
Proof.
  intros running one_line text undecodable. split.
  - assert (exists timestamp w',
               on_stdout pid (rest ++ [10]) w
               = (Returns tt, w',
                  [Post (lit "output") (VStr (trim (rawOutput c ++ rest)))])
               /\ _currentConversation w'
                  = _currentConversation w
                    ++ [timestampedMessage timestamp "output"
                          (VStr (trim (rawOutput c ++ rest)))]
               /\ children w' !! pid = Some (Child [] (errorOutput c)))
      as (timestamp & w' & run & conv & known).
    { rewrite (on_stdout_completes_line pid c rest w running one_line).
      set (w0 := set_children _ w).
      destruct (process_line_undecodable w0 _ text undecodable)
        as (timestamp & w' & run & conv & same).
      exists timestamp, w'. unfold bind. rewrite run.
      split; [reflexivity|]. split; [exact conv|].
      rewrite same. apply lookup_insert_eq. }
    exists timestamp, w'. repeat (split; [assumption|]).
    intros more. rewrite <- on_stdout_chunks. unfold bind. rewrite run.
    destruct (on_stdout pid more w') as [[r w2] t2]. reflexivity.
  - rewrite (on_stdout_buffers pid c rest w running one_line).
    eexists. split; [reflexivity|]. split; [reflexivity|].
    apply lookup_insert_eq.
Qed.

(** Decoding goes byte by byte, so the bytes of a chunk can be taken
    in two parts; and when the first part ends where a character ends,
    the text of the whole is the text of the parts. *)
Lemma utf8_run_app (st : utf8_state) (a b : list Byte.byte) :
  utf8_run st (a ++ b)
  = (fst (utf8_run (fst (utf8_run st a)) b),
     snd (utf8_run st a) ++ snd (utf8_run (fst (utf8_run st a)) b)).
Proof.
  revert st. induction a as [|x a IH]; intros st.
  - cbn [app utf8_run fst snd]. destruct (utf8_run st b). reflexivity.
  - cbn [app utf8_run]. destruct (utf8_step st (Byte.to_N x)) as [st1 units].
    rewrite IH. destruct (utf8_run st1 a) as [st2 units2]. cbn [fst snd].
    destruct (utf8_run st2 b) as [st3 units3]. cbn [fst snd].
    rewrite app_assoc. reflexivity.
Qed.

Lemma Buffer_toString_app (a b : list Byte.byte) :
  ends_on_character a = true ->
  Buffer_toString (a ++ b) = Buffer_toString a ++ Buffer_toString b.
Proof.
  unfold ends_on_character, Buffer_toString. rewrite utf8_run_app.
  destruct (utf8_run Utf8Start a) as [st units]. cbn [fst snd].
  destruct st; [intros _ | discriminate].
  destruct (utf8_run Utf8Start b) as [st2 units2]. cbn [fst snd utf8_end].
  rewrite app_nil_r, app_assoc. reflexivity.
Qed.

(** X1.  The stream decoder does not depend on where the output of the
    child is cut, as long as no cut falls inside a character: bytes
    that arrive as two data events, the first of which ends where a
    character ends, have the same outcome (result, provider, messages
    and entries) as the same bytes in one data event.  (Each event is
    decoded on its own: a cut inside a multi-byte sequence leaves
    U+FFFD on either side of it, as the sample run
    [cut_inside_a_character] shows.) *)
Theorem stdout_data_chunks (pid : nat) (a b : list Byte.byte) (w : world) :
  ends_on_character a = true ->
  (on_stdout_data pid a ;; on_stdout_data pid b) w = on_stdout_data pid (a ++ b) w.
Proof.
  intros boundary. unfold on_stdout_data.
  rewrite (Buffer_toString_app a b boundary). apply on_stdout_chunks.
Qed.

(** X2.  A data event never throws, and what it posts is what it
    records: the entries it appends to the conversation and the messages
    it posts are the same, in the same order, each message carrying the
    [messageType] and the [data] of its entry; it has no other effect. *)
Theorem on_stdout_posts_what_it_records (pid : nat) (chunk : jstring) (w : world) :
  result_of (on_stdout pid chunk w) = Returns tt
  /\ exists new,
       _currentConversation (world_after (on_stdout pid chunk w))
       = _currentConversation w ++ new
       /\ Forall2 posted new (effects_of (on_stdout pid chunk w)).
Proof.
  split.
  - destruct (on_stdout_returns pid chunk w) as [[] ok]. exact ok.
  - exact (on_stdout_logs pid chunk w).
Qed.

(** A line changes the session and the clock only: whatever does not
    depend on them is kept. *)
Ltac keeps_side := intros; reflexivity.
Ltac keeps_base := apply Date_now_keeps; intros; reflexivity.

Lemma process_line_keeps {A} (g : world -> A) (line : jstring) :
  (forall x w, g (set__currentSessionId x w) = g w) ->
  (forall x w, g (set__totalCost x w) = g w) ->
  (forall x w, g (set__totalTokensInput x w) = g w) ->
  (forall x w, g (set__totalTokensOutput x w) = g w) ->
  (forall x w, g (set__requestCount x w) = g w) ->
  (forall x w, g (set__currentConversation x w) = g w) ->
  (forall x w, g (set__conversationStartTime x w) = g w) ->
  (forall x w, g (set_ticks x w) = g w) ->
  holds (keeps g) (process_line line).
Proof.
  intros H1 H2 H3 H4 H5 H6 H7 H8.
  assert (forall type data, holds (keeps g) (_sendAndSaveMessage type data)) as save.
  { intros type data. unfold _sendAndSaveMessage, new_Date_toISOString, _postMessage.
    follow ltac:(apply Date_now_keeps; exact H8)
           ltac:(intros; unfold keeps; first [apply H6 | apply H7 | reflexivity]). }
  assert (forall todos toolInput, holds (keeps g) (todo_lines todos toolInput)) as todos.
  { induction todos as [|todo todos IH]; intros toolInput.
    - apply holds_ret; typeclasses eauto.
    - simpl. apply holds_bind; [typeclasses eauto| |intros; apply IH].
      unfold todo_line. follow fail fail. }
  assert (forall content, holds (keeps g) (process_content content)) as content.
  { intros c. unfold process_content.
    follow ltac:(first [apply save | apply todos]) fail. }
  unfold process_line, _processJsonStreamData.
  follow ltac:(first [apply save | apply content])
         ltac:(intros; unfold keeps;
               first [apply H1 | apply H2 | apply H3 | apply H4 | apply H5]).
Qed.

(** X3.  A data event leaves alone everything but the session, the
    buffers of the children and the clock: the handle and the busy flag
    of the supervisor, the stored conversations, the allow-list and the
    pending permission requests, the selected model, the paths and the
    counters of children and promises are as before. *)
Theorem on_stdout_leaves_the_rest (pid : nat) (chunk : jstring) (w : world) :
  beyond_the_session (world_after (on_stdout pid chunk w)) = beyond_the_session w.
Proof.
  revert w. change (holds (keeps beyond_the_session) (on_stdout pid chunk)).
  unfold on_stdout.
  follow ltac:(apply process_line_keeps; intros; reflexivity) keeps_side.
Qed.

(** ** The supervisor *)

Lemma bind_read {A B} (g : world -> A) (k : A -> M B) (w : world) :
  (x <- read g ;; k x) w = k (g w) w.
Proof. unfold bind, read. destruct (k (g w) w) as [[? ?] ?]. reflexivity. Qed.

Lemma bind_modify {B} (g : world -> world) (k : unit -> M B) (w : world) :
  bind (modify g) k w = k tt (g w).
Proof. unfold bind, modify. destruct (k tt (g w)) as [[? ?] ?]. reflexivity. Qed.

Lemma bind_emit {B} (e : effect) (k : unit -> M B) (w : world) :
  bind (emit e) k w
  = (result_of (k tt w), world_after (k tt w), e :: effects_of (k tt w)).
Proof. unfold bind, emit. destruct (k tt w) as [[? ?] ?]. reflexivity. Qed.

Lemma bind_ret {A B} (a : A) (k : A -> M B) (w : world) : bind (ret a) k w = k a w.
Proof. unfold bind, ret. destruct (k a w) as [[? ?] ?]. reflexivity. Qed.

Lemma sendAndSave_keeps {A} (g : world -> A) (type : string) (data : value) :
  (forall x w, g (set__currentConversation x w) = g w) ->
  (forall x w, g (set__conversationStartTime x w) = g w) ->
  (forall x w, g (set_ticks x w) = g w) ->
  holds (keeps g) (_sendAndSaveMessage type data).
Proof.
  intros H1 H2 H3.
  unfold _sendAndSaveMessage, new_Date_toISOString, _postMessage.
  follow ltac:(apply Date_now_keeps; exact H3)
         ltac:(intros; unfold keeps; first [apply H1 | apply H2 | reflexivity]).
Qed.

Lemma save_keeps {A} (g : world -> A) :
  (forall x w, g (set_conversations x w) = g w) ->
  (forall x w, g (set_ticks x w) = g w) ->
  holds (keeps g) _saveCurrentConversation.
Proof.
  intros H1 H2.
  unfold _saveCurrentConversation, write_conversation, property_is,
    new_Date_toISOString.
  follow ltac:(apply Date_now_keeps; exact H2)
         ltac:(intros; unfold keeps; first [apply H1 | reflexivity]).
Qed.

(** What the close handler of a known child does once it has cleared
    the handle and the flag. *)
Lemma on_close_known (pid : nat) (code : value) (c : child) (w : world) :
  children w !! pid = Some c ->
  let w0 := set__currentClaudeProcess None (set__isProcessing false w) in
  let rest :=
    (_postMessage "setProcessing" (obj [("isProcessing", VBool false)]%string) ;;
     when (negb (strict_eq code (num 0)))
       (_sendAndSaveMessage "error"
          (or_else (VStr (trim (errorOutput c)))
             (VStr (lit "Claude exited with code " ++ to_string code)))) ;;
     _saveCurrentConversation) in
  on_close pid code w
  = (result_of (rest w0), world_after (rest w0),
     match _currentClaudeProcess w with
     | Some p => [EndStdin p]
     | None => []
     end ++ effects_of (rest w0)).
Proof.
  intros known w0 rest. unfold on_close.
  rewrite bind_read, known, bind_read.
  destruct (_currentClaudeProcess w) as [p|].
  - rewrite bind_emit, !bind_modify. reflexivity.
  - rewrite bind_ret, !bind_modify. apply outcome_eta.
Qed.

Lemma on_close_clears (pid : nat) (code : value) (c : child) (w : world) :
  children w !! pid = Some c ->
  supervision (world_after (on_close pid code w)) = (false, None).
Proof.
  intros known. rewrite (on_close_known pid code c w known). cbv zeta.
  unfold world_after at 1. cbn [fst snd].
  match goal with
  | |- supervision (world_after (?rest ?w0)) = _ =>
      assert (holds (keeps supervision) rest) as kept
  end.
  { unfold _postMessage.
    follow ltac:(first [apply sendAndSave_keeps; intros; reflexivity
                       | apply save_keeps; intros; reflexivity])
           keeps_side. }
  rewrite (kept _). reflexivity.
Qed.

Lemma Date_now_emits (P : effect -> Prop) : holds (emits P) Date_now.
Proof. intros w. constructor. Qed.

Ltac emits_side := intros; unfold emits; repeat constructor.

Lemma sendAndSave_emits (P : effect -> Prop) (type : string) (data : value) :
  P (Post (lit type) data) -> holds (emits P) (_sendAndSaveMessage type data).
Proof.
  intros ok w. destruct (sendAndSave_spec type data w) as (t & w' & run & _).
  rewrite run. constructor; [exact ok | constructor].
Qed.

Lemma save_emits (P : effect -> Prop) :
  (forall path doc, P (Write path doc)) -> holds (emits P) _saveCurrentConversation.
Proof.
  intros ok.
  unfold _saveCurrentConversation, write_conversation, property_is,
    new_Date_toISOString.
  follow ltac:(apply Date_now_emits)
         ltac:(intros; unfold emits; first [constructor; [apply ok | constructor]
                                           | constructor]).
Qed.

(** X4.  The close handler of any child that the provider has spawned,
    whether or not it is the one the handle points to, ends the stdin
    of the child the handle points to, clears the handle and the busy
    flag and kills nothing; [stopCurrentRequest] then does nothing.  A
    child that is closed late (after it was stopped and a new message
    was sent) so takes the new child out of the supervisor's reach. *)
Theorem close_of_any_child_clears_the_handle (pid p : nat) (c : child)
    (code : value) (w : world) :
  children w !! pid = Some c ->
  _currentClaudeProcess w = Some p ->
  _currentClaudeProcess (world_after (on_close pid code w)) = None
  /\ _isProcessing (world_after (on_close pid code w)) = false
  /\ hd_error (effects_of (on_close pid code w)) = Some (EndStdin p)
  /\ existsb is_kill (effects_of (on_close pid code w)) = false
  /\ stopCurrentRequest (world_after (on_close pid code w))
     = (Returns tt, world_after (on_close pid code w), []).
Proof.
  intros known current.
  pose proof (on_close_clears pid code c w known) as cleared.
  unfold supervision in cleared. injection cleared as idle gone.
  split; [exact gone|]. split; [exact idle|].
  split; [|split].
  - rewrite (on_close_known pid code c w known), current. reflexivity.
  - rewrite (on_close_known pid code c w known), current. cbv zeta.
    unfold effects_of at 1. cbn [snd app existsb is_kill orb].
    match goal with
    | |- existsb is_kill (effects_of (?rest ?w0)) = false =>
        assert (holds (emits (fun e => is_kill e = false)) rest) as quiet
    end.
    { unfold _postMessage.
      follow ltac:(first [apply sendAndSave_emits; reflexivity
                         | apply save_emits; reflexivity])
             emits_side. }
    specialize (quiet (set__currentClaudeProcess None (set__isProcessing false w))).
    unfold emits in quiet. revert quiet.
    generalize (effects_of
      ((_postMessage "setProcessing" (obj [("isProcessing", VBool false)]%string) ;;
        when (negb (strict_eq code (num 0)))
          (_sendAndSaveMessage "error"
             (or_else (VStr (trim (errorOutput c)))
                (VStr (lit "Claude exited with code " ++ to_string code)))) ;;
        _saveCurrentConversation)
         (set__currentClaudeProcess None (set__isProcessing false w)))).
    intros effects quiet. induction quiet as [|e l He _ IH]; [reflexivity|].
    cbn [existsb]. rewrite He, IH. reflexivity.
  - unfold stopCurrentRequest. rewrite bind_read, gone. reflexivity.
Qed.

(** The three ways the test on the session identifier can go. *)
Lemma assigned_by_claude_cases (sessionId : value) :
  (exists resume, forall w,
      assigned_by_claude sessionId w = (Returns resume, w, []))
  \/ (truthy sessionId = true /\ is_string sessionId = false
      /\ forall w, assigned_by_claude sessionId w = (Throws TypeError, w, [])).
Proof.
  unfold assigned_by_claude.
  destruct (truthy sessionId) eqn:known; [|left; eexists; reflexivity].
  destruct sessionId; try (left; eexists; reflexivity);
    right; repeat split; reflexivity.
Qed.

Lemma bind_run {A B} (m : M A) (k : A -> M B) (w w1 w2 : world) (a : A)
    (r : result B) (t1 t2 : list effect) :
  m w = (Returns a, w1, t1) -> k a w1 = (r, w2, t2) ->
  bind m k w = (r, w2, t1 ++ t2).
Proof. intros run1 run2. unfold bind. rewrite run1, run2. reflexivity. Qed.

Lemma bind_throws {A B} (m : M A) (k : A -> M B) (w w1 : world) (e : exn)
    (t1 : list effect) :
  m w = (Throws e, w1, t1) -> bind m k w = (Throws e, w1, t1).
Proof. intros run. unfold bind. rewrite run. reflexivity. Qed.

Lemma bind_quiet {A B} (m : M A) (k : A -> M B) (w w1 : world) (a : A) :
  m w = (Returns a, w1, []) -> bind m k w = k a w1.
Proof.
  intros run. unfold bind. rewrite run. destruct (k a w1) as [[? ?] ?]. reflexivity.
Qed.

Lemma bind_emit_run {B} (e : effect) (k : unit -> M B) (w w2 : world)
    (r : result B) (t2 : list effect) :
  k tt w = (r, w2, t2) -> bind (emit e) k w = (r, w2, e :: t2).
Proof. intros run. unfold bind, emit. rewrite run. reflexivity. Qed.

(** A message that is taken: the user entry is recorded and posted,
    then the child is started from a provider that differs from the one
    before in its conversation, its start time and the clock only. *)
Lemma sendMessage_idle (message planMode thinkingMode : value) (w : world) :
  _isProcessing w = false ->
  exists w1 timestamp,
    (forall r w2 t2,
        start_child message planMode thinkingMode w1 = (r, w2, t2) ->
        sendMessage message planMode thinkingMode w
        = (r, w2, Post (lit "userInput") message :: t2))
    /\ _currentConversation w1
       = _currentConversation w ++ [timestampedMessage timestamp "userInput" message]
    /\ _currentSessionId w1 = _currentSessionId w
    /\ supervision w1 = supervision w
    /\ spawned w1 = spawned w
    /\ children w1 = children w
    /\ beyond_the_session w1 = beyond_the_session w.
Proof.
  intros idle. unfold sendMessage. rewrite bind_read, idle.
  assert (exists w0,
             when (negb (truthy (_currentSessionId w)))
               (t <- new_Date_toISOString ;; modify (set__conversationStartTime t)) w
             = (Returns tt, w0, [])
             /\ _currentConversation w0 = _currentConversation w
             /\ _currentSessionId w0 = _currentSessionId w
             /\ supervision w0 = supervision w
             /\ spawned w0 = spawned w
             /\ children w0 = children w
             /\ beyond_the_session w0 = beyond_the_session w)
    as (w0 & run0 & conv0 & id0 & sup0 & n0 & cs0 & rest0).
  { destruct (negb (truthy (_currentSessionId w))).
    - eexists. split; [reflexivity|]. repeat split; reflexivity.
    - exists w. repeat split; reflexivity. }
  pose proof (sendAndSave_keeps
                (fun w => (_currentSessionId w, supervision w, spawned w, children w,
                           beyond_the_session w))
                "userInput" message
                ltac:(intros; reflexivity) ltac:(intros; reflexivity)
                ltac:(intros; reflexivity) w0) as kept.
  destruct (sendAndSave_spec "userInput" message w0)
    as (timestamp & w1 & run1 & conv1 & _).
  rewrite run1 in kept. unfold keeps, world_after in kept. cbn [fst snd] in kept.
  apply pair_equal_spec in kept as [kept rest1].
  apply pair_equal_spec in kept as [kept cs1].
  apply pair_equal_spec in kept as [kept n1].
  apply pair_equal_spec in kept as [id1 sup1].
  exists w1, timestamp. split.
  - intros r w2 t2 run2. rewrite bind_read.
    apply (bind_run _ _ _ _ _ _ _ _ _ run0).
    apply (bind_run _ _ _ _ _ _ _ _ _ run1). exact run2.
  - split; [rewrite conv1, conv0; reflexivity|].
    repeat split; congruence.
Qed.


Lemma sendMessage_fails (message planMode thinkingMode : value) (w : world) :
  _isProcessing w = false ->
  (forall w0, assigned_by_claude (_currentSessionId w) w0 = (Throws TypeError, w0, [])) ->
  result_of (sendMessage message planMode thinkingMode w) = Throws TypeError
  /\ effects_of (sendMessage message planMode thinkingMode w)
     = [Post (lit "userInput") message;
        Post (lit "setProcessing") (obj [("isProcessing", VBool true)]%string)]
  /\ supervision (world_after (sendMessage message planMode thinkingMode w))
     = (true, _currentClaudeProcess w)
  /\ spawned (world_after (sendMessage message planMode thinkingMode w)) = spawned w.
Proof.
  intros idle test.
  destruct (sendMessage_idle message planMode thinkingMode w idle)
    as (w1 & timestamp & run & _ & id1 & sup1 & n1 & _).
  erewrite run; cycle 1.
  { unfold start_child. rewrite bind_modify. apply bind_emit_run. rewrite bind_read.
    change (_currentSessionId (set__isProcessing true w1)) with (_currentSessionId w1).
    rewrite id1. apply bind_throws. apply test. }
  unfold supervision in *. apply pair_equal_spec in sup1 as [_ proc1].
  unfold result_of, world_after, effects_of. cbn [fst snd].
  cbn [set__isProcessing _isProcessing _currentClaudeProcess spawned].
  rewrite proc1, n1. repeat split; reflexivity.
Qed.

Lemma sendMessage_rejected (message planMode thinkingMode : value) (w : world) :
  _isProcessing w = true ->
  sendMessage message planMode thinkingMode w
  = (Returns tt, w,
     [Post (lit "error")
        (str "Already processing a message. Please wait or stop the current request.")]).
Proof. intros busy. unfold sendMessage. rewrite bind_read, busy. reflexivity. Qed.

Lemma stop_outcome (w : world) :
  result_of (stopCurrentRequest w) = Returns tt
  /\ match _currentClaudeProcess w with
     | Some p =>
         supervision (world_after (stopCurrentRequest w)) = (false, None)
         /\ effects_of (stopCurrentRequest w)
            = [Kill p; Post (lit "error") (str "Claude code was stopped.")]
         /\ exists timestamp,
              _currentConversation (world_after (stopCurrentRequest w))
              = _currentConversation w
                ++ [timestampedMessage timestamp "error"
                      (str "Claude code was stopped.")]
     | None => stopCurrentRequest w = (Returns tt, w, [])
     end
  /\ children (world_after (stopCurrentRequest w)) = children w
  /\ _currentSessionId (world_after (stopCurrentRequest w)) = _currentSessionId w
  /\ conversations (world_after (stopCurrentRequest w)) = conversations w.
Proof.
  unfold stopCurrentRequest. rewrite bind_read.
  destruct (_currentClaudeProcess w) as [p|] eqn:current.
  - rewrite bind_emit, !bind_modify.
    destruct (sendAndSave_spec "error" (str "Claude code was stopped.")
                (set__isProcessing false (set__currentClaudeProcess None w)))
      as (timestamp & w' & run & conv & proc & flag & id & dir & cs).
    rewrite run. unfold result_of, world_after, effects_of, supervision. cbn [fst snd].
    rewrite proc, flag, cs, id, dir.
    split; [reflexivity|]. split; [|repeat split; reflexivity].
    split; [reflexivity|]. split; [reflexivity|]. exists timestamp. exact conv.
  - repeat split; reflexivity.
Qed.

Lemma flag_of_supervision (w : world) (flag : bool) (p : option nat) :
  supervision w = (flag, p) -> _isProcessing w = flag.
Proof. intros E. apply (f_equal fst) in E. exact E. Qed.






(** X6.  A session identifier that is true but not a string (a number
    read from the stream or from a stored record) wedges the provider:
    the next message is recorded and announced, then [sendMessage]
    throws a TypeError with the busy flag set and no child spawned;
    every later message is turned down as already processing, and with
    no child in the handle [stopCurrentRequest] does nothing. *)
Theorem sendMessage_wedged_by_identifier (message planMode thinkingMode : value)
    (w : world) :
  _isProcessing w = false ->
  truthy (_currentSessionId w) = true ->
  is_string (_currentSessionId w) = false ->
  result_of (sendMessage message planMode thinkingMode w) = Throws TypeError
  /\ effects_of (sendMessage message planMode thinkingMode w)
     = [Post (lit "userInput") message;
        Post (lit "setProcessing") (obj [("isProcessing", VBool true)]%string)]
  /\ _isProcessing (world_after (sendMessage message planMode thinkingMode w)) = true
  /\ _currentClaudeProcess (world_after (sendMessage message planMode thinkingMode w))
     = _currentClaudeProcess w
  /\ (forall next planMode' thinkingMode',
         sendMessage next planMode' thinkingMode'
           (world_after (sendMessage message planMode thinkingMode w))
         = (Returns tt, world_after (sendMessage message planMode thinkingMode w),
            [Post (lit "error")
               (str "Already processing a message. Please wait or stop the current request.")]))
  /\ (_currentClaudeProcess w = None ->
      stopCurrentRequest (world_after (sendMessage message planMode thinkingMode w))
      = (Returns tt, world_after (sendMessage message planMode thinkingMode w), [])).
Proof.
  intros idle known not_text.
  assert (forall w0, assigned_by_claude (_currentSessionId w) w0
                     = (Throws TypeError, w0, [])) as test.
  { destruct (assigned_by_claude_cases (_currentSessionId w))
      as [[resume test] | (_ & _ & test)]; [|exact test].
    exfalso. specialize (test w). unfold assigned_by_claude in test.
    rewrite known in test. destruct (_currentSessionId w); discriminate. }
  destruct (sendMessage_fails message planMode thinkingMode w idle test)
    as (failed & posted & sup & _).
  unfold supervision in sup. apply pair_equal_spec in sup as [busy same].
  split; [exact failed|]. split; [exact posted|]. split; [exact busy|].
  split; [exact same|]. split.
  - intros next planMode' thinkingMode'. apply sendMessage_rejected. exact busy.
  - intros none. unfold stopCurrentRequest. rewrite bind_read, same, none. reflexivity.
Qed.

Lemma save_conversation_kept :
  holds (keeps _currentConversation) _saveCurrentConversation.
Proof. apply save_keeps; intros; reflexivity. Qed.

(** X7.  A child that is stopped and then closes is reported twice:
    [stopCurrentRequest] kills it and records that it was stopped, and
    its close handler, which finds the handle empty, records an error
    of its own for the exit code (here with nothing on stderr), so the
    conversation gains two error entries and the client two error
    messages; whatever else the close handler does is writing the
    session. *)
Theorem stop_then_close_reports_twice (p : nat) (c : child) (code : value)
    (w : world) :
  _currentClaudeProcess w = Some p ->
  children w !! p = Some c ->
  trim (errorOutput c) = [] ->
  strict_eq code (num 0) = false ->
  exists saved timestamp1 timestamp2,
    effects_of ((stopCurrentRequest ;; on_close p code) w)
    = [Kill p;
       Post (lit "error") (str "Claude code was stopped.");
       Post (lit "setProcessing") (obj [("isProcessing", VBool false)]%string);
       Post (lit "error") (VStr (lit "Claude exited with code " ++ to_string code))]
      ++ saved
    /\ Forall (fun e => not_a_write e = false) saved
    /\ _currentConversation (world_after ((stopCurrentRequest ;; on_close p code) w))
       = _currentConversation w
         ++ [timestampedMessage timestamp1 "error" (str "Claude code was stopped.");
             timestampedMessage timestamp2 "error"
               (VStr (lit "Claude exited with code " ++ to_string code))].
Proof.
  intros current known silent failed.
  destruct (stop_outcome w) as (ok & outcome & cs & _).
  rewrite current in outcome. destruct outcome as (cleared & killed & ts1 & conv1).
  destruct (stopCurrentRequest w) as [[r w1] t1] eqn:stopped.
  unfold result_of, world_after, effects_of in ok, cleared, killed, conv1, cs.
  cbn [fst snd] in ok, cleared, killed, conv1, cs. subst r t1.
  unfold supervision in cleared. apply pair_equal_spec in cleared as [_ gone].
  rewrite <- cs in known.
  set (w0 := set__currentClaudeProcess None (set__isProcessing false w1)).
  destruct (sendAndSave_spec "error"
              (VStr (lit "Claude exited with code " ++ to_string code)) w0)
    as (ts2 & w2 & run2 & conv2 & _).
  pose proof (save_emits (fun e => not_a_write e = false)
                ltac:(intros; reflexivity) w2) as writes.
  pose proof (save_conversation_kept w2) as same.
  destruct (_saveCurrentConversation w2) as [[r3 w3] t3] eqn:run3.
  unfold emits, keeps, world_after, effects_of in writes, same.
  cbn [fst snd] in writes, same.
  assert (on_close p code w1
          = (r3, w3,
             [Post (lit "setProcessing") (obj [("isProcessing", VBool false)]%string);
              Post (lit "error")
                (VStr (lit "Claude exited with code " ++ to_string code))] ++ t3))
    as closed.
  { unfold on_close. rewrite bind_read, known, bind_read, gone, bind_ret, !bind_modify.
    fold w0. unfold _postMessage. apply bind_emit_run.
    rewrite failed, silent. cbn [negb when or_else truthy].
    apply (bind_run _ _ _ _ _ _ _ _ _ run2). exact run3. }
  exists t3, ts1, ts2. unfold bind. rewrite stopped, closed.
  unfold effects_of, world_after. cbn [fst snd].
  split; [reflexivity|]. split; [exact writes|].
  rewrite same, conv2. change (_currentConversation w0) with (_currentConversation w1).
  rewrite conv1, <- app_assoc. reflexivity.
Qed.

(** ** The store of sessions *)

Lemma json_fields_cons (k : jstring) (v : value) (fs : list (jstring * value)) :
  json_fields ((k, v) :: fs)
  = match v with
    | VUndef => json_fields fs
    | _ => (k, json_image v) :: json_fields fs
    end.
Proof. destruct v; reflexivity. Qed.

(** A property that holds a value is still there after the round
    trip, with the image of the value. *)
Lemma lookup_json_fields (k : jstring) (fs : list (jstring * value)) :
  lookup_field k fs <> VUndef ->
  lookup_field k (json_fields fs) = json_image (lookup_field k fs).
Proof.
  induction fs as [|[k' v] fs IH]; [intros absent; contradiction|].
  rewrite json_fields_cons. cbn [lookup_field].
  destruct (str_eqb k k') eqn:same.
  - intros defined. destruct v; try contradiction; cbn [lookup_field];
      rewrite same; reflexivity.
  - intros defined. destruct v; cbn [lookup_field]; rewrite ?same; apply IH; exact defined.
Qed.

Lemma find_m_objects (k literal : string) (l : list value) (w : world) :
  forallb is_object l = true ->
  find_m (property_is k literal) l w
  = (Returns (List.find (fun m => is_str (lit literal) (field k m)) l), w, []).
Proof.
  induction l as [|m l IH]; cbn [find_m forallb List.find]; [reflexivity|].
  intros objects. apply andb_prop in objects as [object objects].
  unfold bind. rewrite property_is_object by exact object.
  destruct (is_str (lit literal) (field k m)); [reflexivity|].
  rewrite IH by exact objects. reflexivity.
Qed.

Lemma find_object {P : value -> bool} (l : list value) (msg : value) :
  forallb is_object l = true -> List.find P l = Some msg -> is_object msg = true.
Proof.
  induction l as [|m l IH]; cbn [forallb List.find]; [discriminate|].
  intros objects. apply andb_prop in objects as [object objects].
  destruct (P m); [intros E; injection E as <-; exact object | apply IH; exact objects].
Qed.


Lemma startsWith_app (s rest : jstring) : startsWith s (s ++ rest) = true.
Proof.
  induction s as [|c s IH]; [reflexivity|].
  cbn [startsWith app]. rewrite N.eqb_refl. exact IH.
Qed.

Lemma includes_prefix (s rest : jstring) : includes s (s ++ rest) = true.
Proof.
  destruct s as [|c s]; [destruct rest; reflexivity|].
  pose proof (startsWith_app (c :: s) rest) as starts.
  change ((c :: s) ++ rest) with (c :: (s ++ rest)) in *.
  cbn [includes]. rewrite starts. reflexivity.
Qed.

(** The callback of [find] meets the file just written before any other
    file that it would accept. *)
Lemma find_put_file (sessionId : value) (name : jstring) (doc : option value)
    (files : list (jstring * option value)) :
  record_named sessionId (name, doc) = true ->
  (forall f, In f files -> record_named sessionId f = true -> fst f = name) ->
  List.find (record_named sessionId) (put_file name doc files) = Some (name, doc).
Proof.
  intros named others. induction files as [|[n d] files IH].
  - cbn [put_file List.find]. rewrite named. reflexivity.
  - cbn [put_file]. destruct (str_eqb n name) eqn:same.
    + cbn [List.find]. rewrite named. reflexivity.
    + cbn [List.find]. destruct (record_named sessionId (n, d)) eqn:accepted.
      * pose proof (others (n, d) (or_introl eq_refl) accepted) as E.
        cbn [fst] in E. subst n. rewrite str_eqb_refl in same. discriminate.
      * apply IH. intros f member. apply others. right. exact member.
Qed.

Lemma forallb_object_images (l : list value) :
  forallb is_object l = true -> forallb is_object (List.map json_image l) = true.
Proof.
  induction l as [|m l IH]; [reflexivity|]. cbn [forallb List.map].
  intros objects. apply andb_prop in objects as [object objects].
  rewrite (IH objects). destruct m; try discriminate. reflexivity.
Qed.

Lemma json_image_obj (fs : list (jstring * value)) :
  json_image (VObj fs) = VObj (json_fields fs).
Proof. reflexivity. Qed.

Lemma conversationData_parts (a b c d e f g h : value) :
  lookup_field (lit "sessionId")
    (List.map (fun kv : string * value => (lit (fst kv), snd kv))
       [("sessionId", a); ("title", b); ("startTime", c); ("endTime", d);
        ("messageCount", e); ("totalCost", f); ("totalTokens", g);
        ("messages", h)]%string) = a
  /\ lookup_field (lit "messages")
       (List.map (fun kv : string * value => (lit (fst kv), snd kv))
          [("sessionId", a); ("title", b); ("startTime", c); ("endTime", d);
           ("messageCount", e); ("totalCost", f); ("totalTokens", g);
           ("messages", h)]%string) = h.
Proof. split; vm_compute; reflexivity. Qed.

(** The record of a session as the store gives it back. *)
Lemma conversationData_image (w : world) (title endTime : value) :
  exists fields,
    json_image (conversationData w title endTime) = VObj fields
    /\ lookup_field (lit "messages") fields
       = VArr (List.map json_image (_currentConversation w))
    /\ (_currentSessionId w <> VUndef ->
        lookup_field (lit "sessionId") fields = json_image (_currentSessionId w)).
Proof.
  unfold conversationData, obj. rewrite json_image_obj.
  eexists. split; [reflexivity|].
  match goal with
  | |- context [json_fields (List.map _ [(_, ?a); (_, ?b); (_, ?c); (_, ?d);
                                         (_, ?e); (_, ?f); (_, ?g); (_, ?h)])] =>
      destruct (conversationData_parts a b c d e f g h) as [ids msgs]
  end.
  split.
  - rewrite lookup_json_fields; rewrite msgs; [reflexivity | discriminate].
  - intros defined. rewrite lookup_json_fields; rewrite ids; [reflexivity | exact defined].
Qed.

Lemma world_after_run {A} (r : result A) (w : world) (t : list effect) :
  world_after (r, w, t) = w.
Proof. reflexivity. Qed.

(** What a save hands over does not depend on whether the store takes
    it: the record of the session, as the clock stamps it, under the
    name of the session, once. *)
Lemma save_effects (w : world) :
  truthy (_currentSessionId w) = true ->
  _currentConversation w <> [] ->
  forallb is_object (_currentConversation w) = true ->
  effects_of (_saveCurrentConversation w)
  = [Write [conversationsPath w; to_string (_currentSessionId w) ++ lit ".json"]
       (conversationData (set_ticks (S (ticks w)) w)
          (title_of (first_user_input (_currentConversation w)))
          (VStr (toISOString (clock (ticks w)))))].
Proof.
  intros known some objects.
  unfold _saveCurrentConversation. rewrite !bind_read, known.
  replace (length (_currentConversation w) =? 0)%nat with false
    by (destruct (_currentConversation w); [congruence | reflexivity]).
  cbn [negb orb].
  rewrite (bind_quiet _ _ _ _ _ (find_m_objects "messageType" "userInput" _ w objects)).
  assert (match List.find (fun m => is_str (lit "userInput") (field "messageType" m))
                  (_currentConversation w) with
          | Some msg => prop "data" msg
          | None => ret VUndef
          end w
          = (Returns (first_user_input (_currentConversation w)), w, [])) as data.
  { unfold first_user_input, messageType_is.
    destruct (List.find _ (_currentConversation w)) as [msg|] eqn:found; [|reflexivity].
    pose proof (find_object _ _ objects found) as object.
    destruct msg; try discriminate. reflexivity. }
  rewrite (bind_quiet _ _ _ _ _ data).
  unfold new_Date_toISOString, Date_now.
  erewrite bind_quiet; [|unfold bind, ret; reflexivity].
  set (w0 := set_ticks (S (ticks w)) w).
  rewrite bind_read, bind_ret.
  unfold try_catch, write_conversation. rewrite bind_read.
  unfold bind at 1. unfold emit at 1. rewrite bind_read.
  change (conversations w0) with (conversations w).
  change (conversationsPath w0) with (conversationsPath w).
  destruct (conversations w) as [files|];
    [destruct (plain_name (to_string (_currentSessionId w) ++ lit ".json"))|];
    reflexivity.
Qed.

(** X8.  Saving and loading are inverse up to what JSON can hold.  A
    session that has an identifier and entries (objects, as
    [_sendAndSaveMessage] appends them) makes [_saveCurrentConversation]
    hand over exactly one record, under the identifier followed by
    [.json].  Whenever the conversations directory holds that record
    under that name (the write went through, and the file is still
    there) and no file listed before it answers to the identifier,
    [loadConversation] with the identifier returns the record, and the
    session in memory is again that identifier and those entries, each
    as [JSON.parse (JSON.stringify entry)] gives it back; this holds
    whatever else the provider has come to hold by then. *)
Theorem save_then_load (w : world) :
  truthy (_currentSessionId w) = true ->
  _currentConversation w <> [] ->
  forallb is_object (_currentConversation w) = true ->
  exists record,
    effects_of (_saveCurrentConversation w)
    = [Write [conversationsPath w; to_string (_currentSessionId w) ++ lit ".json"]
         record]
    /\ forall (later : world) (files : list (jstring * option value)),
         conversations later = Some files ->
         List.find (record_named (_currentSessionId w)) files
         = Some (to_string (_currentSessionId w) ++ lit ".json",
                 Some (json_image record)) ->
         result_of (loadConversation (_currentSessionId w) later)
         = Returns (json_image record)
         /\ effects_of (loadConversation (_currentSessionId w) later) = []
         /\ _currentSessionId
              (world_after (loadConversation (_currentSessionId w) later))
            = json_image (_currentSessionId w)
         /\ _currentConversation
              (world_after (loadConversation (_currentSessionId w) later))
            = List.map json_image (_currentConversation w).
Proof.
  intros known some objects.
  rewrite (save_effects w known some objects).
  eexists. split; [reflexivity|].
  intros later files dir found.
  destruct (conversationData_image (set_ticks (S (ticks w)) w)
              (title_of (first_user_input (_currentConversation w)))
              (VStr (toISOString (clock (ticks w)))))
    as (fields & image & messages & ids).
  rewrite image in found |- *.
  assert (to_string (_currentSessionId w) ++ lit ".json" <> []) as nonempty.
  { intros E. apply (f_equal (@length N)) in E. rewrite length_app in E.
    cbn in E. lia. }
  destruct (loadConversation_found (_currentSessionId w) later files _ fields
              (List.map json_image (_currentConversation w))
              dir found nonempty messages (forallb_object_images _ objects))
    as (w2 & run & id & conv & _).
  rewrite run. unfold result_of, effects_of, world_after. cbn [fst snd].
  split; [reflexivity|]. split; [reflexivity|]. split; [|exact conv].
  rewrite id. apply ids.
  change (_currentSessionId (set_ticks (S (ticks w)) w)) with (_currentSessionId w).
  intros E. rewrite E in known. discriminate.
Qed.

(** *** The close handler and stderr *)

(** The stderr handler only adds to the text kept for the child: after
    any number of data events the text is what it was, followed by the
    text of each chunk, decoded on its own, in the order of arrival. *)
Lemma stderr_chunks_run (pid : nat) (c : child) (chunks : list (list Byte.byte))
    (w : world) :
  children w !! pid = Some c ->
  exists cs,
    for_each (on_stderr_data pid) chunks w = (Returns tt, set_children cs w, [])
    /\ cs !! pid
       = Some (Child (rawOutput c)
                 (errorOutput c ++ List.concat (List.map Buffer_toString chunks))).
Proof.
  revert c w. induction chunks as [|data chunks IH]; intros c w known.
  - exists (children w). cbn [for_each List.map List.concat].
    rewrite app_nil_r. split; [destruct w; reflexivity | destruct c; exact known].
  - cbn [for_each List.map List.concat].
    assert (on_stderr_data pid data w
            = (Returns tt,
               set_children
                 (<[pid := Child (rawOutput c) (errorOutput c ++ Buffer_toString data)]>
                    (children w)) w, [])) as heard.
    { unfold on_stderr_data, on_stderr. rewrite bind_read, known. reflexivity. }
    set (w1 := set_children _ w) in heard.
    destruct (IH (Child (rawOutput c) (errorOutput c ++ Buffer_toString data)) w1)
      as (cs & run & at_pid); [apply lookup_insert_eq|].
    exists cs. rewrite (bind_run _ _ _ _ _ _ _ _ _ heard run).
    split; [reflexivity|]. rewrite at_pid. cbn [rawOutput errorOutput].
    rewrite app_assoc. reflexivity.
Qed.

(** X25.  What a child writes on stderr is reported when it fails,
    and only then.  The stderr data events of a child post and record
    nothing.  After any number of them, the close handler of that child
    ends the stdin of the child in the handle, if any, posts that
    processing is over, and, when the exit code is not 0, records and
    posts one error.  Its text is what was kept for the child before,
    followed by the text of each chunk in the order of arrival, each
    chunk decoded on its own, the whole trimmed; or the exit code when
    that is blank.  With exit code 0 nothing of stderr is posted or
    recorded.  Whatever else the handler does is writing the session. *)
Theorem stderr_is_reported_on_failure (pid : nat) (c : child)
    (chunks : list (list Byte.byte)) (code : value) (w : world) :
  children w !! pid = Some c ->
  let heard := for_each (on_stderr_data pid) chunks w in
  let report :=
    or_else
      (VStr (trim (errorOutput c ++ List.concat (List.map Buffer_toString chunks))))
      (VStr (lit "Claude exited with code " ++ to_string code)) in
  let closed := on_close pid code (world_after heard) in
  result_of heard = Returns tt
  /\ effects_of heard = []
  /\ _currentConversation (world_after heard) = _currentConversation w
  /\ exists saved timestamp,
       effects_of closed
       = match _currentClaudeProcess w with
         | Some p => [EndStdin p]
         | None => []
         end
         ++ [Post (lit "setProcessing") (obj [("isProcessing", VBool false)]%string)]
         ++ (if strict_eq code (num 0) then [] else [Post (lit "error") report])
         ++ saved
       /\ Forall (fun e => not_a_write e = false) saved
       /\ _currentConversation (world_after closed)
          = _currentConversation w
            ++ (if strict_eq code (num 0) then []
                else [timestampedMessage timestamp "error" report]).
Proof.
  intros known heard report closed. subst closed heard.
  destruct (stderr_chunks_run pid c chunks w known) as (cs & run & at_pid).
  rewrite run, world_after_run. clear run.
  split; [reflexivity|]. split; [reflexivity|]. split; [reflexivity|].
  set (w1 := set_children cs w).
  rewrite (on_close_known pid code _ w1 at_pid). cbv zeta.
  change (_currentClaudeProcess w1) with (_currentClaudeProcess w).
  cbn [errorOutput]. fold report.
  set (w0 := set__currentClaudeProcess None (set__isProcessing false w1)).
  assert (forall w2, exists r w3 saved,
             _saveCurrentConversation w2 = (r, w3, saved)
             /\ Forall (fun e => not_a_write e = false) saved
             /\ _currentConversation w3 = _currentConversation w2) as writes.
  { intros w2.
    pose proof (save_emits (fun e => not_a_write e = false)
                  ltac:(intros; reflexivity) w2) as only.
    pose proof (save_conversation_kept w2) as kept.
    destruct (_saveCurrentConversation w2) as [[r w3] saved].
    exists r, w3, saved. split; [reflexivity|]. split; [exact only | exact kept]. }
  unfold _postMessage.
  destruct (strict_eq code (num 0)); cbn [negb when].
  - destruct (writes w0) as (r & w3 & saved & run & only & kept).
    exists saved, VUndef.
    rewrite bind_emit, bind_ret, run.
    unfold effects_of, world_after. cbn [fst snd].
    split; [reflexivity|]. split; [exact only|].
    rewrite kept, app_nil_r. reflexivity.
  - destruct (sendAndSave_spec "error" report w0)
      as (timestamp & w2 & run2 & conv & _).
    destruct (writes w2) as (r & w3 & saved & run & only & kept).
    exists saved, timestamp.
    rewrite bind_emit, (bind_run _ _ _ _ _ _ _ _ _ run2 run).
    unfold effects_of, world_after. cbn [fst snd].
    split; [reflexivity|]. split; [exact only|].
    rewrite kept, conv. reflexivity.
Qed.

(** *** Listing and deleting *)












(** *** Resuming and replaying *)


Lemma endsWith_suffix (s suffix : jstring) : endsWith suffix (s ++ suffix) = true.
Proof. unfold endsWith. rewrite rev_app_distr. apply startsWith_app. Qed.


Lemma replay_pure (msg : value) (w w0 : world) :
  replay msg w = (result_of (replay msg w0), w, effects_of (replay msg w0)).
Proof.
  unfold replay. destruct msg; try reflexivity.
  cbn [prop]. rewrite !bind_ret.
  destruct (truthy (lookup_field (lit "messageType") fields)); [|reflexivity].
  rewrite !bind_ret.
  destruct (truthy (lookup_field (lit "data") fields)); [|reflexivity].
  cbn [when]. destruct (lookup_field (lit "messageType") fields); reflexivity.
Qed.

Lemma for_each_replay_pure (l : list value) (w w0 : world) :
  for_each replay l w
  = (result_of (for_each replay l w0), w, effects_of (for_each replay l w0)).
Proof.
  revert w w0. induction l as [|msg l IH]; intros w w0; [reflexivity|].
  cbn [for_each]. unfold bind. rewrite (replay_pure msg w w0).
  pose proof (replay_pure msg w0 w0) as same.
  destruct (replay msg w0) as [[r0 w0'] t0].
  unfold result_of, effects_of in same |- *. cbn [fst snd] in same |- *.
  injection same as ->.
  destruct r0 as [[]|e]; [|reflexivity].
  rewrite (IH w w0).
  destruct (for_each replay l w0) as [[r w2] t2]. reflexivity.
Qed.

Lemma replay_posted (entry : value) (e : effect) (w : world) :
  posted entry e ->
  replay entry w = (Returns tt, w, if shown e then [e] else []).
Proof.
  intros (type & named & kind & ->). unfold replay, shown.
  destruct entry; try discriminate. cbn [field] in *. cbn [prop].
  rewrite !bind_ret, kind.
  replace (truthy (VStr type)) with true by (destruct type; [congruence | reflexivity]).
  rewrite bind_ret.
  destruct (truthy (lookup_field (lit "data") fields)); reflexivity.
Qed.

Lemma for_each_replay_posted (new : list value) (t : list effect) (w : world) :
  Forall2 posted new t ->
  for_each replay new w = (Returns tt, w, List.filter shown t).
Proof.
  induction 1 as [|entry e new t first _ IH]; [reflexivity|].
  cbn [for_each List.filter].
  rewrite (bind_run _ _ _ _ _ _ _ _ _ (replay_posted _ _ w first) IH).
  destruct (shown e); reflexivity.
Qed.

(** After a data event, [loadLatestConversation] shows what it would
    have shown before the event (all but the closing totals), then the
    messages that the event posted whose data is true, then the totals
    as they are now; it changes nothing. *)
Lemma loadLatestConversation_after_data (pid : nat) (chunk : jstring) (w : world) :
  result_of (loadLatestConversation w) = Returns tt ->
  loadLatestConversation (world_after (on_stdout pid chunk w))
  = (Returns tt, world_after (on_stdout pid chunk w),
     removelast (effects_of (loadLatestConversation w))
     ++ List.filter shown (effects_of (on_stdout pid chunk w))
     ++ [Post (lit "updateTotals") (totals (world_after (on_stdout pid chunk w)))]).
Proof.
  intros returned. set (live := on_stdout pid chunk w).
  destruct (on_stdout_logs pid chunk w) as (new & conv & records). fold live in conv, records.
  assert (forall w0, loadLatestConversation w0
            = (for_each replay (_currentConversation w0) ;;
               _postMessage "updateTotals" (totals w0)) w0) as unfolded.
  { intros w0. unfold loadLatestConversation. rewrite bind_read.
    unfold bind. rewrite (for_each_replay_pure _ w0 w0).
    destruct (for_each replay (_currentConversation w0) w0) as [[[[]|e] w1] t1];
      unfold result_of, effects_of; cbn [fst snd]; reflexivity. }
  rewrite unfolded in returned. rewrite !unfolded. clear unfolded.
  unfold bind in returned |- *.
  rewrite conv, for_each_app. unfold bind.
  rewrite (for_each_replay_pure _ (world_after live) w).
  destruct (for_each replay (_currentConversation w) w) as [[[[]|e] w1] t1];
    unfold result_of, effects_of in returned |- *; cbn [fst snd] in returned |- *;
    [|discriminate].
  rewrite (for_each_replay_posted new _ _ records).
  unfold _postMessage, emit. cbn [fst snd].
  rewrite removelast_last, <- app_assoc. reflexivity.
Qed.

Lemma getSessionInfo_run (w : world) :
  getSessionInfo w
  = (Returns (if truthy (_currentSessionId w) then session_info w else VNull), w, []).
Proof.
  unfold getSessionInfo. rewrite bind_read.
  destruct (truthy (_currentSessionId w)); reflexivity.
Qed.

(** A client that connects to a provider whose session has no
    identifier is shown nothing of the session. *)
Lemma on_connection_without_identifier (w : world) :
  truthy (_currentSessionId w) = false ->
  on_connection w = (Returns tt, w, [Post (lit "connected") VUndef]).
Proof.
  intros unknown. unfold on_connection, _postMessage.
  rewrite bind_emit, (bind_quiet _ _ _ _ _ (getSessionInfo_run w)), unknown.
  reflexivity.
Qed.

Lemma on_connection_with_identifier (w : world) :
  truthy (_currentSessionId w) = true ->
  on_connection w
  = (result_of (loadLatestConversation w), world_after (loadLatestConversation w),
     Post (lit "connected") VUndef
     :: Post (lit "sessionResumed") (session_info w)
     :: effects_of (loadLatestConversation w)).
Proof.
  intros known. unfold on_connection, _postMessage.
  rewrite bind_emit, (bind_quiet _ _ _ _ _ (getSessionInfo_run w)), known.
  change (truthy (session_info w)) with true. cbn [when].
  rewrite bind_emit. reflexivity.
Qed.

(** X12.  What a client that connects later is shown is what was
    posted live, if the session has an identifier by then.  A client
    that connects after a stdout data event is sent [connected]; if
    the session has no identifier (none came with the stream yet),
    that is all, whatever has been posted and recorded; otherwise it is
    sent [sessionResumed] with the identifier and the totals, then what
    [loadLatestConversation] would have shown before the event (all but
    the closing totals), then the messages that the event posted whose
    data is true, in the same order, then the totals as they are now.
    (A message whose data is false, such as an empty text, is posted
    live but not shown again.)  Connecting changes nothing in the
    provider. *)
Theorem replay_shows_what_was_posted (pid : nat) (data : list Byte.byte)
    (w : world) :
  result_of (loadLatestConversation w) = Returns tt ->
  let live := on_stdout_data pid data w in
  on_connection (world_after live)
  = (Returns tt, world_after live,
     Post (lit "connected") VUndef
     :: (if truthy (_currentSessionId (world_after live))
         then Post (lit "sessionResumed") (session_info (world_after live))
              :: removelast (effects_of (loadLatestConversation w))
              ++ List.filter shown (effects_of live)
              ++ [Post (lit "updateTotals") (totals (world_after live))]
         else [])).
Proof.
  intros returned live. subst live. unfold on_stdout_data.
  set (chunk := Buffer_toString data).
  destruct (truthy (_currentSessionId (world_after (on_stdout pid chunk w))))
    eqn:known.
  - rewrite (on_connection_with_identifier _ known).
    rewrite (loadLatestConversation_after_data pid chunk w returned).
    reflexivity.
  - apply on_connection_without_identifier. exact known.
Qed.

(** X13.  [newSession], when it returns, leaves a session without
    identifier, entries, start time or totals and a provider that holds
    no child; its last message is [sessionCleared].  The busy flag is
    cleared if a child was held, and left as it was otherwise.  The
    session that follows is not new to the assistant: if the flag is
    clear by then (it is whenever it was set only while a child was
    held), the first message after [newSession], with no identifier to
    resume, is sent with [--continue], which makes the assistant carry
    on with its most recent conversation.  If the flag was set with no
    child held, it stays set and the message is refused as one that
    comes while another is in flight. *)
Theorem newSession_then_continue (w : world) :
  result_of (newSession w) = Returns tt ->
  _currentSessionId (world_after (newSession w)) = VNull
  /\ _currentConversation (world_after (newSession w)) = []
  /\ _conversationStartTime (world_after (newSession w)) = VNull
  /\ (_totalCost (world_after (newSession w)),
      _totalTokensInput (world_after (newSession w)),
      _totalTokensOutput (world_after (newSession w)),
      _requestCount (world_after (newSession w)))
     = (num 0, num 0, num 0, num_of_Z 0)
  /\ supervision (world_after (newSession w))
     = (match _currentClaudeProcess w with
        | Some _ => false
        | None => _isProcessing w
        end, None)
  /\ List.last (effects_of (newSession w)) (Kill 0) = Post (lit "sessionCleared") VUndef
  /\ forall message planMode thinkingMode,
       if _isProcessing (world_after (newSession w))
       then
         sendMessage message planMode thinkingMode (world_after (newSession w))
         = (Returns tt, world_after (newSession w),
            [Post (lit "error")
               (str "Already processing a message. Please wait or stop the current request.")])
       else
         exists w' args input,
           sendMessage message planMode thinkingMode (world_after (newSession w))
           = (Returns tt, w',
              [Post (lit "userInput") message;
               Post (lit "setProcessing") (obj [("isProcessing", VBool true)]%string);
               Spawn (spawned w) args input])
           /\ In (str "--continue") args.
Proof.
  intros returned.
  destruct (stop_outcome w) as (ok & outcome & _).
  pose proof (save_keeps (fun w => (supervision w, spawned w))
                ltac:(intros; reflexivity) ltac:(intros; reflexivity)) as kept.
  assert (supervision (world_after (stopCurrentRequest w))
          = (match _currentClaudeProcess w with
             | Some _ => false
             | None => _isProcessing w
             end, None)
          /\ spawned (world_after (stopCurrentRequest w)) = spawned w) as [idle same].
  { destruct (_currentClaudeProcess w) as [p|] eqn:current.
    - destruct outcome as (cleared & _). split; [exact cleared|].
      unfold stopCurrentRequest. rewrite bind_read, current, bind_emit, !bind_modify.
      rewrite world_after_run.
      exact (sendAndSave_keeps spawned "error" (str "Claude code was stopped.")
               ltac:(intros; reflexivity) ltac:(intros; reflexivity)
               ltac:(intros; reflexivity)
               (set__isProcessing false (set__currentClaudeProcess None w))).
    - rewrite outcome, world_after_run. split; [|reflexivity].
      unfold supervision. rewrite current. reflexivity. }
  unfold newSession in returned |- *. unfold bind in returned |- *.
  destruct (stopCurrentRequest w) as [[r1 w1] t1].
  unfold result_of in ok. cbn [fst] in ok. subst r1.
  rewrite world_after_run in idle, same.
  specialize (kept w1).
  destruct (_saveCurrentConversation w1) as [[[[]|e] w2] t2];
    [|unfold result_of in returned; cbn [fst] in returned; discriminate].
  unfold keeps in kept. rewrite world_after_run in kept.
  apply pair_equal_spec in kept as [kept same2].
  rewrite idle in kept. rewrite same in same2. clear returned.
  cbv beta iota delta [modify emit _postMessage].
  unfold world_after, effects_of. cbn [fst snd].
  split; [reflexivity|]. split; [reflexivity|]. split; [reflexivity|].
  split; [reflexivity|]. split; [exact kept|].
  split; [rewrite !app_assoc; apply last_last|].
  intros message planMode thinkingMode.
  match goal with
  | |- if _isProcessing ?w' then _ else _ =>
      destruct (_isProcessing w') eqn:flag;
      [apply sendMessage_rejected; exact flag|];
      destruct (sendMessage_without_identifier message planMode thinkingMode w')
        as (w3 & args & input & run & continues); [exact flag | reflexivity |]
  end.
  exists w3, args, input. rewrite run. split; [|exact continues].
  rewrite <- same2. reflexivity.
Qed.

Ltac grows_side :=
  intros; exists []; rewrite app_nil_r; reflexivity.

Lemma Date_now_grows : holds grows Date_now.
Proof. intros w. exists []. rewrite app_nil_r. reflexivity. Qed.

Lemma sendAndSave_grows (type : string) (data : value) :
  holds grows (_sendAndSaveMessage type data).
Proof.
  intros w. destruct (sendAndSave_spec type data w) as (t & w' & run & conv & _).
  rewrite run. eexists. exact conv.
Qed.

Lemma save_grows : holds grows _saveCurrentConversation.
Proof.
  intros w. exists []. rewrite app_nil_r. apply save_conversation_kept.
Qed.

Ltac grows_base :=
  first [ apply sendAndSave_grows | apply save_grows | apply Date_now_grows ].

(** X14.  While a session is live its record is only added to: a
    message sent, a stop, a data, stderr, close or error event of any
    child, [cleanup], a permission request and its answer each leave
    the entries that were there, in their order, at the start of the
    conversation, however the call ends. *)
Theorem conversation_only_grows :
  (forall message planMode thinkingMode,
      holds grows (sendMessage message planMode thinkingMode))
  /\ holds grows stopCurrentRequest
  /\ (forall pid chunk, holds grows (on_stdout pid chunk))
  /\ (forall pid chunk, holds grows (on_stderr pid chunk))
  /\ (forall pid code, holds grows (on_close pid code))
  /\ (forall pid error, holds grows (on_error pid error))
  /\ holds grows cleanup
  /\ (forall toolName command, holds grows (handlePermissionRequest toolName command))
  /\ (forall id approved alwaysAllow,
         holds grows (handlePermissionResponse id approved alwaysAllow)).
Proof.
  repeat split.
  - intros message planMode thinkingMode.
    unfold sendMessage, spawn, assigned_by_claude, new_Date_toISOString, _postMessage.
    follow grows_base grows_side.
  - unfold stopCurrentRequest. follow grows_base grows_side.
  - intros pid chunk w. destruct (on_stdout_logs pid chunk w) as (new & conv & _).
    exists new. exact conv.
  - intros pid chunk. unfold on_stderr. follow grows_base grows_side.
  - intros pid code. unfold on_close, _postMessage. follow grows_base grows_side.
  - intros pid error. unfold on_error, _postMessage. follow grows_base grows_side.
  - unfold cleanup, stopCurrentRequest. follow grows_base grows_side.
  - intros toolName command. unfold handlePermissionRequest, _postMessage.
    follow grows_base grows_side.
  - intros id approved alwaysAllow.
    unfold handlePermissionResponse, call_resolver, _savePermissions,
      new_Date_toISOString.
    follow grows_base grows_side.
Qed.

(** ** Permissions *)

Lemma join_cons (sep p : jstring) (ps : list jstring) :
  ps <> [] -> join sep (p :: ps) = p ++ sep ++ join sep ps.
Proof. destruct ps; [contradiction | reflexivity]. Qed.

(** Joining what was split gives the text back. *)
Lemma join_split_on (sep : N) (s : jstring) : join [sep] (split_on sep s) = s.
Proof.
  induction s as [|c s IH]; [reflexivity|].
  pose proof (split_on_nonempty sep s) as nonempty.
  cbn [split_on]. destruct (c =? sep) eqn:is_sep.
  - apply N.eqb_eq in is_sep. subst c.
    rewrite join_cons by exact nonempty. rewrite IH. reflexivity.
  - destruct (split_on sep s) as [|l ls]; [contradiction|].
    destruct ls as [|l2 ls2].
    + cbn [join] in *. rewrite IH. reflexivity.
    + rewrite join_cons in * by discriminate. rewrite <- IH. reflexivity.
Qed.

Lemma split_on_two (sep : N) (s : jstring) :
  existsb (N.eqb sep) s = true ->
  exists first second more, split_on sep s = first :: second :: more.
Proof.
  induction s as [|c s IH]; [discriminate|].
  pose proof (split_on_nonempty sep s) as nonempty.
  cbn [existsb split_on]. rewrite (N.eqb_sym sep c).
  destruct (c =? sep) eqn:is_sep.
  - intros _. destruct (split_on sep s) as [|l ls]; [contradiction|].
    exists [], l, ls. reflexivity.
  - cbn [orb]. intros has. destruct (IH has) as (first & second & more & E).
    rewrite E. exists (c :: first), second, more. reflexivity.
Qed.

(** A key that contains a colon is the tool and the command that it
    is listed with, joined by a colon. *)
Lemma permission_of_key (key : jstring) :
  existsb (N.eqb 58) key = true ->
  to_string (field "tool" (permission_of key)) ++ lit ":"
    ++ to_string (field "command" (permission_of key)) = key.
Proof.
  intros has. unfold permission_of.
  pose proof (join_split_on 58 key) as joined.
  destruct (split_on_two 58 key has) as (tool & second & more & E).
  rewrite E in joined |- *.
  change (field "tool" (obj [("tool", VStr tool);
                             ("command", VStr (join (lit ":") (second :: more)))]%string))
    with (VStr tool).
  change (field "command" (obj [("tool", VStr tool);
                                ("command", VStr (join (lit ":") (second :: more)))]%string))
    with (VStr (join (lit ":") (second :: more))).
  cbn [to_string]. rewrite join_cons in joined by discriminate. exact joined.
Qed.

Lemma removePermission_run (tool command : value) (w : world) :
  let key := to_string tool ++ lit ":" ++ to_string command in
  let w' := set__permissions (delete key (_permissions w)) w in
  removePermission tool command w
  = (Returns tt, w',
     [Write [sessionStorePath w; lit "permissions.json"]
        (VObj (map_to_list (_permissions w')));
      Post (lit "permissions")
        (VArr (List.map (fun kv => permission_of (fst kv))
                 (List.filter (fun kv => truthy (snd kv))
                    (Object_entries (_permissions w')))))]).
Proof.
  intros key w'.
  unfold removePermission, _savePermissions, getPermissions, _postMessage,
    bind, read, modify, emit.
  reflexivity.
Qed.

Lemma filter_permutes {A} (keep : A -> bool) (l l' : list A) :
  Permutation l l' -> Permutation (List.filter keep l) (List.filter keep l').
Proof.
  induction 1 as [|x l l' _ IH|x y l|l l' l'' _ IH1 _ IH2]; cbn [List.filter].
  - constructor.
  - destruct (keep x); [constructor|]; exact IH.
  - destruct (keep x), (keep y); try reflexivity. constructor.
  - etransitivity; eassumption.
Qed.

(** X15.  A permission can be taken back through its listing.  Let
    [Object.entries] give the entries of the allow-list, in whatever
    order.  The pair of tool and command that [getPermissions] shows
    for a key of the allow-list that contains a colon, given to
    [removePermission], removes that very key and no other; the
    allow-list that is then written holds the entries that are left,
    and the listing that is then posted holds the tool and the command
    of every key that is left with a true value, once each (the order
    of the fields and of the listing is not stated); afterwards a
    request for any tool and command that make up the key is no longer
    allowed at once but put to the user. *)
Theorem listed_permission_can_be_removed (key : jstring) (w : world) :
  (forall permissions : gmap jstring value,
      Permutation (Object_entries permissions) (map_to_list permissions)) ->
  existsb (N.eqb 58) key = true ->
  let listing := permission_of key in
  let removed :=
    removePermission (field "tool" listing) (field "command" listing) w in
  result_of removed = Returns tt
  /\ _permissions (world_after removed) = delete key (_permissions w)
  /\ (exists fields pairs,
        effects_of removed
        = [Write [sessionStorePath w; lit "permissions.json"] (VObj fields);
           Post (lit "permissions") (VArr pairs)]
        /\ Permutation fields (map_to_list (delete key (_permissions w)))
        /\ Permutation pairs
             (List.map (fun kv => permission_of (fst kv))
                (List.filter (fun kv => truthy (snd kv))
                   (map_to_list (delete key (_permissions w))))))
  /\ forall toolName command,
       to_string toolName ++ lit ":" ++ to_string command = key ->
       result_of (handlePermissionRequest toolName command (world_after removed))
       = Returns (Pending (promises w)).
Proof.
  intros entries has listing removed. subst removed.
  rewrite removePermission_run. cbv zeta. unfold listing.
  rewrite (permission_of_key key has).
  unfold result_of, world_after, effects_of. cbn [fst snd].
  split; [reflexivity|]. split; [reflexivity|]. split.
  - eexists. eexists. split; [reflexivity|].
    change (_permissions (set__permissions ?x _)) with x.
    split; [reflexivity|].
    apply Permutation_map, filter_permutes, entries.
  - intros toolName command made. unfold handlePermissionRequest.
    rewrite made, bind_read.
    change (_permissions (set__permissions ?x _)) with x.
    rewrite lookup_delete_eq. cbn [default truthy].
    unfold Date_now, bind, read, modify, _postMessage, emit, ret. reflexivity.
Qed.

Lemma pending_set (x : gmap jstring resolver) (w : world) :
  _pendingPermissions (set__pendingPermissions x w) = x.
Proof. reflexivity. Qed.

Lemma pending_get_delete (id : value) (pending : gmap jstring resolver) :
  pending_get id (pending_delete id pending) = None.
Proof. destruct id; try reflexivity. apply lookup_delete_eq. Qed.

(** What the function installed for a file request does when it is
    called. *)
Lemma call_file_resolver (requestFile : jstring) (requestId approved : value)
    (w : world) :
  let responseFile := replace_first (lit ".request") (lit ".response") requestFile in
  let response :=
    Write [responseFile]
      (obj [("id", requestId); ("approved", approved);
            ("timestamp", VStr (toISOString (clock (ticks w))))]%string) in
  call_resolver (FileResolver requestFile requestId) approved w
  = if writable (at_the_write w) responseFile
    then (Returns tt, at_the_write w, [response; Unlink requestFile])
    else (Throws FsError, at_the_write w, [response]).
Proof.
  cbv zeta. unfold call_resolver, new_Date_toISOString, Date_now, at_the_write.
  unfold bind, ret, emit, read, throw.
  destruct (writable (set_ticks (S (ticks w)) w) _); reflexivity.
Qed.

(** What answering a pending request does: the function kept for the
    request is called, and if it returns, the request is no longer
    pending; if it throws, the answer ends there. *)
Lemma response_run (id approved alwaysAllow : value) (r : resolver) (w : world) :
  pending_get id (_pendingPermissions w) = Some r ->
  forall w0 called,
    call_resolver r approved w = (Returns tt, w0, called) ->
    _pendingPermissions w0 = _pendingPermissions w ->
    exists w' more,
      handlePermissionResponse id approved alwaysAllow w
      = (Returns tt, w', called ++ more)
      /\ _pendingPermissions w' = pending_delete id (_pendingPermissions w)
      /\ Forall (fun e => not_a_write e = false) more.
Proof.
  intros pending w0 called call same.
  unfold handlePermissionResponse. rewrite bind_read, pending.
  set (tail := when (truthy approved && truthy alwaysAllow) _).
  assert (forall w0, exists w' more,
             tail w0 = (Returns tt, w', more)
             /\ _pendingPermissions w' = _pendingPermissions w0
             /\ Forall (fun e => not_a_write e = false) more) as tail_run.
  { intros w1. unfold tail.
    destruct (truthy approved && truthy alwaysAllow); cbn [when];
      [|exists w1, []; repeat split; constructor].
    rewrite bind_read.
    destruct (pending_get (plus id (str "_data")) (_pendingPermissions w1));
      [|exists w1, []; repeat split; constructor].
    rewrite bind_modify. unfold _savePermissions. rewrite bind_read.
    eexists. eexists. split; [reflexivity|]. split; [reflexivity|].
    constructor; [reflexivity | constructor]. }
  destruct (tail_run (set__pendingPermissions
                        (pending_delete id (_pendingPermissions w0)) w0))
    as (w' & more & run & kept & writes).
  exists w', more. split; [|split; [|exact writes]].
  - apply (bind_run _ _ _ _ _ _ _ _ _ call). rewrite bind_modify. exact run.
  - rewrite kept, pending_set, same. reflexivity.
Qed.

Lemma response_promise (id approved alwaysAllow : value) (p : nat) (w : world) :
  pending_get id (_pendingPermissions w) = Some (PromiseResolver p) ->
  exists w' more,
    handlePermissionResponse id approved alwaysAllow w
    = (Returns tt, w', Resolve p approved :: more)
    /\ _pendingPermissions w' = pending_delete id (_pendingPermissions w)
    /\ Forall (fun e => not_a_write e = false) more.
Proof.
  intros pending.
  exact (response_run id approved alwaysAllow _ w pending w [Resolve p approved]
           eq_refl eq_refl).
Qed.

(** An answer to a file request: the response is handed to the file
    system; if it is written, the request file is removed and the
    request is no longer pending; if not, the answer ends with the
    exception of the write and the request is still pending. *)
Lemma response_file (id approved alwaysAllow : value) (requestFile : jstring)
    (requestId : value) (w : world) :
  pending_get id (_pendingPermissions w) = Some (FileResolver requestFile requestId) ->
  let responseFile := replace_first (lit ".request") (lit ".response") requestFile in
  let response :=
    Write [responseFile]
      (obj [("id", requestId); ("approved", approved);
            ("timestamp", VStr (toISOString (clock (ticks w))))]%string) in
  if writable (at_the_write w) responseFile
  then exists w' more,
         handlePermissionResponse id approved alwaysAllow w
         = (Returns tt, w', [response; Unlink requestFile] ++ more)
         /\ _pendingPermissions w' = pending_delete id (_pendingPermissions w)
         /\ Forall (fun e => not_a_write e = false) more
  else handlePermissionResponse id approved alwaysAllow w
       = (Throws FsError, at_the_write w, [response]).
Proof.
  intros pending responseFile response.
  pose proof (call_file_resolver requestFile requestId approved w) as call.
  cbv zeta in call. fold responseFile in call. fold response in call.
  destruct (writable (at_the_write w) responseFile).
  - exact (response_run id approved alwaysAllow _ w pending _ _ call eq_refl).
  - unfold handlePermissionResponse. rewrite bind_read, pending.
    apply (bind_throws _ _ _ _ _ _ call).
Qed.

(** Once an answer has gone through, a further answer that names the
    same request does nothing. *)
Lemma response_twice (id approved alwaysAllow approved' alwaysAllow' : value)
    (w : world) :
  result_of (handlePermissionResponse id approved alwaysAllow w) = Returns tt ->
  handlePermissionResponse id approved' alwaysAllow'
    (world_after (handlePermissionResponse id approved alwaysAllow w))
  = (Returns tt, world_after (handlePermissionResponse id approved alwaysAllow w), []).
Proof.
  intros returned.
  assert (forall w0, pending_get id (_pendingPermissions w0) = None ->
            forall a b, handlePermissionResponse id a b w0 = (Returns tt, w0, []))
    as unknown.
  { intros w0 none a b. unfold handlePermissionResponse. rewrite bind_read, none.
    reflexivity. }
  destruct (pending_get id (_pendingPermissions w)) as [r|] eqn:pending.
  - destruct r as [p | requestFile requestId].
    + destruct (response_promise id approved alwaysAllow p w pending)
        as (w' & more & run & gone & _).
      rewrite run, world_after_run. apply unknown. rewrite gone.
      apply pending_get_delete.
    + pose proof (response_file id approved alwaysAllow requestFile requestId w pending)
        as answer.
      cbv zeta in answer.
      destruct (writable (at_the_write w) _).
      * destruct answer as (w' & more & run & gone & _).
        rewrite run, world_after_run. apply unknown. rewrite gone.
        apply pending_get_delete.
      * rewrite answer in returned. discriminate.
  - rewrite (unknown w pending), world_after_run. apply unknown. exact pending.
Qed.

(** X16.  A permission request is answered at most once.  A request
    for a tool and command that the allow-list does not hold is posted
    with an identifier made of the clock reading and waits on a
    promise; the answer that names the identifier resolves that promise
    with the decision, and any further answer that names it does
    nothing at all. *)
Theorem permission_request_is_answered_once (toolName command approved
    alwaysAllow : value) (w : world) :
  truthy (default VUndef
            (_permissions w !! (to_string toolName ++ lit ":" ++ to_string command)))
  = false ->
  let asked := handlePermissionRequest toolName command w in
  let id := VStr (lit "perm_" ++ num_to_string (num_of_Z (clock (ticks w)))) in
  let answered := handlePermissionResponse id approved alwaysAllow (world_after asked) in
  result_of asked = Returns (Pending (promises w))
  /\ effects_of asked
     = [Post (lit "permissionRequest")
          (obj [("id", id); ("tool", toolName); ("command", command)]%string)]
  /\ result_of answered = Returns tt
  /\ hd_error (effects_of answered) = Some (Resolve (promises w) approved)
  /\ forall approved' alwaysAllow',
       handlePermissionResponse id approved' alwaysAllow' (world_after answered)
       = (Returns tt, world_after answered, []).
Proof.
  intros refused asked id answered.
  assert (asked
          = (Returns (Pending (promises w)),
             set__pendingPermissions
               (<[lit "perm_" ++ num_to_string (num_of_Z (clock (ticks w)))
                  := PromiseResolver (promises w)]> (_pendingPermissions w))
               (set_promises (S (promises w)) (set_ticks (S (ticks w)) w)),
             [Post (lit "permissionRequest")
                (obj [("id", id); ("tool", toolName); ("command", command)]%string)]))
    as run_asked.
  { unfold asked, handlePermissionRequest. rewrite bind_read, refused.
    unfold Date_now, bind, read, modify, _postMessage, emit, ret. reflexivity. }
  subst answered. rewrite run_asked.
  unfold result_of at 1, effects_of at 1. cbn [fst snd].
  split; [reflexivity|]. split; [reflexivity|].
  rewrite world_after_run.
  match goal with
  | |- context [handlePermissionResponse id approved alwaysAllow ?w1] =>
      destruct (response_promise id approved alwaysAllow (promises w) w1)
        as (w' & more & run & _ & _);
      [apply lookup_insert_eq|]
  end.
  split; [rewrite run; reflexivity|]. split; [rewrite run; reflexivity|].
  intros approved' alwaysAllow'. apply response_twice. rewrite run. reflexivity.
Qed.

Lemma file_request_run (requestFile : jstring) (request : value) (w : world) :
  request <> VUndef -> request <> VNull ->
  let id := num_to_string (num_of_Z (clock (ticks w))) in
  _handlePermissionRequestFile requestFile (Some request) w
  = (Returns tt,
     set__pendingPermissions
       (<[id := FileResolver requestFile (field "id" request)]> (_pendingPermissions w))
       (set_ticks (S (ticks w)) w),
     [Post (lit "permissionRequest")
        (obj [("id", VStr id); ("tool", field "tool" request);
              ("command", JSON_stringify (field "input" request))]%string)]).
Proof.
  intros defined not_null id.
  destruct request; try contradiction; reflexivity.
Qed.

(** X17.  A permission request that arrives as a file is answered in a
    file, if the file can be written.  The request is posted under an
    identifier that is the clock reading, with the tool of the request
    and its input as text.  The answer that names the identifier hands
    to the file system, for the path of the request file with its first
    [.request] replaced by [.response], the identifier that the request
    itself carries, the decision and the time.  If the file system
    takes the file, the request file is removed next and any further
    answer does nothing.  If it does not (the path may lie in a
    directory that is not there), the answer ends with the exception of
    the write: the request file is not removed and the request is still
    pending. *)
Theorem file_request_is_answered_in_a_file (requestFile : jstring)
    (request approved alwaysAllow : value) (w : world) :
  request <> VUndef ->
  request <> VNull ->
  let asked := _handlePermissionRequestFile requestFile (Some request) w in
  let id := VStr (num_to_string (num_of_Z (clock (ticks w)))) in
  let answered := handlePermissionResponse id approved alwaysAllow (world_after asked) in
  let responseFile := replace_first (lit ".request") (lit ".response") requestFile in
  let response :=
    Write [responseFile]
      (obj [("id", field "id" request); ("approved", approved);
            ("timestamp", VStr (toISOString (clock (S (ticks w)))))]%string) in
  result_of asked = Returns tt
  /\ effects_of asked
     = [Post (lit "permissionRequest")
          (obj [("id", id); ("tool", field "tool" request);
                ("command", JSON_stringify (field "input" request))]%string)]
  /\ pending_get id (_pendingPermissions (world_after asked))
     = Some (FileResolver requestFile (field "id" request))
  /\ if writable (at_the_write (world_after asked)) responseFile
     then
       result_of answered = Returns tt
       /\ firstn 2 (effects_of answered) = [response; Unlink requestFile]
       /\ pending_get id (_pendingPermissions (world_after answered)) = None
       /\ forall approved' alwaysAllow',
            handlePermissionResponse id approved' alwaysAllow' (world_after answered)
            = (Returns tt, world_after answered, [])
     else
       answered = (Throws FsError, at_the_write (world_after asked), [response]).
Proof.
  intros defined not_null asked id answered responseFile response.
  subst answered asked.
  rewrite (file_request_run requestFile request w defined not_null). cbv zeta.
  unfold result_of at 1, effects_of at 1. cbn [fst snd].
  split; [reflexivity|]. split; [reflexivity|].
  rewrite world_after_run.
  set (w1 := set__pendingPermissions _ _).
  assert (pending_get id (_pendingPermissions w1)
          = Some (FileResolver requestFile (field "id" request))) as pending
    by apply lookup_insert_eq.
  split; [exact pending|].
  pose proof (response_file id approved alwaysAllow requestFile (field "id" request)
                w1 pending) as answer.
  cbv zeta in answer. fold responseFile in answer.
  change (ticks w1) with (S (ticks w)) in answer. fold response in answer.
  destruct (writable (at_the_write w1) responseFile); [|exact answer].
  destruct answer as (w' & more & run & gone & _).
  split; [rewrite run; reflexivity|]. split; [rewrite run; reflexivity|].
  split; [rewrite run, world_after_run, gone; apply pending_get_delete|].
  intros approved' alwaysAllow'. apply response_twice. rewrite run. reflexivity.
Qed.

(** X18.  Two request files handled within the same millisecond get
    the same identifier, and the second takes the place of the first:
    one request is left pending under the identifier, the second.  An
    answer is handed to the file system for the second file; if it is
    written, the second request file is removed and nothing is pending
    under the identifier any more, and if not, the second request is
    still pending.  Either way nothing is left that could answer the
    first. *)
Theorem file_requests_in_the_same_millisecond (file1 file2 : jstring)
    (request1 request2 approved alwaysAllow : value) (w : world) :
  clock (S (ticks w)) = clock (ticks w) ->
  request1 <> VUndef -> request1 <> VNull ->
  request2 <> VUndef -> request2 <> VNull ->
  let first := _handlePermissionRequestFile file1 (Some request1) w in
  let second := _handlePermissionRequestFile file2 (Some request2) (world_after first) in
  let id := num_to_string (num_of_Z (clock (ticks w))) in
  let answered :=
    handlePermissionResponse (VStr id) approved alwaysAllow (world_after second) in
  let responseFile := replace_first (lit ".request") (lit ".response") file2 in
  let response :=
    Write [responseFile]
      (obj [("id", field "id" request2); ("approved", approved);
            ("timestamp", VStr (toISOString (clock (S (S (ticks w))))))]%string) in
  (exists data1 data2,
      effects_of first = [Post (lit "permissionRequest") data1]
      /\ effects_of second = [Post (lit "permissionRequest") data2]
      /\ field "id" data1 = VStr id /\ field "id" data2 = VStr id)
  /\ _pendingPermissions (world_after second)
     = <[id := FileResolver file2 (field "id" request2)]> (_pendingPermissions w)
  /\ if writable (at_the_write (world_after second)) responseFile
     then firstn 2 (effects_of answered) = [response; Unlink file2]
          /\ _pendingPermissions (world_after answered)
             = delete id (_pendingPermissions w)
     else effects_of answered = [response]
          /\ _pendingPermissions (world_after answered)
             = <[id := FileResolver file2 (field "id" request2)]>
                 (_pendingPermissions w).
Proof.
  intros same_time defined1 not_null1 defined2 not_null2 first second id answered
    responseFile response.
  subst answered second first.
  rewrite (file_request_run file1 request1 w defined1 not_null1). cbv zeta.
  rewrite world_after_run.
  rewrite (file_request_run file2 request2 _ defined2 not_null2). cbv zeta.
  rewrite !world_after_run.
  change (ticks (set__pendingPermissions _ (set_ticks (S (ticks w)) w)))
    with (S (ticks w)).
  rewrite same_time. fold id.
  rewrite !pending_set, insert_insert_eq.
  unfold effects_of at 1 2. cbn [snd].
  split; [do 2 eexists; repeat split; reflexivity|]. split; [reflexivity|].
  set (w2 := set__pendingPermissions _ _).
  assert (pending_get (VStr id) (_pendingPermissions w2)
          = Some (FileResolver file2 (field "id" request2))) as pending
    by apply lookup_insert_eq.
  pose proof (response_file (VStr id) approved alwaysAllow file2 (field "id" request2)
                w2 pending) as answer.
  cbv zeta in answer. fold responseFile in answer.
  change (ticks w2) with (S (S (ticks w))) in answer. fold response in answer.
  destruct (writable (at_the_write w2) responseFile).
  - destruct answer as (w' & more & run & gone & _).
    rewrite run, world_after_run. split; [reflexivity|].
    rewrite gone. cbn [pending_delete]. unfold w2.
    rewrite pending_set. apply delete_insert_eq.
  - rewrite answer. split; reflexivity.
Qed.

Lemma lookup_json_fields_map (l : list (jstring * value)) (key : jstring) :
  NoDup (List.map fst l) ->
  (list_to_map (json_fields l) : gmap jstring value) !! key
  = match (list_to_map l : gmap jstring value) !! key with
    | Some VUndef | None => None
    | Some v => Some (json_image v)
    end.
Proof.
  induction l as [|[k v] l IH]; [intros _; reflexivity|].
  cbn [List.map fst]. intros distinct. apply NoDup_cons in distinct as [fresh distinct].
  specialize (IH distinct). rewrite json_fields_cons.
  assert ((list_to_map l : gmap jstring value) !! k = None) as absent
    by (apply not_elem_of_list_to_map_1; exact fresh).
  cbn [list_to_map foldr uncurry curry fst snd].
  destruct (decide (key = k)) as [->|other].
  - rewrite lookup_insert_eq.
    destruct v; cbn [list_to_map foldr]; rewrite ?lookup_insert_eq; try reflexivity.
    rewrite IH, absent. reflexivity.
  - rewrite (lookup_insert_ne _ _ _ _ (not_eq_sym other)).
    destruct v; cbn [list_to_map foldr];
      rewrite ?(lookup_insert_ne _ _ _ _ (not_eq_sym other)); exact IH.
Qed.

Lemma request_result (toolName command : value) (w : world) :
  result_of (handlePermissionRequest toolName command w)
  = Returns (if allowed (_permissions w) toolName command
             then Resolved (VBool true) else Pending (promises w)).
Proof.
  unfold handlePermissionRequest, allowed. rewrite bind_read.
  destruct (truthy _); [reflexivity|].
  unfold Date_now, bind, read, modify, _postMessage, emit, ret. reflexivity.
Qed.

Lemma allowed_after_reload (permissions : gmap jstring value)
    (toolName command : value) :
  allowed (list_to_map (json_fields (map_to_list permissions))) toolName command
  = allowed permissions toolName command.
Proof.
  unfold allowed.
  rewrite lookup_json_fields_map by apply NoDup_fst_map_to_list.
  rewrite list_to_map_to_list.
  destruct (permissions !! _) as [v|]; [|reflexivity].
  destruct v as [| | |[|m e]| | |]; reflexivity.
Qed.

(** X19.  The allow-list survives a save and a load.  A provider that
    loads the file [_savePermissions] writes, as JSON gives it back,
    allows at once exactly the requests that the provider that saved it
    allowed at once. *)
Theorem allow_list_survives_reload (w fresh : world) :
  exists doc,
    effects_of (_savePermissions w)
    = [Write [sessionStorePath w; lit "permissions.json"] doc]
    /\ result_of (_loadPermissions (Some (Some (json_image doc))) fresh) = Returns tt
    /\ forall toolName command,
         result_of (handlePermissionRequest toolName command
                      (world_after (_loadPermissions (Some (Some (json_image doc)))
                                      fresh)))
         = Returns (Resolved (VBool true))
         <-> result_of (handlePermissionRequest toolName command w)
             = Returns (Resolved (VBool true)).
Proof.
  exists (VObj (map_to_list (_permissions w))).
  split; [reflexivity|]. rewrite json_image_obj.
  split; [reflexivity|]. intros toolName command.
  rewrite !request_result.
  change (_permissions (world_after (_loadPermissions _ fresh)))
    with (list_to_map (json_fields (map_to_list (_permissions w))) : gmap jstring value).
  rewrite allowed_after_reload.
  destruct (allowed (_permissions w) toolName command);
    split; intros E; (reflexivity || discriminate).
Qed.

(** ** Settings *)

Lemma assigned_by_claude_resumable (sessionId : value) (w : world) :
  negb (truthy sessionId) || is_string sessionId = true ->
  assigned_by_claude sessionId w = (Returns (resumable sessionId), w, []).
Proof.
  unfold assigned_by_claude, resumable.
  destruct sessionId as [| |b|n|s| |]; try reflexivity; try discriminate.
  - destruct b; [discriminate | reflexivity].
  - cbn [is_string orb]. rewrite orb_false_r. intros zero.
    apply negb_true_iff in zero. rewrite zero. reflexivity.
  - intros _. destruct s; reflexivity.
Qed.

(** X20.  The model that is selected is the model that the next child
    is started with.  [selectModel] writes the settings; a message sent
    next, to a provider that is idle and whose session identifier is a
    string or nothing, starts one child whose arguments are the
    fixed ones, the permission bridge when its configuration exists,
    [--resume] with the identifier when it is one to resume and
    [--continue] otherwise, [--model] with the selected model unless it
    is empty or ["default"], and [--think] when asked for; the child is
    given the message on its stdin, after the word plan and an empty
    line in plan mode, and a line feed after it. *)
Theorem selected_model_is_passed_on (model _thinkingMode message planMode
    thinkingMode : value) (w : world) :
  _isProcessing w = false ->
  negb (truthy (_currentSessionId w)) || is_string (_currentSessionId w) = true ->
  exists w',
    (selectModel model _thinkingMode ;; sendMessage message planMode thinkingMode) w
    = (Returns tt, w',
       [Write [sessionStorePath w; lit "settings.json"]
          (obj [("selectedModel", model); ("thinkingMode", _thinkingMode)]%string);
        Post (lit "userInput") message;
        Post (lit "setProcessing") (obj [("isProcessing", VBool true)]%string);
        Spawn (spawned w)
          ([str "-p"; str "--output-format"; str "stream-json"; str "--verbose"]
           ++ (if mcpConfigExists w
               then [str "--mcp-config"; VStr (mcpConfigPath w);
                     str "--allowedTools"; permission_tool;
                     str "--permission-prompt-tool"; permission_tool]
               else [])
           ++ (if resumable (_currentSessionId w)
               then [str "--resume"; _currentSessionId w] else [str "--continue"])
           ++ (if truthy model && negb (is_str (lit "default") model)
               then [str "--model"; model] else [])
           ++ (if truthy thinkingMode then [str "--think"] else []))
          (plus (if truthy planMode
                 then VStr (lit "plan" ++ [10; 10] ++ to_string message)
                 else message)
             (VStr [10]))]).
Proof.
  intros idle text.
  set (w0 := set__selectedModel model w).
  assert (selectModel model _thinkingMode w
          = (Returns tt, w0,
             [Write [sessionStorePath w; lit "settings.json"]
                (obj [("selectedModel", model);
                      ("thinkingMode", _thinkingMode)]%string)])) as selected
    by reflexivity.
  destruct (sendMessage_idle message planMode thinkingMode w0 idle)
    as (w1 & timestamp & run & conv & id & _ & n & _ & rest).
  unfold beyond_the_session in rest.
  assert (mcpConfigExists w1 = mcpConfigExists w /\ mcpConfigPath w1 = mcpConfigPath w
          /\ _selectedModel w1 = model) as (exists_ & path & chosen).
  { repeat (apply pair_equal_spec in rest as [rest ?]). repeat split; assumption. }
  eexists. apply (bind_run _ _ _ _ _ _ _ _ _ selected). apply run.
  unfold start_child. rewrite bind_modify. apply bind_emit_run. rewrite bind_read.
  change (_currentSessionId (set__isProcessing true w1)) with (_currentSessionId w1).
  rewrite id.
  rewrite (bind_quiet _ _ _ _ _ (assigned_by_claude_resumable _ _ text)).
  unfold spawn. rewrite bind_read, !bind_modify.
  rewrite arguments_parts.
  change (mcpConfigExists (set__isProcessing true w1)) with (mcpConfigExists w1).
  change (mcpConfigPath (set__isProcessing true w1)) with (mcpConfigPath w1).
  change (_selectedModel (set__isProcessing true w1)) with (_selectedModel w1).
  change (_currentSessionId (set__isProcessing true w1)) with (_currentSessionId w1).
  change (_currentConversation (set__isProcessing true w1))
    with (_currentConversation w1).
  change (spawned (set__isProcessing true w1)) with (spawned w1).
  rewrite exists_, path, chosen, id, conv, n.
  replace (0 <? length (_currentConversation w0 ++ _))%nat with true
    by (rewrite length_app, Nat.add_comm; reflexivity).
  reflexivity.
Qed.

Lemma loadSettings_run (fields : list (jstring * value)) (w : world) :
  _loadSettings (Some (Some (VObj fields))) w
  = (Returns tt,
     set__selectedModel
       (or_else (lookup_field (lit "selectedModel") fields) (str "default")) w,
     []).
Proof. reflexivity. Qed.

(** X21.  The selected model survives a save and a load of the
    settings; the thinking mode is written with it.  A provider that
    loads the file [_saveSettings] writes, as JSON gives it back, has
    the model of the provider that saved it, or ["default"] when that
    model was no true value. *)
Theorem settings_survive_reload (_thinkingMode : value) (w fresh : world) :
  exists doc,
    effects_of (_saveSettings _thinkingMode w)
    = [Write [sessionStorePath w; lit "settings.json"] doc]
    /\ field "thinkingMode" doc = _thinkingMode
    /\ result_of (_loadSettings (Some (Some (json_image doc))) fresh) = Returns tt
    /\ _selectedModel (world_after (_loadSettings (Some (Some (json_image doc))) fresh))
       = or_else (json_image (_selectedModel w)) (str "default").
Proof.
  exists (settings_document w _thinkingMode).
  split; [reflexivity|]. split; [reflexivity|].
  unfold settings_document, obj. cbn [List.map fst snd]. rewrite json_image_obj.
  rewrite loadSettings_run.
  assert (lookup_field (lit "selectedModel")
            (json_fields [(lit "selectedModel", _selectedModel w);
                          (lit "thinkingMode", _thinkingMode)])
          = match _selectedModel w with
            | VUndef => VUndef
            | v => json_image v
            end) as read_model.
  { rewrite json_fields_cons.
    destruct (_selectedModel w); try reflexivity.
    rewrite json_fields_cons. destruct _thinkingMode; reflexivity. }
  rewrite read_model. unfold result_of, world_after. cbn [fst snd].
  split; [reflexivity|].
  destruct (_selectedModel w); reflexivity.
Qed.

(** ** The server *)

(** X22.  The name under which a new project is created cannot leave
    the projects directory: whatever name is asked for, the sanitised
    name has as many code units, all of them letters, digits, hyphens
    or underscores; it therefore holds no separator and no dot, and
    when the name asked for is not empty it is a plain file name.
    Sanitising a sanitised name changes nothing. *)
Theorem sanitizedName_is_plain (projectName : jstring) :
  length (sanitizedName projectName) = length projectName
  /\ forallb name_unit (sanitizedName projectName) = true
  /\ existsb (fun c => (c =? 47) || (c =? 46) || (c =? 0)) (sanitizedName projectName)
     = false
  /\ (projectName <> [] -> plain_name (sanitizedName projectName) = true)
  /\ sanitizedName (sanitizedName projectName) = sanitizedName projectName.
Proof.
  assert (forall c, name_unit (if name_unit c then c else 45) = true) as unit.
  { intros c. destruct (name_unit c) eqn:E; [exact E | reflexivity]. }
  assert (forall c, name_unit c = true ->
                    (c =? 47) || (c =? 46) || (c =? 0) = false) as safe.
  { intros c ok. destruct (c =? 47) eqn:E1; [apply N.eqb_eq in E1; subst; discriminate|].
    destruct (c =? 46) eqn:E2; [apply N.eqb_eq in E2; subst; discriminate|].
    destruct (c =? 0) eqn:E3; [apply N.eqb_eq in E3; subst; discriminate|].
    reflexivity. }
  assert (forall l, existsb (fun c => (c =? 47) || (c =? 0)) (sanitizedName l) = false)
    as no_separator.
  { induction l as [|c l IH]; [reflexivity|]. cbn [sanitizedName List.map existsb].
    fold (sanitizedName l). rewrite IH, orb_false_r.
    pose proof (safe _ (unit c)) as ok.
    destruct ((if name_unit c then c else 45) =? 47); [discriminate|].
    destruct ((if name_unit c then c else 45) =? 46); [discriminate|]. exact ok. }
  unfold sanitizedName at 1 2 3. split; [apply length_map|]. split; [|split; [|split]].
  - induction projectName as [|c l IH]; [reflexivity|].
    cbn [List.map forallb]. rewrite unit, IH. reflexivity.
  - induction projectName as [|c l IH]; [reflexivity|].
    cbn [List.map existsb]. rewrite (safe _ (unit c)), IH. reflexivity.
  - intros nonempty. unfold plain_name. rewrite no_separator.
    destruct projectName; [contradiction | reflexivity].
  - unfold sanitizedName. rewrite List.map_map. apply List.map_ext.
    intros c. rewrite unit. reflexivity.
Qed.

(** ** The stand-ins are what they stand for *)


(** ** Totals *)

Lemma holds_bind_pure {A B} (R : world -> list effect -> world -> Prop)
    (m : M A) (a : A) (k : A -> M B) :
  (forall w, m w = (Returns a, w, [])) -> holds R (k a) -> holds R (bind m k).
Proof. intros pure Hk w. rewrite (bind_quiet _ _ _ _ _ (pure w)). apply Hk. Qed.

(** X23.  What a run reports at its end is shown but not added up.  A
    line of type [result] leaves the totals of the session (cost,
    tokens in and out, number of requests) as they were; all it posts
    is an [updateTokens] message that carries the [total_cost_usd] of
    the line, or 0, as the current cost. *)
Theorem result_line_changes_no_totals (jsonData : value) (w : world) :
  is_str (lit "result") (field "type" jsonData) = true ->
  totals (world_after (_processJsonStreamData jsonData w)) = totals w
  /\ Forall (fun e => exists data,
                 e = Post (lit "updateTokens") data
                 /\ field "currentCost" data
                    = or_else (field "total_cost_usd" jsonData) (num 0))
       (effects_of (_processJsonStreamData jsonData w)).
Proof.
  intros is_result.
  destruct jsonData as [| | | | | |fs]; try discriminate. cbn [field] in *.
  destruct (lookup_field (lit "type") fs) as [| | | |s| |] eqn:type; try discriminate.
  cbn [is_str] in is_result. apply str_eqb_eq in is_result. subst s.
  assert (forall R : world -> list effect -> world -> Prop,
             Stepwise R ->
             (forall x w, R w [] (set__currentSessionId x w)) ->
             (forall data,
                 field "currentCost" data
                 = or_else (lookup_field (lit "total_cost_usd") fs) (num 0) ->
                 holds R (_sendAndSaveMessage "updateTokens" data)) ->
             holds R (_processJsonStreamData (VObj fs))) as walk.
  { intros R stepwise session post. unfold _processJsonStreamData.
    apply (holds_bind_pure R _ (str "result")); [intros w0; cbn [prop]; rewrite type; reflexivity|].
    change (is_str (lit "system") (str "result")) with false.
    change (is_str (lit "user") (str "result")) with false.
    change (is_str (lit "permission_request") (str "result")) with false.
    change (is_str (lit "assistant") (str "result")) with false.
    change (is_str (lit "final") (str "result")) with false.
    change (is_str (lit "result") (str "result")) with true.
    cbv iota.
    follow ltac:(first
                   [ apply post; reflexivity
                   | match goal with
                     | |- holds _ (bind (prop ?k (VObj ?fields)) _) =>
                         apply (holds_bind_pure _ _ (lookup_field (lit k) fields));
                         [intros; reflexivity|]
                     end ])
           ltac:(apply session). }
  split.
  - apply (walk (keeps totals)); [typeclasses eauto | intros; reflexivity|].
    intros data _. apply sendAndSave_keeps; intros; reflexivity.
  - apply (walk (emits (fun e => exists data,
                          e = Post (lit "updateTokens") data
                          /\ field "currentCost" data
                             = or_else (lookup_field (lit "total_cost_usd") fs) (num 0))));
      [typeclasses eauto | intros; constructor|].
    intros data cost. apply sendAndSave_emits. exists data. split; [reflexivity | exact cost].
Qed.

Lemma find_after (P : jstring * option value -> bool)
    (before rest : list (jstring * option value)) (f : jstring * option value) :
  forallb (fun x => negb (P x)) before = true ->
  P f = true ->
  List.find P (before ++ f :: rest) = Some f.
Proof.
  intros none found. induction before as [|x before IH].
  - cbn [app List.find]. rewrite found. reflexivity.
  - cbn [forallb] in none. apply andb_prop in none as [no rest_none].
    cbn [app List.find]. apply negb_true_iff in no. rewrite no. apply IH. exact rest_none.
Qed.

(** X24.  [loadConversation] goes by the names of the files before it
    goes by the records.  The first file of the directory whose name
    contains the text of the identifier that is asked for is the one
    loaded, whatever session its record holds: the session in memory
    becomes the one of the record, under the identifier of the record.
    (The empty text is contained in every name.) *)
Theorem loadConversation_by_name (sessionId : value) (w : world)
    (before rest : list (jstring * option value)) (name : jstring)
    (fields : list (jstring * value)) (entries : list value) :
  conversations w = Some (before ++ (name, Some (VObj fields)) :: rest) ->
  forallb (fun f => negb (record_named sessionId f)) before = true ->
  includes (to_string sessionId) name = true ->
  name <> [] ->
  lookup_field (lit "messages") fields = VArr entries ->
  forallb is_object entries = true ->
  result_of (loadConversation sessionId w) = Returns (VObj fields)
  /\ _currentSessionId (world_after (loadConversation sessionId w))
     = lookup_field (lit "sessionId") fields
  /\ _currentConversation (world_after (loadConversation sessionId w)) = entries.
Proof.
  intros dir none contained nonempty messages objects.
  assert (record_named sessionId (name, Some (VObj fields)) = true) as named.
  { unfold record_named. cbn [fst]. rewrite contained. reflexivity. }
  destruct (loadConversation_found sessionId w _ name fields entries dir
              (find_after _ _ _ _ none named) nonempty messages objects)
    as (w' & run & id & conv & _).
  rewrite run. repeat split; assumption.
Qed.
End Provider.

(** ** Sample runs *)

(** C1 at work: a second message while the first is in flight. *)
Lemma sendMessage_busy_witness :
  let w := set__isProcessing true initial_world in
  _isProcessing w = true
  /\ sendMessage sample_clock sample_toISOString (str "hi") VUndef VUndef w
     = (Returns tt, w,
        [Post (lit "error")
           (str "Already processing a message. Please wait or stop the current request.")]).
Proof.
  split; [reflexivity|].
  apply (sendMessage_busy sample_clock sample_toISOString (str "hi") VUndef VUndef
           (set__isProcessing true initial_world)).
  reflexivity.
Defined.

(** C3 (as amended) at work: the line "plain text" and its line feed
    on the stdout of the child that the first message spawned. *)
Lemma undecodable_line_witness :
  let w := world_after (sendMessage sample_clock sample_toISOString (str "hi")
                          VUndef VUndef initial_world) in
  children w !! 0%nat = Some (Child [] [])
  /\ Forall (fun c => c <> 10) (lit "plain text")
  /\ trim (lit "plain text") <> []
  /\ JSON.parse (trim (lit "plain text")) = None
  /\ exists timestamp w',
       on_stdout sample_clock sample_toISOString 0 (lit "plain text" ++ [10]) w
       = (Returns tt, w', [Post (lit "output") (str "plain text")])
       /\ _currentConversation w'
          = _currentConversation w
            ++ [timestampedMessage timestamp "output" (str "plain text")]
       /\ children w' !! 0%nat = Some (Child [] []).
Proof.
  intros w.
  assert (children w !! 0%nat = Some (Child [] [])) as running
    by (vm_compute; reflexivity).
  assert (Forall (fun c => c <> 10) (lit "plain text")) as one_line
    by (vm_compute; repeat (constructor; [easy|]); constructor).
  assert (trim (lit "plain text") <> []) as text by (vm_compute; discriminate).
  assert (JSON.parse (trim (lit "plain text")) = None) as undecodable
    by (vm_compute; reflexivity).
  repeat (split; [assumption|]).
  destruct (proj1 (undecodable_line_is_output sample_clock sample_toISOString w 0
                     (Child [] []) (lit "plain text") running one_line text
                     undecodable))
    as (timestamp & w' & run & conv & known & _).
  exists timestamp, w'. split; [exact run|]. split; [exact conv | exact known].
Defined.

(** C3 as the specification states it fails on a line of one space: the
    line is not empty and is not JSON, with or without trimming, and the
    handler, given the line and its line feed, drops it without a
    message and without an entry. *)
Lemma blank_line_is_dropped :
  let w := world_after (sendMessage sample_clock sample_toISOString (str "hi")
                          VUndef VUndef initial_world) in
  let read := on_stdout sample_clock sample_toISOString 0 (lit " " ++ [10]) w in
  children w !! 0%nat = Some (Child [] [])
  /\ lit " " <> []
  /\ JSON.parse (lit " ") = None
  /\ JSON.parse (trim (lit " ")) = None
  /\ result_of read = Returns tt
  /\ effects_of read = []
  /\ _currentConversation (world_after read) = _currentConversation w.
Proof.
  cbv zeta. split; [vm_compute; reflexivity|].
  split; [vm_compute; discriminate|].
  do 4 (split; [vm_compute; reflexivity|]). vm_compute. reflexivity.
Qed.

(** It fails as well on the last line of a child that ends its output
    without a line feed: the text stays in the line buffer, and when
    the child closes, the handler of the close logs the buffer and
    drops it.  No [output] is posted or recorded for the line. *)
Example last_line_without_line_feed :
  let w := world_after (sendMessage sample_clock sample_toISOString (str "hi")
                          VUndef VUndef initial_world) in
  let read := on_stdout sample_clock sample_toISOString 0 (lit "plain text") w in
  let closed := on_close sample_clock sample_toISOString 0 (num 0) (world_after read) in
  JSON.parse (trim (lit "plain text")) = None
  /\ effects_of read = []
  /\ children (world_after read) !! 0%nat = Some (Child (lit "plain text") [])
  /\ effects_of closed
     = [EndStdin 0;
        Post (lit "setProcessing") (obj [("isProcessing", VBool false)]%string)]
  /\ _currentConversation (world_after closed) = _currentConversation w.
Proof.
  cbv zeta. do 4 (split; [vm_compute; reflexivity|]). vm_compute. reflexivity.
Qed.


(** C4 at work: the line arrives on the stdout of the child that the
    first message spawned. *)
Lemma assistant_text_line_witness :
  let w := world_after (sendMessage sample_clock sample_toISOString (str "hi")
                          VUndef VUndef initial_world) in
  children w !! 0%nat = Some (Child [] [])
  /\ exists timestamp w',
       on_stdout sample_clock sample_toISOString 0 (hello_line ++ [10]) w
       = (Returns tt, w', [Post (lit "output") (str "Hello")])
       /\ _currentConversation w'
          = _currentConversation w
            ++ [timestampedMessage timestamp "output" (str "Hello")].
Proof.
  intros w.
  assert (children w !! 0%nat = Some (Child [] [])) as running
    by (vm_compute; reflexivity).
  split; [exact running|].
  exact (proj1 (assistant_text_line sample_clock sample_toISOString w 0
                  (Child [] []) running eq_refl)).
Defined.


(** C10 at work: the sample project, searched for "APP". *)
Lemma getWorkspaceFiles_witness :
  well_named (workspace initial_world) = true
  /\ exists files,
       getWorkspaceFiles sample_toLowerCase (str "APP") initial_world
       = (Returns tt, initial_world, [Post (lit "workspaceFiles") (VArr files)])
       /\ (length files <= 50)%nat.
Proof.
  split; [reflexivity|].
  destruct (getWorkspaceFiles_spec sample_toLowerCase (str "APP") initial_world eq_refl)
    as (files & run & short & _).
  exists files. auto.
Defined.


(** C2 (the code departs from the specification).  A first message to
    a fresh provider whose child exits with code 1 before it announces a
    session: the session then holds two entries and has no identifier,
    and the close handler writes nothing; the conversations directory
    stays empty. *)
Theorem exit_without_identifier_saves_nothing :
  let sent := sendMessage sample_clock sample_toISOString (str "hi") VUndef VUndef
                initial_world in
  let closed := on_close sample_clock sample_toISOString 0 (num 1)
                  (world_after sent) in
  _currentSessionId (world_after closed) = VNull
  /\ length (_currentConversation (world_after closed)) = 2%nat
  /\ effects_of closed
     = [EndStdin 0;
        Post (lit "setProcessing") (obj [("isProcessing", VBool false)]%string);
        Post (lit "error") (str "Claude exited with code 1")]
  /\ conversations (world_after closed) = Some [].
Proof. vm_compute. repeat split; reflexivity. Qed.

(** C5 (the code departs from the specification).  The first message
    of a fresh provider, which has no session identifier and an empty
    conversation, is sent with [--continue]. *)
Theorem first_message_is_sent_with_continue :
  _currentSessionId initial_world = VNull
  /\ _currentConversation initial_world = []
  /\ effects_of (sendMessage sample_clock sample_toISOString (str "hi") VUndef VUndef
                   initial_world)
     = [Post (lit "userInput") (str "hi");
        Post (lit "setProcessing") (obj [("isProcessing", VBool true)]%string);
        Spawn 0
          [str "-p"; str "--output-format"; str "stream-json"; str "--verbose";
           str "--mcp-config"; VStr (mcpConfigPath initial_world);
           str "--allowedTools"; permission_tool;
           str "--permission-prompt-tool"; permission_tool;
           str "--continue"]
          (VStr (lit "hi" ++ [10]))].
Proof. vm_compute. repeat split; reflexivity. Qed.

(** C7 (the code departs from the specification).  A request for Bash
    and ls is answered with approved and always allow: the promise is
    resolved, but no allow-list entry is made, and the same request
    asked again waits on a new promise and posts a new
    [permissionRequest]. *)
Theorem always_allow_is_not_remembered :
  let asked := handlePermissionRequest sample_clock (str "Bash") (str "ls")
                 initial_world in
  let answered := handlePermissionResponse sample_clock sample_toISOString
                    sample_writable
                    (str "perm_1700000000000") (VBool true) (VBool true)
                    (world_after asked) in
  let asked_again := handlePermissionRequest sample_clock (str "Bash") (str "ls")
                       (world_after answered) in
  result_of asked = Returns (Pending 0)
  /\ effects_of asked
     = [Post (lit "permissionRequest")
          (obj [("id", str "perm_1700000000000"); ("tool", str "Bash");
                ("command", str "ls")]%string)]
  /\ effects_of answered = [Resolve 0 (VBool true)]
  /\ _permissions (world_after answered) = ∅
  /\ result_of asked_again = Returns (Pending 1)
  /\ effects_of asked_again
     = [Post (lit "permissionRequest")
          (obj [("id", str "perm_1700000000001"); ("tool", str "Bash");
                ("command", str "ls")]%string)].
Proof. vm_compute. repeat split; reflexivity. Qed.

(** C9 (the code departs from the specification).  A session with one
    user message and one assistant turn is saved when its child exits, then
    loaded by its identifier: the load returns the stored record and
    puts its entries in memory, one of which is a user input, and sets
    the request count, which was 1, to 0. *)
Theorem load_counts_no_user_input :
  let sent := sendMessage sample_clock sample_toISOString (str "hi") VUndef VUndef
                initial_world in
  let streamed := on_stdout sample_clock sample_toISOString 0
                    (init_line ++ [10] ++ usage_line ++ [10]) (world_after sent) in
  let closed := on_close sample_clock sample_toISOString 0 (num 0)
                  (world_after streamed) in
  let loaded := loadConversation (str "abc-1") (world_after closed) in
  exists record entries,
    stored (lit "abc-1.json") (world_after closed) = Some record
    /\ result_of loaded = Returns record
    /\ field "messages" record = VArr entries
    /\ _currentConversation (world_after loaded) = entries
    /\ length (List.filter (messageType_is "userInput") entries) = 1%nat
    /\ _requestCount (world_after closed) = num_of_Z 1
    /\ _requestCount (world_after loaded) = num_of_Z 0.
Proof.
  do 2 eexists. vm_compute.
  split; [reflexivity|]. split; [reflexivity|]. split; [reflexivity|].
  repeat split; reflexivity.
Qed.

(** After [newSession] too: a session is saved, then cleared, and the
    first message of the new session is again sent with [--continue]. *)
Example new_session_continues :
  let sent := sendMessage sample_clock sample_toISOString (str "hi") VUndef VUndef
                initial_world in
  let streamed := on_stdout sample_clock sample_toISOString 0
                    (init_line ++ [10] ++ hello_line ++ [10]) (world_after sent) in
  let closed := on_close sample_clock sample_toISOString 0 (num 0)
                  (world_after streamed) in
  let cleared := newSession sample_clock sample_toISOString (world_after closed) in
  let next := sendMessage sample_clock sample_toISOString (str "next") VUndef VUndef
                (world_after cleared) in
  exists doc args input,
    effects_of cleared
    = [Write [conversationsPath initial_world; lit "abc-1.json"] doc;
       Post (lit "sessionCleared") VUndef]
    /\ _currentSessionId (world_after cleared) = VNull
    /\ _currentConversation (world_after cleared) = []
    /\ List.last (effects_of next) (Kill 0) = Spawn 1 args input
    /\ List.last args VUndef = str "--continue".
Proof.
  do 3 eexists. vm_compute.
  split; [reflexivity|]. split; [reflexivity|]. split; [reflexivity|].
  split; reflexivity.
Qed.

(** ** More sample runs *)

(** X1 at work: the line "café" and its line feed, cut after the
    last byte of the é. *)
Lemma stdout_data_chunks_witness :
  let w := world_after (sendMessage sample_clock sample_toISOString (str "hi")
                          VUndef VUndef initial_world) in
  let a := ascii_bytes (lit "caf") ++ [Byte.xc3; Byte.xa9] in
  let b := [Byte.x0a] in
  ends_on_character a = true
  /\ (on_stdout_data sample_clock sample_toISOString 0 a ;;
      on_stdout_data sample_clock sample_toISOString 0 b)%js w
     = on_stdout_data sample_clock sample_toISOString 0 (a ++ b) w
  /\ effects_of (on_stdout_data sample_clock sample_toISOString 0 (a ++ b) w)
     = [Post (lit "output") (VStr (lit "caf" ++ [233]))].
Proof.
  intros w a b.
  assert (ends_on_character a = true) as boundary by (vm_compute; reflexivity).
  split; [exact boundary|]. split; [|vm_compute; reflexivity].
  exact (stdout_data_chunks sample_clock sample_toISOString 0 a b w boundary).
Defined.

(** The same line cut between the two bytes of the é: each half is
    turned into U+FFFD, and the text that is posted and recorded is
    not the text that the child wrote. *)
Example cut_inside_a_character :
  let w := world_after (sendMessage sample_clock sample_toISOString (str "hi")
                          VUndef VUndef initial_world) in
  let a := ascii_bytes (lit "caf") ++ [Byte.xc3] in
  let b := [Byte.xa9; Byte.x0a] in
  ends_on_character a = false
  /\ effects_of (on_stdout_data sample_clock sample_toISOString 0 (a ++ b) w)
     = [Post (lit "output") (VStr (lit "caf" ++ [233]))]
  /\ effects_of ((on_stdout_data sample_clock sample_toISOString 0 a ;;
                  on_stdout_data sample_clock sample_toISOString 0 b)%js w)
     = [Post (lit "output") (VStr (lit "caf" ++ [65533; 65533]))].
Proof.
  cbv zeta. split; [vm_compute; reflexivity|].
  split; vm_compute; reflexivity.
Qed.

(** X4 at work: a child is stopped, a second message starts a second
    child, and then the first child closes; the second child, which is
    never killed, is no longer in the handle. *)
Lemma close_of_any_child_witness :
  let sent := sendMessage sample_clock sample_toISOString (str "hi") VUndef VUndef
                initial_world in
  let stopped := stopCurrentRequest sample_clock sample_toISOString (world_after sent) in
  let resent := sendMessage sample_clock sample_toISOString (str "again") VUndef VUndef
                  (world_after stopped) in
  let w := world_after resent in
  let closed := on_close sample_clock sample_toISOString 0 VNull w in
  children w !! 0%nat = Some (Child [] [])
  /\ _currentClaudeProcess w = Some 1%nat
  /\ _currentClaudeProcess (world_after closed) = None
  /\ _isProcessing (world_after closed) = false
  /\ hd_error (effects_of closed) = Some (EndStdin 1)
  /\ existsb is_kill (effects_of closed) = false
  /\ stopCurrentRequest sample_clock sample_toISOString (world_after closed)
     = (Returns tt, world_after closed, []).
Proof.
  intros sent stopped resent w closed.
  assert (children w !! 0%nat = Some (Child [] [])) as known
    by (vm_compute; reflexivity).
  assert (_currentClaudeProcess w = Some 1%nat) as current
    by (vm_compute; reflexivity).
  split; [exact known|]. split; [exact current|].
  exact (close_of_any_child_clears_the_handle sample_clock sample_toISOString
           0 1 (Child [] []) VNull w known current).
Defined.


(** X6 at work: a provider whose session identifier is the number 5. *)
Lemma sendMessage_wedged_witness :
  let w := set__currentSessionId (num 5) initial_world in
  let sent := sendMessage sample_clock sample_toISOString (str "hi") VUndef VUndef w in
  _isProcessing w = false
  /\ truthy (_currentSessionId w) = true
  /\ is_string (_currentSessionId w) = false
  /\ result_of sent = Throws TypeError
  /\ _isProcessing (world_after sent) = true
  /\ _currentClaudeProcess (world_after sent) = None
  /\ effects_of (sendMessage sample_clock sample_toISOString (str "once more")
                   VUndef VUndef (world_after sent))
     = [Post (lit "error")
          (str "Already processing a message. Please wait or stop the current request.")].
Proof.
  intros w sent.
  assert (_isProcessing w = false) as idle by reflexivity.
  assert (truthy (_currentSessionId w) = true) as known by reflexivity.
  assert (is_string (_currentSessionId w) = false) as not_text by reflexivity.
  destruct (sendMessage_wedged_by_identifier sample_clock sample_toISOString
              (str "hi") VUndef VUndef w idle known not_text)
    as (failed & _ & busy & same & rejected & _).
  repeat (split; [assumption|]).
  exact (f_equal effects_of (rejected (str "once more") VUndef VUndef)).
Defined.

(** X7 at work: the child of the first message is stopped and closes
    with no exit code. *)
Lemma stop_then_close_witness :
  let w := world_after (sendMessage sample_clock sample_toISOString (str "hi")
                          VUndef VUndef initial_world) in
  _currentClaudeProcess w = Some 0%nat
  /\ children w !! 0%nat = Some (Child [] [])
  /\ exists saved,
       effects_of ((stopCurrentRequest sample_clock sample_toISOString ;;
                    on_close sample_clock sample_toISOString 0 VNull)%js w)
       = [Kill 0;
          Post (lit "error") (str "Claude code was stopped.");
          Post (lit "setProcessing") (obj [("isProcessing", VBool false)]%string);
          Post (lit "error") (str "Claude exited with code null")]
         ++ saved.
Proof.
  intros w.
  assert (_currentClaudeProcess w = Some 0%nat) as current by (vm_compute; reflexivity).
  assert (children w !! 0%nat = Some (Child [] [])) as known
    by (vm_compute; reflexivity).
  split; [exact current|]. split; [exact known|].
  destruct (stop_then_close_reports_twice sample_clock sample_toISOString
              0 (Child [] []) VNull w current known eq_refl eq_refl)
    as (saved & _ & _ & posted & _).
  exists saved. exact posted.
Defined.

(** X8 at work: the sample session is saved, and loaded again once
    its record is the one file of the directory. *)
Lemma save_then_load_witness :
  truthy (_currentSessionId sample_session) = true
  /\ _currentConversation sample_session <> []
  /\ forallb is_object (_currentConversation sample_session) = true
  /\ exists record,
       effects_of (_saveCurrentConversation sample_clock sample_toISOString
                     sample_session)
       = [Write [conversationsPath sample_session; lit "abc-1.json"] record]
       /\ let later :=
            set_conversations (Some [(lit "abc-1.json", Some (json_image record))])
              initial_world in
          result_of (loadConversation (str "abc-1") later)
          = Returns (json_image record)
          /\ _currentSessionId (world_after (loadConversation (str "abc-1") later))
             = str "abc-1"
          /\ _currentConversation (world_after (loadConversation (str "abc-1") later))
             = [first_message].
Proof.
  assert (truthy (_currentSessionId sample_session) = true) as known by reflexivity.
  assert (_currentConversation sample_session <> []) as some by discriminate.
  assert (forallb is_object (_currentConversation sample_session) = true) as objects
    by reflexivity.
  repeat (split; [assumption|]).
  destruct (save_then_load sample_clock sample_toISOString sample_session
              known some objects)
    as (record & written & loads).
  exists record. split; [exact written|]. intros later.
  destruct (loads later [(lit "abc-1.json", Some (json_image record))] eq_refl eq_refl)
    as (loaded & _ & id & entries).
  split; [exact loaded|]. split; [exact id | exact entries].
Defined.




(** X12 at work: the first message is sent, the assistant names the
    session and answers, and then a client connects. *)
Lemma replay_witness :
  let sent := sendMessage sample_clock sample_toISOString (str "hi") VUndef VUndef
                initial_world in
  let w := world_after (on_stdout sample_clock sample_toISOString 0 (init_line ++ [10])
                          (world_after sent)) in
  let live := on_stdout_data sample_clock sample_toISOString 0
                (ascii_bytes (hello_line ++ [10])) w in
  result_of (loadLatestConversation w) = Returns tt
  /\ effects_of live = [Post (lit "output") (str "Hello")]
  /\ effects_of (on_connection (world_after live))
     = [Post (lit "connected") VUndef;
        Post (lit "sessionResumed") (session_info (world_after live));
        Post (lit "userInput") (str "hi");
        Post (lit "sessionInfo")
          (obj [("sessionId", str "abc-1"); ("tools", VArr []);
                ("mcpServers", VArr [])]%string);
        Post (lit "output") (str "Hello");
        Post (lit "updateTotals") (totals (world_after live))].
Proof.
  intros sent w live.
  assert (result_of (loadLatestConversation w) = Returns tt) as returned
    by (vm_compute; reflexivity).
  split; [exact returned|]. split; [vm_compute; reflexivity|].
  pose proof (replay_shows_what_was_posted sample_clock sample_toISOString 0
                (ascii_bytes (hello_line ++ [10])) w returned) as shown_again.
  cbv zeta in shown_again. fold live in shown_again.
  rewrite shown_again. vm_compute. reflexivity.
Defined.

(** Without the line that names the session, the client that connects
    is shown nothing of what was posted and recorded. *)
Example late_client_of_unnamed_session :
  let w := world_after (sendMessage sample_clock sample_toISOString (str "hi")
                          VUndef VUndef initial_world) in
  let live := on_stdout_data sample_clock sample_toISOString 0
                (ascii_bytes (hello_line ++ [10])) w in
  effects_of live = [Post (lit "output") (str "Hello")]
  /\ length (_currentConversation (world_after live)) = 2%nat
  /\ effects_of (on_connection (world_after live)) = [Post (lit "connected") VUndef].
Proof.
  cbv zeta. split; [vm_compute; reflexivity|].
  split; vm_compute; reflexivity.
Qed.

(** X13 at work: a session that the assistant has named, its child
    still running. *)
Lemma newSession_witness :
  let sent := sendMessage sample_clock sample_toISOString (str "hi") VUndef VUndef
                initial_world in
  let w := world_after (on_stdout sample_clock sample_toISOString 0 (init_line ++ [10])
                          (world_after sent)) in
  result_of (newSession sample_clock sample_toISOString w) = Returns tt
  /\ _currentSessionId w = str "abc-1"
  /\ _currentSessionId (world_after (newSession sample_clock sample_toISOString w))
     = VNull
  /\ supervision (world_after (newSession sample_clock sample_toISOString w))
     = (false, None)
  /\ exists w' args input,
       sendMessage sample_clock sample_toISOString (str "next") VUndef VUndef
         (world_after (newSession sample_clock sample_toISOString w))
       = (Returns tt, w',
          [Post (lit "userInput") (str "next");
           Post (lit "setProcessing") (obj [("isProcessing", VBool true)]%string);
           Spawn 1 args input])
       /\ In (str "--continue") args.
Proof.
  intros sent w.
  assert (result_of (newSession sample_clock sample_toISOString w) = Returns tt)
    as returned by (vm_compute; reflexivity).
  split; [exact returned|].
  split; [vm_compute; reflexivity|].
  destruct (newSession_then_continue sample_clock sample_toISOString w returned)
    as (cleared & _ & _ & _ & idle & _ & next).
  split; [exact cleared|]. split; [exact idle|].
  specialize (next (str "next") VUndef VUndef).
  rewrite (flag_of_supervision _ _ _ idle) in next. exact next.
Defined.

(** A provider whose flag is set with no child held (a message was
    sent while the session identifier was the number 5): [newSession]
    leaves the flag set, and the next message is refused. *)
Example newSession_of_wedged_provider :
  let w := world_after (sendMessage sample_clock sample_toISOString (str "hi")
                          VUndef VUndef
                          (set__currentSessionId (num 5) initial_world)) in
  let fresh := world_after (newSession sample_clock sample_toISOString w) in
  supervision w = (true, None)
  /\ result_of (newSession sample_clock sample_toISOString w) = Returns tt
  /\ _currentSessionId fresh = VNull
  /\ supervision fresh = (true, None)
  /\ sendMessage sample_clock sample_toISOString (str "next") VUndef VUndef fresh
     = (Returns tt, fresh,
        [Post (lit "error")
           (str "Already processing a message. Please wait or stop the current request.")]).
Proof.
  cbv zeta. do 4 (split; [vm_compute; reflexivity|]). vm_compute. reflexivity.
Qed.

(** X15 at work: one of the three entries of the sample allow-list,
    taken back. *)
Lemma listed_permission_witness :
  let removed :=
    removePermission sample_Object_entries (str "Bash") (str "ls -la")
      with_permissions in
  (forall permissions : gmap jstring value,
      Permutation (sample_Object_entries permissions) (map_to_list permissions))
  /\ existsb (N.eqb 58) (lit "Bash:ls -la") = true
  /\ permission_of (lit "Bash:ls -la")
     = obj [("tool", str "Bash"); ("command", str "ls -la")]%string
  /\ _permissions (world_after removed)
     = delete (lit "Bash:ls -la") (_permissions with_permissions)
  /\ (exists fields pairs,
        effects_of removed
        = [Write [sessionStorePath with_permissions; lit "permissions.json"]
             (VObj fields);
           Post (lit "permissions") (VArr pairs)]
        /\ Permutation fields
             [(lit "Bash:rm -rf /", VBool false); (lit "Read:notes.txt", VBool true)]
        /\ Permutation pairs
             [obj [("tool", str "Read"); ("command", str "notes.txt")]%string])
  /\ result_of (handlePermissionRequest sample_clock (str "Bash") (str "ls -la")
                  (world_after removed))
     = Returns (Pending 0).
Proof.
  intros removed.
  assert (forall permissions : gmap jstring value,
             Permutation (sample_Object_entries permissions) (map_to_list permissions))
    as entries by reflexivity.
  assert (existsb (N.eqb 58) (lit "Bash:ls -la") = true) as has by reflexivity.
  split; [exact entries|]. split; [exact has|]. split; [reflexivity|].
  destruct (listed_permission_can_be_removed sample_clock sample_Object_entries
              (lit "Bash:ls -la") with_permissions entries has)
    as (_ & gone & (fields & pairs & run & written & listed) & asks).
  split; [exact gone|]. split; [|exact (asks (str "Bash") (str "ls -la") eq_refl)].
  exists fields, pairs. split; [exact run|].
  assert (map_to_list (delete (lit "Bash:ls -la") (_permissions with_permissions))
          = [(lit "Read:notes.txt", VBool true); (lit "Bash:rm -rf /", VBool false)])
    as left by (vm_compute; reflexivity).
  rewrite left in written, listed. split.
  - rewrite written. apply perm_swap.
  - rewrite listed. vm_compute. reflexivity.
Defined.

(** X16 at work: a request for Bash and ls, answered twice. *)
Lemma permission_request_witness :
  let asked := handlePermissionRequest sample_clock (str "Bash") (str "ls")
                 initial_world in
  let answered := handlePermissionResponse sample_clock sample_toISOString
                    sample_writable
                    (str "perm_1700000000000") (VBool true) (VBool false)
                    (world_after asked) in
  truthy (default VUndef (_permissions initial_world !! lit "Bash:ls")) = false
  /\ hd_error (effects_of answered) = Some (Resolve 0 (VBool true))
  /\ handlePermissionResponse sample_clock sample_toISOString sample_writable
       (str "perm_1700000000000") (VBool false) (VBool false) (world_after answered)
     = (Returns tt, world_after answered, []).
Proof.
  intros asked answered.
  assert (truthy (default VUndef
                    (_permissions initial_world
                       !! (to_string (str "Bash") ++ lit ":" ++ to_string (str "ls"))))
          = false) as refused by reflexivity.
  split; [exact refused|].
  destruct (permission_request_is_answered_once sample_clock sample_toISOString
              sample_writable
              (str "Bash") (str "ls") (VBool true) (VBool false) initial_world refused)
    as (_ & _ & _ & resolved & once).
  split; [exact resolved|]. exact (once (VBool false) (VBool false)).
Defined.

(** X17 at work: the sample request arrives as a file and is
    approved, and the file system takes the response. *)
Lemma file_request_witness :
  let file := lit "/home/pi/project/.claude-code-chat/permission-requests/7.request" in
  let asked := _handlePermissionRequestFile sample_clock sample_JSON_stringify file
                 (Some sample_request) initial_world in
  let answered := handlePermissionResponse sample_clock sample_toISOString
                    sample_writable
                    (str "1700000000000") (VBool true) (VBool false)
                    (world_after asked) in
  sample_request <> VUndef
  /\ sample_request <> VNull
  /\ effects_of asked
     = [Post (lit "permissionRequest")
          (obj [("id", str "1700000000000"); ("tool", str "Bash");
                ("command", VStr (quoted "'ls'"))]%string)]
  /\ result_of answered = Returns tt
  /\ effects_of answered
     = [Write [lit "/home/pi/project/.claude-code-chat/permission-requests/7.response"]
          (obj [("id", str "req-7"); ("approved", VBool true);
                ("timestamp", str "1700000000001")]%string);
        Unlink file]
  /\ handlePermissionResponse sample_clock sample_toISOString sample_writable
       (str "1700000000000") (VBool false) (VBool false) (world_after answered)
     = (Returns tt, world_after answered, []).
Proof.
  intros file asked answered.
  assert (sample_request <> VUndef) as defined by discriminate.
  assert (sample_request <> VNull) as not_null by discriminate.
  split; [exact defined|]. split; [exact not_null|].
  destruct (file_request_is_answered_in_a_file sample_clock sample_toISOString
              sample_writable sample_JSON_stringify file sample_request
              (VBool true) (VBool false) initial_world defined not_null)
    as (_ & posted & _ & (returned & _ & _ & once)).
  split; [exact posted|]. split; [exact returned|].
  split; [vm_compute; reflexivity|].
  exact (once (VBool false) (VBool false)).
Defined.

(** A request file whose path has its first [.request] in the name of
    a directory: the response is handed over for a path in a directory
    that is not there, the write fails, the answer ends with its
    exception, the request file is not removed and the request stays
    pending. *)
Example response_that_cannot_be_written :
  let file := lit "/srv/chat.requests/7.request" in
  let asked := _handlePermissionRequestFile sample_clock sample_JSON_stringify file
                 (Some sample_request) initial_world in
  let answered := handlePermissionResponse sample_clock sample_toISOString
                    strict_writable
                    (str "1700000000000") (VBool true) (VBool false)
                    (world_after asked) in
  result_of answered = Throws FsError
  /\ effects_of answered
     = [Write [lit "/srv/chat.responses/7.request"]
          (obj [("id", str "req-7"); ("approved", VBool true);
                ("timestamp", str "1700000000001")]%string)]
  /\ _pendingPermissions (world_after answered) !! lit "1700000000000"
     = Some (FileResolver file (str "req-7")).
Proof.
  cbv zeta. split; [vm_compute; reflexivity|].
  split; vm_compute; reflexivity.
Qed.

(** X18 at work: two request files while the clock stands still. *)
Lemma same_millisecond_witness :
  let first := _handlePermissionRequestFile stopped_clock sample_JSON_stringify
                 (lit "1.request") (Some sample_request) initial_world in
  let second := _handlePermissionRequestFile stopped_clock sample_JSON_stringify
                  (lit "2.request") (Some sample_request) (world_after first) in
  let answered := handlePermissionResponse stopped_clock sample_toISOString
                    sample_writable
                    (str "1700000000000") (VBool true) (VBool false)
                    (world_after second) in
  stopped_clock (S (ticks initial_world)) = stopped_clock (ticks initial_world)
  /\ _pendingPermissions (world_after second)
     = <[lit "1700000000000" := FileResolver (lit "2.request") (str "req-7")]> ∅
  /\ firstn 2 (effects_of answered)
     = [Write [lit "2.response"]
          (obj [("id", str "req-7"); ("approved", VBool true);
                ("timestamp", str "1700000000000")]%string);
        Unlink (lit "2.request")]
  /\ _pendingPermissions (world_after answered) = delete (lit "1700000000000") ∅.
Proof.
  intros first second answered.
  assert (stopped_clock (S (ticks initial_world)) = stopped_clock (ticks initial_world))
    as same_time by reflexivity.
  split; [exact same_time|].
  destruct (file_requests_in_the_same_millisecond stopped_clock sample_toISOString
              sample_writable sample_JSON_stringify (lit "1.request") (lit "2.request")
              sample_request sample_request (VBool true) (VBool false) initial_world
              same_time ltac:(discriminate) ltac:(discriminate)
              ltac:(discriminate) ltac:(discriminate))
    as (_ & pending & (written & gone)).
  split; [exact pending|]. split; [vm_compute; reflexivity | exact gone].
Defined.

(** X20 at work: a model is selected, and the first message is sent
    in plan mode. *)
Lemma selected_model_witness :
  _isProcessing initial_world = false
  /\ negb (truthy (_currentSessionId initial_world))
     || is_string (_currentSessionId initial_world) = true
  /\ exists w',
       (selectModel (str "opus") (VBool false) ;;
        sendMessage sample_clock sample_toISOString (str "hi") (VBool true) VUndef)%js
         initial_world
       = (Returns tt, w',
          [Write [sessionStorePath initial_world; lit "settings.json"]
             (obj [("selectedModel", str "opus"); ("thinkingMode", VBool false)]%string);
           Post (lit "userInput") (str "hi");
           Post (lit "setProcessing") (obj [("isProcessing", VBool true)]%string);
           Spawn 0
             [str "-p"; str "--output-format"; str "stream-json"; str "--verbose";
              str "--mcp-config"; VStr (mcpConfigPath initial_world);
              str "--allowedTools"; permission_tool;
              str "--permission-prompt-tool"; permission_tool;
              str "--continue"; str "--model"; str "opus"]
             (VStr (lit "plan" ++ [10; 10] ++ lit "hi" ++ [10]))]).
Proof.
  assert (_isProcessing initial_world = false) as idle by reflexivity.
  assert (negb (truthy (_currentSessionId initial_world))
          || is_string (_currentSessionId initial_world) = true) as text by reflexivity.
  split; [exact idle|]. split; [exact text|].
  destruct (selected_model_is_passed_on sample_clock sample_toISOString
              (str "opus") (VBool false) (str "hi") (VBool true) VUndef initial_world
              idle text)
    as (w' & run).
  exists w'. exact run.
Defined.

(** X23 at work: the last line of a run, which reports a cost of five
    cents. *)
Lemma result_line_witness :
  let line :=
    obj [("type", str "result"); ("session_id", str "abc-1");
         ("usage", obj [("input_tokens", num 12); ("output_tokens", num 5)]);
         ("total_cost_usd", VNum (Num 5 (-2)))]%string in
  let processed := _processJsonStreamData sample_clock sample_toISOString line
                     initial_world in
  is_str (lit "result") (field "type" line) = true
  /\ totals (world_after processed) = totals initial_world
  /\ _totalCost (world_after processed) = num 0
  /\ exists data,
       effects_of processed = [Post (lit "updateTokens") data]
       /\ field "currentCost" data = VNum (Num 5 (-2)).
Proof.
  intros line processed.
  assert (is_str (lit "result") (field "type" line) = true) as is_result
    by reflexivity.
  split; [exact is_result|].
  destruct (result_line_changes_no_totals sample_clock sample_toISOString line
              initial_world is_result) as (same & _).
  split; [exact same|]. split; [vm_compute; reflexivity|].
  eexists. split; vm_compute; reflexivity.
Defined.

(** X24 at work: asked for session abc-1, [loadConversation] takes the
    file of session abc-10, which comes first in the directory. *)
Lemma loadConversation_by_name_witness :
  let other := [(lit "sessionId", str "abc-10"); (lit "messages", VArr [])] in
  let files :=
    [(lit "abc-10.json", Some (VObj other));
     (lit "abc-1.json",
      Some (obj [("sessionId", str "abc-1"); ("messages", VArr [])]%string))] in
  let w := set_conversations (Some files) initial_world in
  includes (to_string (str "abc-1")) (lit "abc-10.json") = true
  /\ result_of (loadConversation (str "abc-1") w) = Returns (VObj other)
  /\ _currentSessionId (world_after (loadConversation (str "abc-1") w)) = str "abc-10".
Proof.
  intros other files w.
  assert (includes (to_string (str "abc-1")) (lit "abc-10.json") = true) as contained
    by reflexivity.
  split; [exact contained|].
  destruct (loadConversation_by_name (str "abc-1") w [] _ (lit "abc-10.json") other []
              eq_refl eq_refl contained ltac:(discriminate) eq_refl eq_refl)
    as (loaded & id & _).
  split; [exact loaded | exact id].
Defined.

(** X25 at work: the child of the first message complains, in two
    chunks, and exits with code 1. *)
Lemma stderr_witness :
  let w := world_after (sendMessage sample_clock sample_toISOString (str "hi")
                          VUndef VUndef initial_world) in
  let chunks := [ascii_bytes (lit "no such "); ascii_bytes (lit "model" ++ [10])] in
  let heard := for_each (on_stderr_data 0) chunks w in
  let closed := on_close sample_clock sample_toISOString 0 (num 1) (world_after heard) in
  children w !! 0%nat = Some (Child [] [])
  /\ exists saved timestamp,
       effects_of closed
       = [EndStdin 0]
         ++ [Post (lit "setProcessing") (obj [("isProcessing", VBool false)]%string)]
         ++ [Post (lit "error") (str "no such model")]
         ++ saved
       /\ _currentConversation (world_after closed)
          = _currentConversation w
            ++ [timestampedMessage timestamp "error" (str "no such model")].
Proof.
  intros w chunks heard closed.
  assert (children w !! 0%nat = Some (Child [] [])) as known
    by (vm_compute; reflexivity).
  split; [exact known|].
  destruct (stderr_is_reported_on_failure sample_clock sample_toISOString 0
              (Child [] []) chunks (num 1) w known)
    as (_ & _ & _ & saved & timestamp & reported & _ & recorded).
  exists saved, timestamp. split; [exact reported | exact recorded].
Defined.
